(** * Document-signing engine ([digital_signature.py])

    A shallow embedding of the [DigitalSignature] class: key-store
    initialisation, [sign_document], [verify_signature] and the signature
    ledger, followed by the properties of the engine.

    Conventions.
    - The file system is a finite map from path strings to nodes; the
      in-memory ledger [self.signatures] is a Python dictionary, kept as an
      association list in insertion order.
    - Methods run in a state-and-exception monad over the [world]; an
      exception that leaves a method is the outcome [Raised].
    - The cryptographic library, base64 and JSON are an interface
      ([Primitives]) whose functional laws are stated apart
      ([PrimitiveLaws]).
    - The readings of the clock and the random salt of a call are explicit
      arguments of the method that consumes them.
    - Paths follow the POSIX flavour of [os.path].

    Limits of the model.
    - A file is written in one step and [json.dump] always returns: a
      save that stops after truncating the ledger file, or on a string
      that utf-8 cannot encode, is not a run of the model.  What is
      stated of a raising [sign_document] is stated through
      [_save_signatures] and says nothing of the file a failed save
      leaves.
    - The file system maps path spellings to nodes and resolves nothing:
      a second spelling of a file is a second entry, and a path that ends
      in a separator and names a regular file is absent here, where
      [open] raises [NotADirectoryError].  The account of all the ways
      [verify_signature] raises is given through [read_file] and fixes no
      kind of exception.
    - [strftime_YmdHMS] pads the year to four digits, as the C library
      does from the year 1000 on. *)

From Stdlib Require Import Strings.Byte Strings.Ascii ZArith Lia.
From stdpp Require Import gmap strings list fin_maps.

Open Scope string_scope.

(* ===================================================================== *)
(** * Python values, exceptions and outcomes *)
(* ===================================================================== *)

Definition bytes := list byte.

(** Values stored in the result dictionaries of the public methods. *)
Inductive pyval :=
| PyBool (b : bool)
| PyStr (s : string).

Inductive exn :=
| FileNotFoundError (path : string)
| IsADirectoryError (path : string)
| FileExistsError (path : string)
| ValueError (msg : string)
| BinasciiError (msg : string)
| InvalidSignature.

(** [str(e)] as used in the f-string of [verify_signature]. *)
Definition str_exn (e : exn) : string :=
  match e with
  | FileNotFoundError p => "[Errno 2] No such file or directory: '" +:+ p +:+ "'"
  | IsADirectoryError p => "[Errno 21] Is a directory: '" +:+ p +:+ "'"
  | FileExistsError p => "[Errno 17] File exists: '" +:+ p +:+ "'"
  | ValueError m => m
  | BinasciiError m => m
  | InvalidSignature => ""
  end.

Inductive outcome (A : Type) :=
| Returned (a : A)
| Raised (e : exn).
Arguments Returned {A} a.
Arguments Raised {A} e.

(* ===================================================================== *)
(** * Insertion-ordered dictionaries *)
(* ===================================================================== *)

Module PyDict.

Definition t (V : Type) := list (string * V).

(** [d[k] = v]: an existing key keeps its position, a new key goes last. *)
Fixpoint set {V} (d : t V) (k : string) (v : V) : t V :=
  match d with
  | [] => [(k, v)]
  | (k', v') :: d' =>
      if String.eqb k' k then (k', v) :: d' else (k', v') :: set d' k v
  end.

Fixpoint get {V} (d : t V) (k : string) : option V :=
  match d with
  | [] => None
  | (k', v') :: d' => if String.eqb k' k then Some v' else get d' k
  end.

Definition keys {V} (d : t V) : list string := map fst d.
Definition values {V} (d : t V) : list V := map snd d.

End PyDict.

(* ===================================================================== *)
(** * [os.path.normpath] (posixpath) *)
(* ===================================================================== *)

Module PosixPath.

Definition sep : ascii := "/"%char.

(** [path.split('/')] *)
Fixpoint split (s : string) : list string :=
  match s with
  | EmptyString => [EmptyString]
  | String c s' =>
      if Ascii.eqb c sep then EmptyString :: split s'
      else match split s' with
           | [] => [String c EmptyString]
           | w :: ws => String c w :: ws
           end
  end.

(** One or two leading slashes are kept, three or more count as one. *)
Definition initial_slashes (path : string) : nat :=
  if String.prefix "/" path then
    if String.prefix "//" path && negb (String.prefix "///" path) then 2
    else 1
  else 0.

(** The component loop; [new_comps] is kept with its last element first. *)
Fixpoint loop (init : nat) (comps new_comps : list string) : list string :=
  match comps with
  | [] => new_comps
  | comp :: rest =>
      if String.eqb comp "" || String.eqb comp "." then
        loop init rest new_comps
      else if negb (String.eqb comp "..")
              || (Nat.eqb init 0 && match new_comps with [] => true | _ => false end)
              || match new_comps with last :: _ => String.eqb last ".." | [] => false end
      then loop init rest (comp :: new_comps)
      else match new_comps with
           | _ :: popped => loop init rest popped
           | [] => loop init rest new_comps
           end
  end.

Definition slashes (n : nat) : string :=
  match n with
  | 0 => ""
  | 1 => "/"
  | _ => "//"
  end.

Definition normpath (path : string) : string :=
  if String.eqb path "" then "."
  else
    let init := initial_slashes path in
    let comps := rev (loop init (split path) []) in
    let path' := slashes init +:+ String.concat "/" comps in
    if String.eqb path' "" then "." else path'.

(** [os.path.join(a, b)] for a relative [b]. *)
Definition join (a b : string) : string := a +:+ "/" +:+ b.

(** ** Normal forms, for the proof that [normpath] is idempotent *)

Fixpoint no_sep (s : string) : Prop :=
  match s with
  | EmptyString => True
  | String c s' => c <> sep /\ no_sep s'
  end.

(** A component the loop keeps. *)
Definition proper (c : string) : Prop := c <> "" /\ c <> "." /\ no_sep c.

(** In a stack of kept components (last one first) everything below a
    [..] is a [..]. *)
Fixpoint dots_below (st : list string) : Prop :=
  match st with
  | [] => True
  | c :: st' => (c = ".." -> Forall (fun d => d = "..") st') /\ dots_below st'
  end.

(** The stack holds kept components only, and no [..] in a rooted path. *)
Definition normal (init : nat) (st : list string) : Prop :=
  Forall proper st /\
  (init <> 0 -> Forall (fun d => d <> "..") st) /\
  dots_below st.

End PosixPath.

(* ===================================================================== *)
(** * [datetime] and its two formatters *)
(* ===================================================================== *)

Record datetime := {
  year : nat; month : nat; day : nat;
  hour : nat; minute : nat; second : nat;
  microsecond : nat
}.

Definition digit (n : nat) : ascii := ascii_of_nat (48 + n mod 10).

(** The last [width] decimal digits of [n], zero-padded. *)
Fixpoint zfill (width n : nat) : string :=
  match width with
  | 0 => ""
  | S w => zfill w (n / 10) +:+ String (digit n) ""
  end.

(** [dt.strftime('%Y%m%d%H%M%S')] *)
Definition strftime_YmdHMS (dt : datetime) : string :=
  zfill 4 (year dt) +:+ zfill 2 (month dt) +:+ zfill 2 (day dt) +:+
  zfill 2 (hour dt) +:+ zfill 2 (minute dt) +:+ zfill 2 (second dt).

(** [dt.isoformat()] *)
Definition isoformat (dt : datetime) : string :=
  zfill 4 (year dt) +:+ "-" +:+ zfill 2 (month dt) +:+ "-" +:+ zfill 2 (day dt) +:+
  "T" +:+ zfill 2 (hour dt) +:+ ":" +:+ zfill 2 (minute dt) +:+ ":" +:+
  zfill 2 (second dt) +:+
  (if Nat.eqb (microsecond dt) 0 then "" else "." +:+ zfill 6 (microsecond dt)).

(** The ranges [datetime] enforces on its fields. *)
Definition well_formed (dt : datetime) : Prop :=
  1 <= year dt < 10 ^ 4 /\ 1 <= month dt <= 12 /\ 1 <= day dt <= 31 /\
  hour dt < 24 /\ minute dt < 60 /\ second dt < 60 /\ microsecond dt < 10 ^ 6.

(** Same calendar second: the fields [strftime_YmdHMS] prints agree. *)
Definition same_second (a b : datetime) : Prop :=
  year a = year b /\ month a = month b /\ day a = day b /\
  hour a = hour b /\ minute a = minute b /\ second a = second b.

(* ===================================================================== *)
(** * Signature records, the file system and the world *)
(* ===================================================================== *)

(** The dictionary [signature_data] built by [sign_document]. *)
Record SignatureRecord := {
  signature_id : string;
  document_path : string;
  signer_name : string;
  signer_email : string;
  signer_tax_code : string;
  signature : string;
  document_hash : string;
  timestamp : string;
  algorithm : string;
  key_size : Z;
  status : string
}.

Inductive node :=
| Dir
| File (content : bytes).

(** Durable state ([fs]) and the state of the [DigitalSignature] object
    ([signatures] is [self.signatures]). *)
Record world := {
  fs : gmap string node;
  signatures : PyDict.t SignatureRecord
}.

Definition with_fs (w : world) (f : gmap string node) : world :=
  {| fs := f; signatures := signatures w |}.

Definition with_signatures (w : world) (d : PyDict.t SignatureRecord) : world :=
  {| fs := fs w; signatures := d |}.

(* ===================================================================== *)
(** * The state-and-exception monad *)
(* ===================================================================== *)

Definition M (A : Type) : Type := world -> outcome A * world.

Definition ret {A} (a : A) : M A := fun w => (Returned a, w).

Definition bind {A B} (m : M A) (f : A -> M B) : M B := fun w =>
  match m w with
  | (Returned a, w') => f a w'
  | (Raised e, w') => (Raised e, w')
  end.

Declare Scope py_scope.
Delimit Scope py_scope with py.
Notation "x ← y ; z" := (bind y (fun x => z))
  (at level 20, y at level 100, z at level 200, only parsing) : py_scope.
Notation "x ;; z" := (bind x (fun _ => z))
  (at level 100, z at level 200, only parsing, right associativity) : py_scope.
Local Open Scope py_scope.

Definition raise {A} (e : exn) : M A := fun w => (Raised e, w).

(** A library call that returns or raises without touching the world. *)
Definition lift {A} (o : outcome A) : M A := fun w => (o, w).

(** [try: body except Exception as e: handler e] *)
Definition try_except {A} (body : M A) (handler : exn -> M A) : M A := fun w =>
  match body w with
  | (Raised e, w') => handler e w'
  | r => r
  end.

(** ** File system primitives *)

Definition os_path_exists (p : string) : M bool := fun w =>
  (Returned (match fs w !! p with Some _ => true | None => false end), w).

(** [os.makedirs(p, exist_ok=True)] *)
Definition os_makedirs (p : string) : M unit := fun w =>
  match fs w !! p with
  | None => (Returned tt, with_fs w (<[p := Dir]> (fs w)))
  | Some Dir => (Returned tt, w)
  | Some (File _) => (Raised (FileExistsError p), w)
  end.

(** [open(p, 'rb').read()] *)
Definition read_file (p : string) : M bytes := fun w =>
  match fs w !! p with
  | Some (File data) => (Returned data, w)
  | Some Dir => (Raised (IsADirectoryError p), w)
  | None => (Raised (FileNotFoundError p), w)
  end.

(** [open(p, 'wb').write(data)]; the map is flat, the parent directory
    of the engine's files is the one [__init__] creates. *)
Definition write_file (p : string) (data : bytes) : M unit := fun w =>
  match fs w !! p with
  | Some Dir => (Raised (IsADirectoryError p), w)
  | _ => (Returned tt, with_fs w (<[p := File data]> (fs w)))
  end.

Definition get_signatures : M (PyDict.t SignatureRecord) := fun w =>
  (Returned (signatures w), w).

Definition set_signatures (d : PyDict.t SignatureRecord) : M unit := fun w =>
  (Returned tt, with_signatures w d).

(** Equality of byte strings ([!=] on [bytes]). *)
Fixpoint bytes_eqb (a b : bytes) : bool :=
  match a, b with
  | [], [] => true
  | x :: a', y :: b' => Byte.eqb x y && bytes_eqb a' b'
  | _, _ => false
  end.

(* ===================================================================== *)
(** * The library interface *)
(* ===================================================================== *)

(** [cryptography], [base64] and [json] as the engine calls them.  The PSS
    salt and the key-generation entropy, drawn inside the library, are
    arguments here.  [pss_verify] answers [false] where the library raises
    [InvalidSignature]. *)
Class Primitives := {
  private_key : Type;
  public_key : Type;
  sha256 : bytes -> bytes;
  rsa_generate_private_key : forall (public_exponent key_size : Z) (entropy : bytes), private_key;
  public_key_of : private_key -> public_key;
  private_bytes : private_key -> bytes;
  public_bytes : public_key -> bytes;
  load_pem_private_key : bytes -> outcome private_key;
  load_pem_public_key : bytes -> outcome public_key;
  pss_sign : forall (key : private_key) (data salt : bytes), bytes;
  pss_verify : forall (key : public_key) (signature data : bytes), bool;
  self_signed_certificate :
    forall (key : private_key) (serial_number : Z) (not_valid_before utcnow : datetime), bytes;
  b64encode : bytes -> string;
  b64decode : string -> outcome bytes;
  json_dump : PyDict.t SignatureRecord -> bytes;
  json_load : bytes -> outcome (PyDict.t SignatureRecord)
}.

(** What the engine relies on: a signature made with a private key
    verifies under its public key, the PSS encoding determines its salt,
    and the encoders are undone by their decoders. *)
Class PrimitiveLaws `{Primitives} : Prop := {
  pss_verify_sign : forall sk data salt,
    pss_verify (public_key_of sk) (pss_sign sk data salt) data = true;
  pss_sign_salt_inj : forall sk data salt1 salt2,
    pss_sign sk data salt1 = pss_sign sk data salt2 -> salt1 = salt2;
  b64decode_b64encode : forall b, b64decode (b64encode b) = Returned b;
  load_private_bytes : forall sk, load_pem_private_key (private_bytes sk) = Returned sk;
  load_public_bytes : forall pk, load_pem_public_key (public_bytes pk) = Returned pk
}.

(** The randomness and clock readings one construction of the object may
    consume in [_generate_keys]. *)
Record keygen_env := {
  entropy : bytes;
  serial_number : Z;
  utcnow1 : datetime;
  utcnow2 : datetime
}.

(* ===================================================================== *)
(** * The [DigitalSignature] class *)
(* ===================================================================== *)

Definition keys_folder : string := "digital_keys".
Definition signatures_file : string := PosixPath.join keys_folder "signatures.json".
Definition private_key_path : string := PosixPath.join keys_folder "private_key.pem".
Definition public_key_path : string := PosixPath.join keys_folder "public_key.pem".
Definition certificate_path : string := PosixPath.join keys_folder "certificate.pem".

(** The [for ... : if ...: signature_data = sig; break] loop of
    [verify_signature] over [self.signatures.items()]. *)
Fixpoint scan_signatures (items : PyDict.t SignatureRecord) (normalized_path : string)
  : option SignatureRecord :=
  match items with
  | [] => None
  | (sig_id, sig) :: rest =>
      if String.eqb (PosixPath.normpath (document_path sig)) normalized_path
      then Some sig
      else scan_signatures rest normalized_path
  end.

Section Engine.
Context `{Primitives}.

Definition _save_signatures : M unit :=
  d ← get_signatures;
  write_file signatures_file (json_dump d).

Definition _load_signatures : M unit :=
  e ← os_path_exists signatures_file;
  if e then
    data ← read_file signatures_file;
    d ← lift (json_load data);
    set_signatures d
  else
    set_signatures [];;
    _save_signatures.

Definition _generate_keys (env : keygen_env) : M unit :=
  let private_key := rsa_generate_private_key 65537 2048 (entropy env) in
  write_file private_key_path (private_bytes private_key);;
  let public_key := public_key_of private_key in
  write_file public_key_path (public_bytes public_key);;
  let cert :=
    self_signed_certificate private_key (serial_number env) (utcnow1 env) (utcnow2 env) in
  write_file certificate_path cert.

Definition __init__ (env : keygen_env) : M unit :=
  os_makedirs keys_folder;;
  _load_signatures;;
  e ← os_path_exists private_key_path;
  if negb e then _generate_keys env else ret tt.

Definition _load_private_key : M private_key :=
  data ← read_file private_key_path;
  lift (load_pem_private_key data).

Definition _load_public_key : M public_key :=
  data ← read_file public_key_path;
  lift (load_pem_public_key data).

(** [now1] and [now2] are the two readings of [datetime.now()], [salt]
    the salt drawn by the PSS padding. *)
Definition sign_document (document_path : string) (signer_info : gmap string string)
    (now1 now2 : datetime) (salt : bytes) : M (gmap string pyval) :=
  e ← os_path_exists document_path;
  if negb e then
    ret {[ "error" := PyStr "Document not found" ]}
  else
    document_data ← read_file document_path;
    let document_hash := sha256 document_data in
    private_key ← _load_private_key;
    let signature := pss_sign private_key document_hash salt in
    let signature_b64 := b64encode signature in
    let signature_id := "SIG-" +:+ strftime_YmdHMS now1 in
    let signature_data := {|
      signature_id := signature_id;
      document_path := PosixPath.normpath document_path;
      signer_name := default "" (signer_info !! "name");
      signer_email := default "" (signer_info !! "email");
      signer_tax_code := default "" (signer_info !! "tax_code");
      signature := signature_b64;
      document_hash := b64encode document_hash;
      timestamp := isoformat now2;
      algorithm := "RSA-PSS-SHA256";
      key_size := 2048;
      status := "valid"
    |} in
    sigs ← get_signatures;
    set_signatures (PyDict.set sigs signature_id signature_data);;
    _save_signatures;;
    ret (<[ "success" := PyBool true ]>
         (<[ "signature_id" := PyStr signature_id ]>
         (<[ "signature" := PyStr signature_b64 ]>
         (<[ "timestamp" := PyStr (timestamp signature_data) ]>
         (<[ "signer" := PyStr (default "" (signer_info !! "name")) ]>
         {[ "message" :=
              PyStr "Document signed successfully with Vietnamese digital signature standard" ]}))))).

Definition verify_signature (signed_document_path : string) : M (gmap string pyval) :=
  let normalized_path := PosixPath.normpath signed_document_path in
  sigs ← get_signatures;
  match scan_signatures sigs normalized_path with
  | None =>
      ret (<[ "valid" := PyBool false ]>
           {[ "error" := PyStr "No signature found for this document" ]})
  | Some signature_data =>
      document_data ← read_file signed_document_path;
      let current_hash := sha256 document_data in
      stored_hash ← lift (b64decode (document_hash signature_data));
      if negb (bytes_eqb current_hash stored_hash) then
        ret (<[ "valid" := PyBool false ]>
             (<[ "error" := PyStr "Document has been modified after signing" ]>
             {[ "integrity" := PyStr "compromised" ]}))
      else
        try_except
          (signature ← lift (b64decode (signature signature_data));
           public_key ← _load_public_key;
           if pss_verify public_key signature current_hash then
             ret (<[ "valid" := PyBool true ]>
                  (<[ "signature_id" := PyStr (signature_id signature_data) ]>
                  (<[ "signer" := PyStr (signer_name signature_data) ]>
                  (<[ "timestamp" := PyStr (timestamp signature_data) ]>
                  (<[ "algorithm" := PyStr (algorithm signature_data) ]>
                  (<[ "integrity" := PyStr "intact" ]>
                  {[ "message" :=
                       PyStr "Signature is valid and complies with Vietnamese digital signature standards" ]}))))))
           else raise InvalidSignature)
          (fun e =>
             ret (<[ "valid" := PyBool false ]>
                  (<[ "error" := PyStr ("Signature verification failed: " +:+ str_exn e) ]>
                  {[ "integrity" := PyStr "invalid" ]})))
  end.

Definition sign_xml_invoice (xml_path : string) (now1 now2 : datetime) (salt : bytes)
  : M (gmap string pyval) :=
  let signer_info : gmap string string :=
    <[ "name" := "Sistema de Facturación MiPyME" ]>
    (<[ "email" := "facturacion@mipyme.vn" ]>
    {[ "tax_code" := "DEMO-TAX-CODE" ]}) in
  sign_document xml_path signer_info now1 now2 salt.

Definition get_pending_count : M Z := ret 0%Z.

End Engine.

(* ===================================================================== *)
(** * Vocabulary of the statements *)
(* ===================================================================== *)

(** The result dictionaries of [verify_signature] and [sign_document]. *)

Definition not_found_verdict : gmap string pyval :=
  <[ "valid" := PyBool false ]>
  {[ "error" := PyStr "No signature found for this document" ]}.

Definition tampered_verdict : gmap string pyval :=
  <[ "valid" := PyBool false ]>
  (<[ "error" := PyStr "Document has been modified after signing" ]>
  {[ "integrity" := PyStr "compromised" ]}).

Definition invalid_verdict (e : exn) : gmap string pyval :=
  <[ "valid" := PyBool false ]>
  (<[ "error" := PyStr ("Signature verification failed: " +:+ str_exn e) ]>
  {[ "integrity" := PyStr "invalid" ]}).

Definition valid_verdict (r : SignatureRecord) : gmap string pyval :=
  <[ "valid" := PyBool true ]>
  (<[ "signature_id" := PyStr (signature_id r) ]>
  (<[ "signer" := PyStr (signer_name r) ]>
  (<[ "timestamp" := PyStr (timestamp r) ]>
  (<[ "algorithm" := PyStr (algorithm r) ]>
  (<[ "integrity" := PyStr "intact" ]>
  {[ "message" :=
       PyStr "Signature is valid and complies with Vietnamese digital signature standards" ]}))))).

Definition document_not_found : gmap string pyval :=
  {[ "error" := PyStr "Document not found" ]}.

Definition success_result (r : SignatureRecord) : gmap string pyval :=
  <[ "success" := PyBool true ]>
  (<[ "signature_id" := PyStr (signature_id r) ]>
  (<[ "signature" := PyStr (signature r) ]>
  (<[ "timestamp" := PyStr (timestamp r) ]>
  (<[ "signer" := PyStr (signer_name r) ]>
  {[ "message" :=
       PyStr "Document signed successfully with Vietnamese digital signature standard" ]})))).

(** A sign call succeeded: its result carries [success: True]. *)
Definition succeeded (res : gmap string pyval) : Prop :=
  res !! "success" = Some (PyBool true).

(** A record answers a query when the normalised paths agree. *)
Definition matches (ref : string) (r : SignatureRecord) : bool :=
  String.eqb (PosixPath.normpath (document_path r)) (PosixPath.normpath ref).

(** The lookup as the specification words it: of all records in stored
    (insertion) order, the first that matches. *)
Definition find_by_reference (ledger : PyDict.t SignatureRecord) (ref : string)
  : option SignatureRecord :=
  head (filter (fun r => matches ref r = true) (PyDict.values ledger)).

(** A computation that only reads: every run hands back the world it
    was given, whether it returns or raises. *)
Definition reader {A} (m : M A) : Prop := forall w, snd (m w) = w.

(** A computation that leaves the file at [p] as it found it. *)
Definition keeps {A} (p : string) (m : M A) : Prop :=
  forall w, fs (snd (m w)) !! p = fs w !! p.

(** No record of the ledger answers a query for [ref]. *)
Definition unsigned (ledger : PyDict.t SignatureRecord) (ref : string) : Prop :=
  forall k r, In (k, r) ledger -> matches ref r = false.

(** The ledger cut down to the record a query for [ref] selects. *)
Definition first_match_only (ledger : PyDict.t SignatureRecord) (ref : string)
  : PyDict.t SignatureRecord :=
  match find_by_reference ledger ref with
  | Some r => [(signature_id r, r)]
  | None => []
  end.

Section Statements.
Context `{Primitives}.

(** The key files hold the pair generated from [sk]. *)
Definition identity_persisted (f : gmap string node) (sk : private_key) : Prop :=
  f !! private_key_path = Some (File (private_bytes sk)) /\
  f !! public_key_path = Some (File (public_bytes (public_key_of sk))).

(** The record [sign_document] assembles for document bytes [D]. *)
Definition new_record (sk : private_key) (D : bytes) (document_path : string)
    (signer_info : gmap string string) (now1 now2 : datetime) (salt : bytes)
  : SignatureRecord :=
  {| signature_id := "SIG-" +:+ strftime_YmdHMS now1;
     document_path := PosixPath.normpath document_path;
     signer_name := default "" (signer_info !! "name");
     signer_email := default "" (signer_info !! "email");
     signer_tax_code := default "" (signer_info !! "tax_code");
     signature := b64encode (pss_sign sk (sha256 D) salt);
     document_hash := b64encode (sha256 D);
     timestamp := isoformat now2;
     algorithm := "RSA-PSS-SHA256";
     key_size := 2048;
     status := "valid" |}.

(** The world after record [r] was stored and the ledger saved. *)
Definition stored (w : world) (r : SignatureRecord) : world :=
  let sigs := PyDict.set (signatures w) (signature_id r) r in
  {| fs := <[ signatures_file := File (json_dump sigs) ]> (fs w);
     signatures := sigs |}.

End Statements.

(* ===================================================================== *)
(** * A small executable instance of the library interface *)
(* ===================================================================== *)

(** Used to run the engine on concrete worlds.  The digest is a 16-bit
    polynomial checksum, a key is a byte string whose public half is its
    checksum, and a signature is the public key followed by the signed data
    and the salt.  It has the functional laws of [PrimitiveLaws] and none of
    the security of the real library. *)
Module Demo.

Definition checksum (data : bytes) : bytes :=
  let h := fold_left (fun acc b => ((acc * 33 + Byte.to_N b) mod 65521)%N) data 5381%N in
  match Byte.of_N (h / 256), Byte.of_N (h mod 256) with
  | Some hi, Some lo => [hi; lo]
  | _, _ => []
  end.

Fixpoint starts_with (p s : bytes) : bool :=
  match p, s with
  | [], _ => true
  | x :: p', y :: s' => Byte.eqb x y && starts_with p' s'
  | _ :: _, [] => false
  end.

Definition sign (key data salt : bytes) : bytes := (checksum key ++ data ++ salt)%list.

Definition verify (key signature data : bytes) : bool := starts_with (key ++ data)%list signature.

(** Only the freshly initialised, empty ledger is read back. *)
Definition dump (d : PyDict.t SignatureRecord) : bytes :=
  String.list_byte_of_string ("{" +:+ String.concat "," (PyDict.keys d) +:+ "}").

Definition load (data : bytes) : outcome (PyDict.t SignatureRecord) :=
  if bytes_eqb data (dump []) then Returned []
  else Raised (ValueError "Expecting value").

#[global] Instance primitives : Primitives := {|
  private_key := bytes;
  public_key := bytes;
  sha256 := checksum;
  rsa_generate_private_key := fun _ _ entropy => entropy;
  public_key_of := checksum;
  private_bytes := fun k => k;
  public_bytes := fun k => k;
  load_pem_private_key := Returned;
  load_pem_public_key := Returned;
  pss_sign := sign;
  pss_verify := verify;
  self_signed_certificate := fun key _ _ _ => checksum key;
  b64encode := String.string_of_list_byte;
  b64decode := fun s => Returned (String.list_byte_of_string s);
  json_dump := dump;
  json_load := load
|}.

Definition text (s : string) : bytes := String.list_byte_of_string s.

Definition at_time (h m s us : nat) : datetime :=
  {| year := 2024; month := 3; day := 7;
     hour := h; minute := m; second := s; microsecond := us |}.

Definition env0 : keygen_env :=
  {| entropy := text "seed-0"; serial_number := 1;
     utcnow1 := at_time 8 0 0 0; utcnow2 := at_time 8 0 0 5 |}.

Definition env1 : keygen_env :=
  {| entropy := text "seed-1"; serial_number := 2;
     utcnow1 := at_time 10 0 0 0; utcnow2 := at_time 10 0 0 5 |}.

Definition key : bytes := text "seed-0".

Definition acme : gmap string string :=
  <[ "name" := "Acme" ]> (<[ "email" := "a@acme.vn" ]> {[ "tax_code" := "TX1" ]}).

Definition contract_v1 : bytes := text "pay 100 to Bob".
Definition contract_v2 : bytes := text "pay 900 to Bob".
Definition invoice : bytes := text "<invoice/>".

(** A disk with two documents and no key folder yet. *)
Definition disk0 : world :=
  {| fs := <[ "contract.txt" := File contract_v1 ]> {[ "invoice.xml" := File invoice ]};
     signatures := [] |}.

(** [DigitalSignature()] on [disk0]. *)
Definition booted : world := snd (__init__ env0 disk0).

(** A document is edited, or removed, outside the engine. *)
Definition edit (p : string) (data : bytes) (w : world) : world :=
  with_fs w (<[ p := File data ]> (fs w)).

Definition remove (p : string) (w : world) : world :=
  with_fs w (delete p (fs w)).

(** The contract is signed at 09:00:00, edited, signed again at
    09:05:00 and edited back. *)
Definition record1 : SignatureRecord :=
  new_record key contract_v1 "contract.txt" acme
    (at_time 9 0 0 100) (at_time 9 0 0 150) (text "salt-1").

Definition signed_once : world := stored booted record1.

Definition edited : world := edit "contract.txt" contract_v2 signed_once.

Definition record2 : SignatureRecord :=
  new_record key contract_v2 "contract.txt" acme
    (at_time 9 5 0 0) (at_time 9 5 0 9) (text "salt-2").

Definition signed_twice : world := stored edited record2.

Definition reverted : world := edit "contract.txt" contract_v1 signed_twice.

(** The invoice is signed, without signer metadata, in the second in
    which the contract was. *)
Definition invoice_record : SignatureRecord :=
  new_record key invoice "invoice.xml" ∅
    (at_time 9 0 0 900) (at_time 9 0 0 950) (text "salt-3").

Definition signed_same_second : world := stored signed_once invoice_record.

(** The contract is signed once more from [booted], with another salt. *)
Definition record1' : SignatureRecord :=
  new_record key contract_v1 "contract.txt" acme
    (at_time 9 0 0 100) (at_time 9 0 0 150) (text "salt-9").

(** The signed contract is deleted. *)
Definition removed : world := remove "contract.txt" signed_once.

(** The public key file is replaced by the public half of another key. *)
Definition rekeyed : world :=
  edit public_key_path (public_bytes (public_key_of (text "seed-1"))) signed_once.

End Demo.

(* ===================================================================== *)
(** * Further vocabulary and worlds *)
(* ===================================================================== *)

(** A disk on which the engine never ran: no key folder and none of its
    files. *)
Definition fresh_install (f : gmap string node) : Prop :=
  f !! keys_folder = None /\ f !! signatures_file = None /\
  f !! private_key_path = None /\ f !! public_key_path = None /\
  f !! certificate_path = None.

(** What [json.load] owes [json.dump] on a ledger. *)
Class JsonLaws `{Primitives} : Prop := {
  json_load_dump : forall d, json_load (json_dump d) = Returned d
}.

(** The ledger file reads back as the ledger in memory. *)
Definition ledger_in_sync `{Primitives} (w : world) : Prop :=
  exists data,
    fs w !! signatures_file = Some (File data) /\
    json_load data = Returned (signatures w).

(** More worlds of the executable instance. *)
Module Scenes.


(** The contract is also reachable under a second spelling of its path;
    it is then signed under the first. *)
Definition aliased : world :=
  Demo.edit "./docs/../contract.txt" Demo.contract_v1 Demo.booted.

Definition aliased_signed : world := stored aliased Demo.record1.

(** The invoice is signed five minutes after the contract. *)
Definition late_invoice_record : SignatureRecord :=
  new_record Demo.key Demo.invoice "invoice.xml" Demo.acme
    (Demo.at_time 9 5 0 0) (Demo.at_time 9 5 0 9) (Demo.text "salt-2").

Definition both_signed : world := stored Demo.signed_once late_invoice_record.

(** The invoice as [sign_xml_invoice] records it. *)
Definition billed_record : SignatureRecord :=
  new_record Demo.key Demo.invoice "invoice.xml"
    (<[ "name" := "Sistema de Facturación MiPyME" ]>
     (<[ "email" := "facturacion@mipyme.vn" ]>
      {[ "tax_code" := "DEMO-TAX-CODE" ]}))
    (Demo.at_time 9 5 0 0) (Demo.at_time 9 5 0 9) (Demo.text "salt-2").

(** The public key file is lost, as when key generation stops after its
    first write. *)
Definition half_keyed : world := Demo.remove public_key_path Demo.booted.

(** The ledger file no longer parses. *)
Definition corrupted : world := Demo.edit signatures_file (Demo.text "{") Demo.signed_once.

(** After the contract was signed, edited and signed again, the edited
    file is also reachable under a spelling that is not in normal form. *)
Definition respelled : world :=
  Demo.edit "./contract.txt" Demo.contract_v2 Demo.signed_twice.

End Scenes.

Section Installation.
Context `{Primitives}.

(** The world a first construction leaves on a fresh disk: the folder, an
    empty ledger saved, and the three artefacts of the generated key. *)
Definition installed (env : keygen_env) (w : world) : world :=
  let sk := rsa_generate_private_key 65537 2048 (entropy env) in
  {| fs :=
       <[ certificate_path :=
            File (self_signed_certificate sk (serial_number env) (utcnow1 env) (utcnow2 env)) ]>
       (<[ public_key_path := File (public_bytes (public_key_of sk)) ]>
       (<[ private_key_path := File (private_bytes sk) ]>
       (<[ signatures_file := File (json_dump []) ]>
       (<[ keys_folder := Dir ]> (fs w)))));
     signatures := [] |}.

End Installation.

(** An instance whose ledger codec loses nothing: the executable
    instance with the ledger written as the bits of its code number. *)
Module Lossless.

Definition to_tuple (r : SignatureRecord) :=
  (signature_id r, document_path r, signer_name r, signer_email r, signer_tax_code r,
   signature r, document_hash r, timestamp r, algorithm r, key_size r, status r).

Definition of_tuple
    (t : string * string * string * string * string * string * string * string * string
         * Z * string) : SignatureRecord :=
  let '(a, b, c, d, e, f, g, h, i, j, k) := t in
  {| signature_id := a; document_path := b; signer_name := c; signer_email := d;
     signer_tax_code := e; signature := f; document_hash := g; timestamp := h;
     algorithm := i; key_size := j; status := k |}.

#[global] Instance SignatureRecord_eq_dec : EqDecision SignatureRecord.
Proof. solve_decision. Defined.

#[global] Instance SignatureRecord_countable : Countable SignatureRecord.
Proof. apply (inj_countable' to_tuple of_tuple). intros []. reflexivity. Defined.

Fixpoint bits (n : positive) : bytes :=
  match n with
  | xH => []
  | xO n => "0"%byte :: bits n
  | xI n => "1"%byte :: bits n
  end.

Fixpoint unbits (b : bytes) : positive :=
  match b with
  | [] => xH
  | c :: b => if Byte.eqb c "0"%byte then xO (unbits b) else xI (unbits b)
  end.

Definition dump (d : PyDict.t SignatureRecord) : bytes := bits (encode d).

Definition load (data : bytes) : outcome (PyDict.t SignatureRecord) :=
  match decode (unbits data) with
  | Some d => Returned d
  | None => Raised (ValueError "Expecting value")
  end.

Definition primitives : Primitives := {|
  private_key := bytes;
  public_key := bytes;
  sha256 := Demo.checksum;
  rsa_generate_private_key := fun _ _ entropy => entropy;
  public_key_of := Demo.checksum;
  private_bytes := fun k => k;
  public_bytes := fun k => k;
  load_pem_private_key := Returned;
  load_pem_public_key := Returned;
  pss_sign := Demo.sign;
  pss_verify := Demo.verify;
  self_signed_certificate := fun key _ _ _ => Demo.checksum key;
  b64encode := String.string_of_list_byte;
  b64decode := fun s => Returned (String.list_byte_of_string s);
  json_dump := dump;
  json_load := load
|}.

(** The contract signed on a first installation over [Demo.disk0]. *)
Definition booted : world := @installed primitives Demo.env0 Demo.disk0.

Definition record1 : SignatureRecord :=
  @new_record primitives Demo.key Demo.contract_v1 "contract.txt" Demo.acme
    (Demo.at_time 9 0 0 100) (Demo.at_time 9 0 0 150) (Demo.text "salt-1").

Definition signed_once : world := @stored primitives booted record1.

End Lossless.

(* ===================================================================== *)
(** * The document manager ([document_manager.py]) *)
(* ===================================================================== *)

Fixpoint ends_with_sep (s : string) : bool :=
  match s with
  | EmptyString => false
  | String c EmptyString => Ascii.eqb c PosixPath.sep
  | String _ s' => ends_with_sep s'
  end.

(** [os.path.join(a, b)] of posixpath, for any [b]. *)
Definition os_path_join (a b : string) : string :=
  if String.prefix "/" b then b
  else if String.eqb a "" || ends_with_sep a then a +:+ b
  else a +:+ "/" +:+ b.

(** [os.remove(p)] *)
Definition os_remove (p : string) : M unit := fun w =>
  match fs w !! p with
  | Some (File _) => (Returned tt, with_fs w (delete p (fs w)))
  | Some Dir => (Raised (IsADirectoryError p), w)
  | None => (Raised (FileNotFoundError p), w)
  end.

(** [del d[k]], for a key of [d]. *)
Fixpoint pydict_del {V} (d : PyDict.t V) (k : string) : PyDict.t V :=
  match d with
  | [] => []
  | (k', v) :: d' => if String.eqb k' k then d' else (k', v) :: pydict_del d' k
  end.

(** The dictionary [upload_document] stores for a document
    ([document_id] is its key ['id']). *)
Record DocumentRecord := {
  document_id : string;
  original_filename : string;
  stored_filename : string;
  title : string;
  category : string;
  description : string;
  tags : list string;
  upload_date : string;
  file_size : Z;
  file_hash : string;
  file_extension : string;
  version : Z
}.

(** The application of [app.py]: the engine object [digital_sig] with the
    disk, and [doc_manager.documents]. *)
Record app_state := {
  digital_sig : world;
  documents : PyDict.t DocumentRecord
}.

Definition with_digital_sig (s : app_state) (w : world) : app_state :=
  {| digital_sig := w; documents := documents s |}.

Definition with_documents (s : app_state) (d : PyDict.t DocumentRecord) : app_state :=
  {| digital_sig := digital_sig s; documents := d |}.

(** Methods of the application's objects, over the whole state. *)
Definition App (A : Type) : Type := app_state -> outcome A * app_state.

Definition app_ret {A} (a : A) : App A := fun s => (Returned a, s).

Definition app_bind {A B} (m : App A) (f : A -> App B) : App B := fun s =>
  match m s with
  | (Returned a, s') => f a s'
  | (Raised e, s') => (Raised e, s')
  end.

(** A computation on the disk and the engine, run inside the application. *)
Definition on_disk {A} (m : M A) : App A := fun s =>
  let (o, w) := m (digital_sig s) in (o, with_digital_sig s w).

Declare Scope app_scope.
Delimit Scope app_scope with app.
Notation "x ← y ; z" := (app_bind y (fun x => z))
  (at level 20, y at level 100, z at level 200, only parsing) : app_scope.
Notation "x ;; z" := (app_bind x (fun _ => z))
  (at level 100, z at level 200, only parsing, right associativity) : app_scope.

(** [json.dump] on the document metadata. *)
Class DocumentJson := {
  dump_documents : PyDict.t DocumentRecord -> bytes
}.

Module DocumentManager.
Section Methods.
Context `{DocumentJson}.
Variable upload_folder : string.

Definition metadata_file : string := os_path_join upload_folder "metadata.json".

Definition _save_metadata : App unit := fun s =>
  on_disk (write_file metadata_file (dump_documents (documents s))) s.

(** The getters only read [self.documents]. *)
Definition get_document (doc_id : string) (s : app_state) : option DocumentRecord :=
  PyDict.get (documents s) doc_id.

Definition get_document_path (doc_id : string) (s : app_state) : option string :=
  match PyDict.get (documents s) doc_id with
  | Some doc => Some (os_path_join upload_folder (stored_filename doc))
  | None => None
  end.

Definition get_document_count (s : app_state) : nat := length (documents s).

(** [del self.documents[doc_id]] *)
Definition del_document (doc_id : string) : App unit := fun s =>
  (Returned tt, with_documents s (pydict_del (documents s) doc_id)).

(** [file_path] is [get_document_path(doc_id)], which finds the entry
    [doc] again. *)
Definition delete_document (doc_id : string) : App (gmap string pyval) := fun s =>
  match PyDict.get (documents s) doc_id with
  | Some doc =>
      let file_path := os_path_join upload_folder (stored_filename doc) in
      ((e ← on_disk (os_path_exists file_path);
        if e then on_disk (os_remove file_path) else app_ret tt);;
       del_document doc_id;;
       _save_metadata;;
       app_ret {[ "success" := PyBool true ]})%app s
  | None => (Returned document_not_found, s)
  end.

End Methods.
End DocumentManager.

(* ===================================================================== *)
(** * The signature routes ([app.py]) *)
(* ===================================================================== *)

(** The view functions of the signature module, and the DELETE view of
    the document module, as functions of the request fields they read and
    of the application state.  A field the JSON body does not carry is
    [None]; the fields it carries are strings, [signer_info] a dictionary
    of strings.  The clock readings and the salt of a signing call are
    passed on to the engine. *)

(** An exception that leaves a view function: one of the engine or the
    disk, or one of the two the views themselves can provoke. *)
Inductive unhandled :=
| Propagated (e : exn)
| AttributeError (msg : string)
| TypeError (msg : string).

(** What a view function hands to Flask: [jsonify(body)] with a status
    code (200 when none is given), the body being a result dictionary
    of the engine, with the entry ['document_info'] when the view adds it;
    or an exception, which Flask answers with status 500. *)
Inductive response :=
| Json (body : gmap string pyval) (document_info : option (gmap string string)) (status : Z)
| InternalServerError (e : unhandled).

(** Truth value of [d.get(k)] for a result dictionary. *)
Definition truthy (v : option pyval) : bool :=
  match v with
  | Some (PyBool b) => b
  | Some (PyStr s) => negb (String.eqb s "")
  | None => false
  end.

Module Routes.
Section Views.
Context `{Primitives} `{DocumentJson}.

(** [app.config['UPLOAD_FOLDER']] *)
Definition UPLOAD_FOLDER : string := "uploads".

(** [digital_sig.sign_document(document_path, None)]: the method runs as
    far as line 146, where [signer_info.get] raises. *)
Definition sign_document_none (document_path : string) (w : world) : response :=
  match fs w !! document_path with
  | None => Json document_not_found None 200
  | Some Dir => InternalServerError (Propagated (IsADirectoryError document_path))
  | Some (File _) =>
      match fst (_load_private_key w) with
      | Raised e => InternalServerError (Propagated e)
      | Returned _ =>
          InternalServerError (AttributeError "'NoneType' object has no attribute 'get'")
      end
  end.

(** [/signature/document/<doc_id>]; [data] is [request.json or {}]. *)
Definition sign_specific_document (doc_id : string) (data : gmap string string)
    (now1 now2 : datetime) (salt : bytes) : app_state -> response * app_state := fun s =>
  match DocumentManager.get_document_path UPLOAD_FOLDER doc_id s with
  | None => (Json document_not_found None 404, s)
  | Some document_path =>
      if String.eqb document_path "" then (Json document_not_found None 404, s)
      else
        let doc := DocumentManager.get_document doc_id s in
        let signer_info : gmap string string :=
          <[ "name" := default "Usuario del Sistema" (data !! "signer_name") ]>
          (<[ "email" := default "usuario@mipyme.vn" (data !! "signer_email") ]>
          {[ "tax_code" := default "TAX-CODE-001" (data !! "signer_tax_code") ]}) in
        match sign_document document_path signer_info now1 now2 salt (digital_sig s) with
        | (Raised e, w) => (InternalServerError (Propagated e), with_digital_sig s w)
        | (Returned signature_result, w) =>
            (if truthy (signature_result !! "success") then
               match doc with
               | Some doc =>
                   Json signature_result
                     (Some (<[ "title" := title doc ]>
                           (<[ "category" := category doc ]>
                           {[ "original_filename" := original_filename doc ]}))) 200
               | None =>
                   InternalServerError (TypeError "'NoneType' object is not subscriptable")
               end
             else Json signature_result None 200,
             with_digital_sig s w)
        end
  end.

(** [/signature/sign]; the two arguments are [data.get('document_path')]
    and [data.get('signer_info')]. *)
Definition sign_document (document_path : option string)
    (signer_info : option (gmap string string))
    (now1 now2 : datetime) (salt : bytes) : app_state -> response * app_state := fun s =>
  match document_path with
  | None => (Json document_not_found None 404, s)
  | Some document_path =>
      match String.eqb document_path "", fs (digital_sig s) !! document_path with
      | false, Some _ =>
          match signer_info with
          | None => (sign_document_none document_path (digital_sig s), s)
          | Some signer_info =>
              match sign_document document_path signer_info now1 now2 salt (digital_sig s) with
              | (Raised e, w) => (InternalServerError (Propagated e), with_digital_sig s w)
              | (Returned signature_result, w) =>
                  (Json signature_result None 200, with_digital_sig s w)
              end
          end
      | _, _ => (Json document_not_found None 404, s)
      end
  end.

(** [/signature/verify]; the argument is [data.get('document_path')]. *)
Definition verify_signature (signed_document_path : option string)
  : app_state -> response * app_state := fun s =>
  match signed_document_path with
  | None =>
      (InternalServerError
         (TypeError "expected str, bytes or os.PathLike object, not NoneType"), s)
  | Some signed_document_path =>
      match verify_signature signed_document_path (digital_sig s) with
      | (Raised e, w) => (InternalServerError (Propagated e), with_digital_sig s w)
      | (Returned verification_result, w) =>
          (Json verification_result None 200, with_digital_sig s w)
      end
  end.

(** [/signature/list]: the body is [{'signatures': [...]}]. *)
Definition list_signatures (s : app_state) : list SignatureRecord :=
  PyDict.values (signatures (digital_sig s)).

(** [/documents/<doc_id>] with method DELETE. *)
Definition delete_document (doc_id : string) : app_state -> response * app_state := fun s =>
  match DocumentManager.delete_document UPLOAD_FOLDER doc_id s with
  | (Raised e, s') => (InternalServerError (Propagated e), s')
  | (Returned result, s') => (Json result None 200, s')
  end.

End Views.
End Routes.

(** A small office on the executable instance: one uploaded report,
    stored as [uploads/d1.txt]. *)
Module Office.

#[global] Instance codec : DocumentJson := {|
  dump_documents := fun d => Demo.text (String.concat "," (PyDict.keys d))
|}.

Definition report : DocumentRecord :=
  {| document_id := "d1"; original_filename := "report.txt"; stored_filename := "d1.txt";
     title := "Report"; category := "general"; description := ""; tags := [];
     upload_date := "2024-03-07T08:30:00"; file_size := 14;
     file_hash := ""; file_extension := "txt"; version := 1 |}.

Definition opened : app_state :=
  {| digital_sig := Demo.edit "uploads/d1.txt" Demo.contract_v1 Demo.booted;
     documents := [("d1", report)] |}.

(** The signer the route assumes when the request names none. *)
Definition system_user : gmap string string :=
  <[ "name" := "Usuario del Sistema" ]>
  (<[ "email" := "usuario@mipyme.vn" ]>
  {[ "tax_code" := "TAX-CODE-001" ]}).

Definition report_record : SignatureRecord :=
  new_record Demo.key Demo.contract_v1 "uploads/d1.txt" system_user
    (Demo.at_time 9 0 0 100) (Demo.at_time 9 0 0 150) (Demo.text "salt-1").

Definition signed : app_state :=
  with_digital_sig opened (stored (digital_sig opened) report_record).

End Office.

(* ===================================================================== *)
(** * Facts about [normpath] *)
(* ===================================================================== *)

Module PosixPathFacts.
Import PosixPath.

Lemma split_no_sep s : Forall no_sep (split s).
Proof.
  induction s as [|a s IH]; simpl.
  - repeat constructor.
  - destruct (Ascii.eqb a sep) eqn:E.
    + constructor; [exact I | exact IH].
    + apply Ascii.eqb_neq in E.
      destruct (split s) as [|w ws].
      * repeat constructor; assumption.
      * inversion IH; subst. constructor; [split; assumption | assumption].
Qed.

Lemma split_app_sep c rest :
  no_sep c -> split (c +:+ String sep rest) = c :: split rest.
Proof.
  induction c as [|a c IH]; simpl; intros Hc.
  - reflexivity.
  - destruct Hc as [Ha Hc]. apply Ascii.eqb_neq in Ha. rewrite Ha.
    rewrite (IH Hc). reflexivity.
Qed.

Lemma split_single c : no_sep c -> split c = [c].
Proof.
  induction c as [|a c IH]; simpl; intros Hc.
  - reflexivity.
  - destruct Hc as [Ha Hc]. apply Ascii.eqb_neq in Ha. rewrite Ha.
    rewrite (IH Hc). reflexivity.
Qed.

Lemma split_concat cs :
  cs <> [] -> Forall no_sep cs -> split (String.concat "/" cs) = cs.
Proof.
  induction cs as [|c cs IH]; [congruence|].
  intros _ Hall. inversion Hall as [|? ? Hc Hcs]; subst.
  destruct cs as [|c' cs].
  - simpl. apply split_single, Hc.
  - change (String.concat "/" (c :: c' :: cs))
      with (c +:+ String sep (String.concat "/" (c' :: cs))).
    rewrite split_app_sep by assumption.
    f_equal. apply IH; [discriminate | assumption].
Qed.

Lemma normal_nil init : normal init [].
Proof. repeat split; constructor. Qed.

Lemma normal_tail init c st : normal init (c :: st) -> normal init st.
Proof.
  intros (Hp & Hn & Hd). repeat split.
  - inversion Hp; assumption.
  - intros Hi. specialize (Hn Hi). inversion Hn; assumption.
  - apply Hd.
Qed.

Lemma loop_normal init comps st :
  Forall no_sep comps -> normal init st -> normal init (loop init comps st).
Proof.
  intros Hc. revert st.
  induction Hc as [|comp rest Hcomp Hrest IH]; intros st Hst; simpl; [assumption|].
  destruct (String.eqb comp "") eqn:E1; [apply IH, Hst|].
  destruct (String.eqb comp ".") eqn:E2; [apply IH, Hst|].
  apply String.eqb_neq in E1, E2. simpl.
  assert (Hproper : proper comp) by (split; [|split]; assumption).
  destruct (String.eqb comp "..") eqn:E3; simpl.
  - apply String.eqb_eq in E3.
    destruct st as [|last st'].
    + destruct (Nat.eqb init 0) eqn:E4; simpl; [|apply IH, Hst].
      apply Nat.eqb_eq in E4. apply IH. split; [|split].
      * constructor; [assumption | constructor].
      * intros Hi. contradiction.
      * simpl. split; [intros _; constructor | exact I].
    + rewrite andb_false_r. simpl.
      destruct (String.eqb last "..") eqn:E5; [|apply IH, (normal_tail _ _ _ Hst)].
      apply String.eqb_eq in E5. apply IH.
      destruct Hst as (Hp & Hn & Hd). split; [|split].
      * constructor; assumption.
      * intros Hi. specialize (Hn Hi). inversion Hn; congruence.
      * simpl. split; [|exact Hd].
        intros _. constructor; [assumption | apply Hd; assumption].
  - apply String.eqb_neq in E3. apply IH.
    destruct Hst as (Hp & Hn & Hd). split; [|split].
    + constructor; assumption.
    + intros Hi. constructor; [assumption | apply Hn, Hi].
    + simpl. split; [intros Habs; contradiction | assumption].
Qed.

Lemma dots_below_app l c st :
  dots_below (l ++ c :: st)%list -> c = ".." -> Forall (fun d => d = "..") st.
Proof.
  induction l as [|a l IH]; simpl; intros [H1 H2] Hc.
  - apply H1, Hc.
  - apply IH; assumption.
Qed.

(** On components already in normal form the loop keeps them all. *)
Lemma loop_fixed init cs st :
  normal init (rev cs ++ st)%list -> loop init cs st = (rev cs ++ st)%list.
Proof.
  revert st. induction cs as [|c cs IH]; intros st Hn; [reflexivity|].
  simpl in Hn. rewrite <- app_assoc in Hn. simpl in Hn.
  assert (Hc : proper c /\ (c = ".." -> init = 0 /\ Forall (fun d => d = "..") st)).
  { destruct Hn as (Hp & Hi & Hd). split.
    - apply Forall_app in Hp. destruct Hp as [_ Hp]. inversion Hp; assumption.
    - intros Hc. split.
      + destruct init; [reflexivity|].
        assert (Hne : S init <> 0) by discriminate. specialize (Hi Hne).
        apply Forall_app in Hi. destruct Hi as [_ Hi]. inversion Hi; congruence.
      + eapply dots_below_app; eassumption. }
  destruct Hc as [(Hc1 & Hc2 & Hc3) Hdd].
  simpl. apply String.eqb_neq in Hc1, Hc2. rewrite Hc1, Hc2. simpl.
  destruct (String.eqb c "..") eqn:E; simpl.
  - apply String.eqb_eq in E. destruct (Hdd E) as [Hi Hst]. subst init. simpl.
    destruct st as [|last st'].
    + simpl. rewrite IH by assumption. rewrite <- app_assoc. reflexivity.
    + inversion Hst; subst. simpl.
      rewrite IH by assumption. rewrite <- app_assoc. reflexivity.
  - rewrite IH by assumption. rewrite <- app_assoc. reflexivity.
Qed.

Lemma initial_slashes_cases p :
  initial_slashes p = 0 \/ initial_slashes p = 1 \/ initial_slashes p = 2.
Proof.
  unfold initial_slashes.
  destruct (String.prefix "/" p); [|auto].
  destruct (String.prefix "//" p && negb (String.prefix "///" p)); auto.
Qed.

(** A non-empty normal list of components joins to a string that starts
    with a character other than the separator. *)
Lemma concat_head c cs :
  proper c -> exists a t, String.concat "/" (c :: cs) = String a t /\ a <> sep.
Proof.
  intros (Hne & _ & Hns).
  destruct c as [|a c]; [congruence|]. destruct Hns as [Ha _].
  destruct cs as [|c' cs]; simpl; eauto.
Qed.

Lemma prefix_sep_other p a t :
  a <> sep -> String.prefix (String sep p) (String a t) = false.
Proof.
  intros Ha. cbn [String.prefix].
  destruct (ascii_dec sep a) as [E|_]; [congruence | reflexivity].
Qed.

Lemma prefix_sep_sep p t :
  String.prefix (String sep p) (String sep t) = String.prefix p t.
Proof.
  cbn [String.prefix].
  destruct (ascii_dec sep sep) as [_|E]; [reflexivity | congruence].
Qed.

Lemma initial_slashes_joined init a t :
  init <= 2 -> a <> sep ->
  initial_slashes (slashes init +:+ String a t) = init.
Proof.
  intros Hi Ha. unfold initial_slashes.
  destruct init as [|[|[|n]]]; [| | |lia].
  - change (slashes 0 +:+ String a t) with (String a t).
    change "/" with (String sep "").
    rewrite prefix_sep_other by assumption. reflexivity.
  - change (slashes 1 +:+ String a t) with (String sep (String a t)).
    change "//" with (String sep (String sep "")).
    change "/" with (String sep "").
    rewrite !prefix_sep_sep, prefix_sep_other by assumption. reflexivity.
  - change (slashes 2 +:+ String a t) with (String sep (String sep (String a t))).
    change "///" with (String sep (String sep (String sep ""))).
    change "//" with (String sep (String sep "")).
    change "/" with (String sep "").
    rewrite !prefix_sep_sep, prefix_sep_other by assumption. reflexivity.
Qed.

Lemma split_slashes init s :
  init <= 2 -> split (slashes init +:+ s) = (repeat "" init ++ split s)%list.
Proof.
  intros Hi. destruct init as [|[|[|n]]]; [reflexivity..|lia].
Qed.

Lemma loop_skip_empty init n comps st :
  loop init (repeat "" n ++ comps)%list st = loop init comps st.
Proof. induction n as [|n IH]; [reflexivity | exact IH]. Qed.

Lemma normpath_fixed init c cs :
  init <= 2 -> normal init (rev (c :: cs)) ->
  normpath (slashes init +:+ String.concat "/" (c :: cs))
  = slashes init +:+ String.concat "/" (c :: cs).
Proof.
  intros Hi Hn.
  assert (Hall : Forall proper (c :: cs)).
  { destruct Hn as [Hp _]. apply Forall_rev in Hp. rewrite rev_involutive in Hp. exact Hp. }
  assert (Hsep : Forall no_sep (c :: cs)).
  { eapply Forall_impl; [exact Hall|]. intros x Hx. apply Hx. }
  destruct (concat_head c cs) as (a & t & Hjoin & Ha); [inversion Hall; assumption|].
  assert (Hne : String.eqb (slashes init +:+ String a t) "" = false).
  { apply String.eqb_neq. destruct init as [|[|n]]; discriminate. }
  unfold normpath. rewrite Hjoin, Hne.
  rewrite initial_slashes_joined by assumption.
  rewrite split_slashes by assumption. rewrite loop_skip_empty.
  rewrite <- Hjoin. rewrite split_concat by (assumption || discriminate).
  rewrite (loop_fixed init (c :: cs) []) by (rewrite app_nil_r; exact Hn).
  rewrite app_nil_r, rev_involutive. rewrite Hjoin, Hne. reflexivity.
Qed.

(** The results of [normpath]: a root, the current directory, or the
    kept leading slashes followed by components in normal form. *)
Lemma normpath_result p :
  normpath p = "." \/ normpath p = "/" \/ normpath p = "//" \/
  exists init c cs,
    init <= 2 /\ normal init (rev (c :: cs)) /\
    normpath p = slashes init +:+ String.concat "/" (c :: cs).
Proof.
  unfold normpath.
  destruct (String.eqb p ""); [auto|].
  set (init := initial_slashes p).
  assert (Hi : init <= 2)
    by (destruct (initial_slashes_cases p) as [E|[E|E]]; unfold init; lia).
  assert (Hn : normal init (loop init (split p) [])).
  { apply loop_normal; [apply split_no_sep | apply normal_nil]. }
  destruct (rev (loop init (split p) [])) as [|c cs] eqn:Hrev.
  - destruct init as [|[|[|n]]]; [auto..|lia].
  - assert (Hn' : normal init (rev (c :: cs))).
    { rewrite <- Hrev, rev_involutive. exact Hn. }
    destruct (concat_head c cs) as (a & t & Hjoin & Ha).
    { destruct Hn' as [Hp _]. apply Forall_rev in Hp.
      rewrite rev_involutive in Hp. inversion Hp; assumption. }
    assert (Hne : String.eqb (slashes init +:+ String.concat "/" (c :: cs)) "" = false).
    { rewrite Hjoin. apply String.eqb_neq. destruct init as [|[|n]]; discriminate. }
    cbv zeta. rewrite Hne. right; right; right. exists init, c, cs. auto.
Qed.

(** [normpath] returns a path it leaves alone. *)
Theorem normpath_idempotent p : normpath (normpath p) = normpath p.
Proof.
  destruct (normpath_result p) as [E|[E|[E|(init & c & cs & Hi & Hn & E)]]];
    rewrite E; [reflexivity..|].
  apply normpath_fixed; assumption.
Qed.

(** A leading [./] is dropped from a relative path. *)
Lemma normpath_dot_slash p :
  String.prefix "/" p = false -> normpath ("./" +:+ p) = normpath p.
Proof.
  intros Hp.
  assert (Hi : initial_slashes p = 0) by (unfold initial_slashes; rewrite Hp; reflexivity).
  assert (Hs : split ("./" +:+ p) = "." :: split p).
  { apply (split_app_sep "." p). split; [discriminate | exact I]. }
  unfold normpath. cbv zeta.
  change (String.eqb ("./" +:+ p) "") with false. cbv iota.
  change (initial_slashes ("./" +:+ p)) with 0.
  rewrite Hs, Hi.
  change (loop 0 ("." :: split p) []) with (loop 0 (split p) []).
  destruct (String.eqb p "") eqn:Ep; [|reflexivity].
  apply String.eqb_eq in Ep. subst p. reflexivity.
Qed.

End PosixPathFacts.

(* ===================================================================== *)
(** * Byte strings and dictionaries *)
(* ===================================================================== *)

Lemma bytes_eqb_eq a b : bytes_eqb a b = true <-> a = b.
Proof.
  revert b. induction a as [|x a IH]; intros [|y b]; simpl; split; try congruence.
  - intros Hab. apply andb_true_iff in Hab. destruct Hab as [Hxy Hab].
    apply Byte.byte_dec_bl in Hxy. apply IH in Hab. congruence.
  - intros Hab. injection Hab as -> ->. apply andb_true_iff. split.
    + apply Byte.byte_dec_lb. reflexivity.
    + apply IH. reflexivity.
Qed.

Lemma bytes_eqb_refl a : bytes_eqb a a = true.
Proof. apply bytes_eqb_eq. reflexivity. Qed.

Lemma bytes_eqb_neq a b : a <> b -> bytes_eqb a b = false.
Proof.
  intros Hne. destruct (bytes_eqb a b) eqn:E; [|reflexivity].
  apply bytes_eqb_eq in E. contradiction.
Qed.

Module PyDictFacts.
Import PyDict.

Section WithValues.
Context {V : Type}.
Implicit Types (d : t V) (k : string) (v : V).

Lemma get_set_eq d k v : get (set d k v) k = Some v.
Proof.
  induction d as [|[k' v'] d IH]; simpl.
  - rewrite String.eqb_refl. reflexivity.
  - destruct (String.eqb k' k) eqn:E; simpl; rewrite E; [reflexivity | exact IH].
Qed.

Lemma get_set_ne d k k' v : k <> k' -> get (set d k v) k' = get d k'.
Proof.
  intros Hne. induction d as [|[k0 v0] d IH]; simpl.
  - apply String.eqb_neq in Hne. rewrite Hne. reflexivity.
  - destruct (String.eqb k0 k) eqn:E; simpl.
    + apply String.eqb_eq in E. subst k0.
      apply String.eqb_neq in Hne. rewrite Hne. reflexivity.
    + rewrite IH. reflexivity.
Qed.

(** A new key appends one entry and leaves the others in place. *)
Lemma set_fresh d k v : get d k = None -> set d k v = (d ++ [(k, v)])%list.
Proof.
  induction d as [|[k' v'] d IH]; simpl; [reflexivity|].
  destruct (String.eqb k' k); [discriminate|].
  intros Hg. rewrite IH by assumption. reflexivity.
Qed.

(** A key already present is overwritten where it stands. *)
Lemma set_present d k v v0 :
  get d k = Some v0 ->
  exists before after,
    d = (before ++ (k, v0) :: after)%list /\
    set d k v = (before ++ (k, v) :: after)%list.
Proof.
  induction d as [|[k' v'] d IH]; simpl; [discriminate|].
  destruct (String.eqb k' k) eqn:E.
  - apply String.eqb_eq in E. subst k'. intros [= ->].
    exists [], d. split; reflexivity.
  - intros Hg. destruct (IH Hg) as (before & after & -> & ->).
    exists ((k', v') :: before), after. split; reflexivity.
Qed.

Lemma set_length_fresh d k v :
  get d k = None -> length (set d k v) = S (length d).
Proof.
  intros Hg. rewrite set_fresh by assumption.
  rewrite length_app. simpl. lia.
Qed.

Lemma set_length_present d k v :
  get d k <> None -> length (set d k v) = length d.
Proof.
  destruct (get d k) as [v0|] eqn:Hg; [|congruence]. intros _.
  destruct (set_present d k v v0 Hg) as (before & after & -> & ->).
  rewrite !length_app. reflexivity.
Qed.

Lemma set_set d k v v' : set (set d k v) k v' = set d k v'.
Proof.
  induction d as [|[k0 v0] d IH]; simpl.
  - rewrite String.eqb_refl. reflexivity.
  - destruct (String.eqb k0 k) eqn:E; simpl; rewrite E; [reflexivity|].
    rewrite IH. reflexivity.
Qed.

End WithValues.
End PyDictFacts.

(* ===================================================================== *)
(** * The lookup loop *)
(* ===================================================================== *)

Lemma scan_signatures_find ledger ref :
  scan_signatures ledger (PosixPath.normpath ref) = find_by_reference ledger ref.
Proof.
  unfold find_by_reference, PyDict.values.
  induction ledger as [|[k r] ledger IH]; [reflexivity|].
  simpl. rewrite IH, filter_cons.
  change (String.eqb (PosixPath.normpath (document_path r)) (PosixPath.normpath ref))
    with (matches ref r).
  destruct (matches ref r);
    [rewrite decide_True by reflexivity | rewrite decide_False by discriminate];
    reflexivity.
Qed.

(** The first matching record is found whatever follows it. *)
Lemma scan_signatures_first before k r after np :
  scan_signatures before np = None ->
  String.eqb (PosixPath.normpath (document_path r)) np = true ->
  scan_signatures (before ++ (k, r) :: after)%list np = Some r.
Proof.
  intros Hb Hr. induction before as [|[k' r'] before IH]; simpl in *.
  - rewrite Hr. reflexivity.
  - destruct (String.eqb (PosixPath.normpath (document_path r')) np);
      [discriminate | apply IH, Hb].
Qed.

(** What the loop returns is a stored record that matches, and no record
    before it does. *)
Lemma scan_signatures_Some ledger np r :
  scan_signatures ledger np = Some r ->
  exists before k after,
    ledger = (before ++ (k, r) :: after)%list /\
    scan_signatures before np = None /\
    String.eqb (PosixPath.normpath (document_path r)) np = true.
Proof.
  induction ledger as [|[k' r'] ledger IH]; simpl; [discriminate|].
  destruct (String.eqb (PosixPath.normpath (document_path r')) np) eqn:E.
  - intros [= ->]. exists [], k', ledger. auto.
  - intros Hs. destruct (IH Hs) as (before & k & after & -> & Hb & Hr).
    exists ((k', r') :: before), k, after. simpl. rewrite E. auto.
Qed.

(** Storing a record in a ledger with no match for a path: the lookup
    yields the stored record exactly when it matches. *)
Lemma scan_signatures_set ledger k r np :
  scan_signatures ledger np = None ->
  scan_signatures (PyDict.set ledger k r) np =
    if String.eqb (PosixPath.normpath (document_path r)) np then Some r else None.
Proof.
  induction ledger as [|[k' r'] ledger IH]; simpl; [reflexivity|].
  destruct (String.eqb (PosixPath.normpath (document_path r')) np) eqn:E; [discriminate|].
  intros Hs. destruct (String.eqb k' k); simpl.
  - rewrite Hs. reflexivity.
  - rewrite E. apply IH, Hs.
Qed.

(* ===================================================================== *)
(** * The monad *)
(* ===================================================================== *)

Lemma bind_returned {A B} (m : M A) (f : A -> M B) w a w' :
  m w = (Returned a, w') -> bind m f w = f a w'.
Proof. intros Hm. unfold bind. rewrite Hm. reflexivity. Qed.

Lemma bind_raised {A B} (m : M A) (f : A -> M B) w e w' :
  m w = (Raised e, w') -> bind m f w = (Raised e, w').
Proof. intros Hm. unfold bind. rewrite Hm. reflexivity. Qed.

Lemma bind_returned_inv {A B} (m : M A) (f : A -> M B) w b w2 :
  bind m f w = (Returned b, w2) ->
  exists a w1, m w = (Returned a, w1) /\ f a w1 = (Returned b, w2).
Proof.
  unfold bind. destruct (m w) as [[a|e] w1]; [eauto | discriminate].
Qed.

Section Readers.

Lemma reader_ret {A} (a : A) : reader (ret a).
Proof. intros w. reflexivity. Qed.

Lemma reader_raise {A} e : reader (@raise A e).
Proof. intros w. reflexivity. Qed.

Lemma reader_lift {A} (o : outcome A) : reader (lift o).
Proof. intros w. reflexivity. Qed.

Lemma reader_bind {A B} (m : M A) (f : A -> M B) :
  reader m -> (forall a, reader (f a)) -> reader (bind m f).
Proof.
  intros Hm Hf w. unfold bind. specialize (Hm w).
  destruct (m w) as [[a|e] w1]; simpl in Hm; subst w1; [apply Hf | reflexivity].
Qed.

Lemma reader_try_except {A} (body : M A) handler :
  reader body -> (forall e, reader (handler e)) -> reader (try_except body handler).
Proof.
  intros Hb Hh w. unfold try_except. specialize (Hb w).
  destruct (body w) as [[a|e] w1]; simpl in Hb; subst w1; [reflexivity | apply Hh].
Qed.

Lemma reader_os_path_exists p : reader (os_path_exists p).
Proof. intros w. reflexivity. Qed.

Lemma reader_read_file p : reader (read_file p).
Proof. intros w. unfold read_file. destruct (fs w !! p) as [[|data]|]; reflexivity. Qed.

Lemma reader_get_signatures : reader get_signatures.
Proof. intros w. reflexivity. Qed.

End Readers.

Create HintDb readers.
#[local] Hint Resolve reader_ret reader_raise reader_lift reader_os_path_exists
  reader_read_file reader_get_signatures : readers.

(* ===================================================================== *)
(** * The methods, case by case *)
(* ===================================================================== *)

(** Run [sign_document] up to the read of the document, then up to the
    read of the private key file. *)
Ltac enter_sign Hf :=
  unfold sign_document, bind, os_path_exists; rewrite Hf; cbn [negb];
  unfold read_file; rewrite Hf; cbv beta iota.
Ltac read_key Hk :=
  unfold _load_private_key, bind, read_file, lift; rewrite Hk; cbv beta iota.

Section Methods.
Context `{Primitives}.

Lemma reader_load_public_key : reader _load_public_key.
Proof. apply reader_bind; auto with readers. Qed.

Lemma reader_verify_signature p : reader (verify_signature p).
Proof.
  unfold verify_signature. apply reader_bind; [auto with readers|].
  intros sigs. destruct (scan_signatures sigs _) as [r|]; [|auto with readers].
  apply reader_bind; [auto with readers|]. intros data.
  apply reader_bind; [auto with readers|]. intros stored_hash.
  destruct (negb _); [auto with readers|].
  apply reader_try_except; [|auto with readers].
  apply reader_bind; [auto with readers|]. intros sig.
  apply reader_bind; [apply reader_load_public_key|]. intros pk.
  destruct (pss_verify _ _ _); auto with readers.
Qed.

(** ** [verify_signature] *)

Lemma verify_not_found p w :
  scan_signatures (signatures w) (PosixPath.normpath p) = None ->
  verify_signature p w = (Returned not_found_verdict, w).
Proof.
  intros Hs. unfold verify_signature, bind, get_signatures.
  rewrite Hs. reflexivity.
Qed.

Lemma verify_unreadable p w r :
  scan_signatures (signatures w) (PosixPath.normpath p) = Some r ->
  verify_signature p w =
    match fs w !! p with
    | None => (Raised (FileNotFoundError p), w)
    | Some Dir => (Raised (IsADirectoryError p), w)
    | Some (File D) => verify_signature p w
    end.
Proof.
  intros Hs. unfold verify_signature, bind, get_signatures.
  rewrite Hs. unfold read_file.
  destruct (fs w !! p) as [[|D]|]; reflexivity.
Qed.

Lemma verify_tampered p w r D h :
  scan_signatures (signatures w) (PosixPath.normpath p) = Some r ->
  fs w !! p = Some (File D) ->
  b64decode (document_hash r) = Returned h ->
  sha256 D <> h ->
  verify_signature p w = (Returned tampered_verdict, w).
Proof.
  intros Hs Hf Hd Hne. unfold verify_signature, bind, get_signatures.
  rewrite Hs. unfold read_file. rewrite Hf. unfold lift. rewrite Hd.
  rewrite bytes_eqb_neq by assumption. reflexivity.
Qed.

Lemma verify_valid p w r D s pem pk :
  scan_signatures (signatures w) (PosixPath.normpath p) = Some r ->
  fs w !! p = Some (File D) ->
  b64decode (document_hash r) = Returned (sha256 D) ->
  b64decode (signature r) = Returned s ->
  fs w !! public_key_path = Some (File pem) ->
  load_pem_public_key pem = Returned pk ->
  pss_verify pk s (sha256 D) = true ->
  verify_signature p w = (Returned (valid_verdict r), w).
Proof.
  intros Hs Hf Hd Hsig Hpem Hpk Hv.
  unfold verify_signature, bind, get_signatures.
  rewrite Hs. unfold read_file. rewrite Hf. unfold lift. rewrite Hd.
  rewrite bytes_eqb_refl. cbn [negb].
  unfold try_except, bind, _load_public_key, bind, read_file, lift.
  rewrite Hsig, Hpem, Hpk, Hv. reflexivity.
Qed.

Lemma verify_invalid_signature p w r D s pem pk :
  scan_signatures (signatures w) (PosixPath.normpath p) = Some r ->
  fs w !! p = Some (File D) ->
  b64decode (document_hash r) = Returned (sha256 D) ->
  b64decode (signature r) = Returned s ->
  fs w !! public_key_path = Some (File pem) ->
  load_pem_public_key pem = Returned pk ->
  pss_verify pk s (sha256 D) = false ->
  verify_signature p w = (Returned (invalid_verdict InvalidSignature), w).
Proof.
  intros Hs Hf Hd Hsig Hpem Hpk Hv.
  unfold verify_signature, bind, get_signatures.
  rewrite Hs. unfold read_file. rewrite Hf. unfold lift. rewrite Hd.
  rewrite bytes_eqb_refl. cbn [negb].
  unfold try_except, bind, _load_public_key, bind, read_file, lift.
  rewrite Hsig, Hpem, Hpk, Hv. reflexivity.
Qed.

Lemma verify_missing_public_key p w r D s :
  scan_signatures (signatures w) (PosixPath.normpath p) = Some r ->
  fs w !! p = Some (File D) ->
  b64decode (document_hash r) = Returned (sha256 D) ->
  b64decode (signature r) = Returned s ->
  fs w !! public_key_path = None ->
  verify_signature p w
    = (Returned (invalid_verdict (FileNotFoundError public_key_path)), w).
Proof.
  intros Hs Hf Hd Hsig Hpem.
  unfold verify_signature, bind, get_signatures.
  rewrite Hs. unfold read_file. rewrite Hf. unfold lift. rewrite Hd.
  rewrite bytes_eqb_refl. cbn [negb].
  unfold try_except, bind, _load_public_key, bind, read_file, lift.
  rewrite Hsig, Hpem. reflexivity.
Qed.

(** Past the digest comparison [verify_signature] is the guarded block:
    it returns the valid verdict when the stored signature decodes, the
    public key loads and the check passes, and the invalid verdict with the
    exception otherwise. *)
Lemma verify_guarded_block p w r D :
  scan_signatures (signatures w) (PosixPath.normpath p) = Some r ->
  fs w !! p = Some (File D) ->
  b64decode (document_hash r) = Returned (sha256 D) ->
  verify_signature p w =
  (Returned
     match b64decode (signature r) with
     | Raised e => invalid_verdict e
     | Returned s =>
         match fst (_load_public_key w) with
         | Raised e => invalid_verdict e
         | Returned pk =>
             if pss_verify pk s (sha256 D) then valid_verdict r
             else invalid_verdict InvalidSignature
         end
     end, w).
Proof.
  intros Hs Hf Hd. unfold verify_signature, bind at 1, get_signatures.
  rewrite Hs. unfold bind at 1, read_file at 1. rewrite Hf.
  unfold bind at 1, lift at 1. rewrite Hd. rewrite bytes_eqb_refl. cbn [negb].
  unfold try_except, bind at 1, lift at 1.
  destruct (b64decode (signature r)) as [s|e]; [|reflexivity].
  unfold bind at 1.
  pose proof (reader_load_public_key w) as Hw.
  destruct (_load_public_key w) as [[pk|e] w'] eqn:Hpk; simpl in Hw; subst w';
    cbn [fst]; [|reflexivity].
  destruct (pss_verify pk s (sha256 D)); reflexivity.
Qed.


(** The not-found verdict has no [integrity] entry; the three verdicts that
    assessed a document have one. *)
Lemma not_found_verdict_integrity : not_found_verdict !! "integrity" = None.
Proof.
  unfold not_found_verdict. rewrite lookup_insert_ne by discriminate.
  apply lookup_singleton_ne. discriminate.
Qed.

Lemma assessed_verdict_integrity r v :
  v = tampered_verdict \/ v = valid_verdict r \/ (exists e, v = invalid_verdict e) ->
  v <> not_found_verdict.
Proof.
  intros Hv E. apply (f_equal (fun d : gmap string pyval => d !! "integrity")) in E.
  rewrite not_found_verdict_integrity in E.
  destruct Hv as [->|[->|[e ->]]]; revert E.
  - unfold tampered_verdict. rewrite !lookup_insert_ne by discriminate.
    rewrite lookup_singleton_eq. discriminate.
  - unfold valid_verdict. rewrite !lookup_insert_ne by discriminate.
    rewrite lookup_insert_eq. discriminate.
  - unfold invalid_verdict. rewrite !lookup_insert_ne by discriminate.
    rewrite lookup_singleton_eq. discriminate.
Qed.

(** The verdicts a run can return once [r] is selected. *)
Lemma verify_signature_selected p w r v w1 :
  scan_signatures (signatures w) (PosixPath.normpath p) = Some r ->
  verify_signature p w = (Returned v, w1) ->
  v = tampered_verdict \/ v = valid_verdict r \/ exists e, v = invalid_verdict e.
Proof.
  intros Hs Hrun.
  rewrite (verify_unreadable p w r Hs) in Hrun.
  destruct (fs w !! p) as [[|D]|] eqn:Hf; [discriminate| |discriminate].
  destruct (b64decode (document_hash r)) as [h|e'] eqn:Hd.
  - destruct (bytes_eqb (sha256 D) h) eqn:Hh.
    + apply bytes_eqb_eq in Hh. subst h.
      rewrite (verify_guarded_block p w r D Hs Hf Hd) in Hrun. injection Hrun as <- _.
      destruct (b64decode (signature r)) as [s|e]; [|eauto].
      destruct (fst (_load_public_key w)) as [pk|e]; [|eauto].
      destruct (pss_verify pk s (sha256 D)); eauto.
    + rewrite (verify_tampered p w r D h Hs Hf Hd) in Hrun.
      * injection Hrun as <- _. auto.
      * intros E. apply bytes_eqb_eq in E. congruence.
  - exfalso. revert Hrun. unfold verify_signature, bind, get_signatures.
    rewrite Hs. unfold read_file. rewrite Hf. unfold lift. rewrite Hd. discriminate.
Qed.

(** ** [sign_document] *)

Lemma sign_document_missing p info now1 now2 salt w :
  fs w !! p = None ->
  sign_document p info now1 now2 salt w = (Returned document_not_found, w).
Proof.
  intros Hf. unfold sign_document, bind, os_path_exists. rewrite Hf. reflexivity.
Qed.

Lemma sign_document_success p info now1 now2 salt w D pem sk :
  fs w !! p = Some (File D) ->
  fs w !! private_key_path = Some (File pem) ->
  load_pem_private_key pem = Returned sk ->
  fs w !! signatures_file <> Some Dir ->
  let r := new_record sk D p info now1 now2 salt in
  sign_document p info now1 now2 salt w = (Returned (success_result r), stored w r).
Proof.
  intros Hf Hk Hsk Hl r.
  unfold sign_document, bind, os_path_exists. rewrite Hf. cbn [negb].
  unfold read_file. rewrite Hf.
  unfold _load_private_key, bind, read_file, lift. rewrite Hk, Hsk.
  unfold get_signatures, set_signatures, _save_signatures, bind, get_signatures, write_file.
  cbn [fs with_signatures signatures].
  destruct (fs w !! signatures_file) as [[|old]|]; [congruence|reflexivity..].
Qed.

(** Every way [sign_document] can return. *)
Lemma sign_document_returns p info now1 now2 salt w res w1 :
  sign_document p info now1 now2 salt w = (Returned res, w1) ->
  (fs w !! p = None /\ res = document_not_found /\ w1 = w) \/
  (exists D sk,
     fs w !! p = Some (File D) /\
     (exists pem, fs w !! private_key_path = Some (File pem) /\
                  load_pem_private_key pem = Returned sk) /\
     fs w !! signatures_file <> Some Dir /\
     res = success_result (new_record sk D p info now1 now2 salt) /\
     w1 = stored w (new_record sk D p info now1 now2 salt)).
Proof.
  intros Hrun.
  destruct (fs w !! p) as [[|D]|] eqn:Hf.
  - exfalso. revert Hrun. enter_sign Hf. discriminate.
  - destruct (fs w !! private_key_path) as [[|pem]|] eqn:Hk.
    + exfalso. revert Hrun. enter_sign Hf. read_key Hk. discriminate.
    + destruct (load_pem_private_key pem) as [sk|e] eqn:Hsk.
      * assert (Hl : fs w !! signatures_file <> Some Dir).
        { intros Hl. revert Hrun. enter_sign Hf. read_key Hk. rewrite Hsk.
          unfold get_signatures, set_signatures, _save_signatures, bind, get_signatures,
            write_file.
          cbn [fs with_signatures signatures]. rewrite Hl. discriminate. }
        rewrite (sign_document_success p info now1 now2 salt w D pem sk Hf Hk Hsk Hl) in Hrun.
        injection Hrun as <- <-. right. exists D, sk. eauto 10.
      * exfalso. revert Hrun. enter_sign Hf. read_key Hk. rewrite Hsk. discriminate.
    + exfalso. revert Hrun. enter_sign Hf. read_key Hk. discriminate.
  - rewrite sign_document_missing in Hrun by assumption.
    injection Hrun as <- <-. auto.
Qed.

Lemma document_not_found_not_success : ~ succeeded document_not_found.
Proof. unfold succeeded, document_not_found. rewrite lookup_singleton_ne; done. Qed.

Lemma success_result_succeeded r : succeeded (success_result r).
Proof. apply lookup_insert_eq. Qed.

End Methods.

(* ===================================================================== *)
(** * Frames: which files a computation leaves alone *)
(* ===================================================================== *)

Lemma keeps_reader {A} p (m : M A) : reader m -> keeps p m.
Proof. intros Hm w. rewrite Hm. reflexivity. Qed.

Lemma keeps_bind {A B} p (m : M A) (f : A -> M B) :
  keeps p m -> (forall a, keeps p (f a)) -> keeps p (bind m f).
Proof.
  intros Hm Hf w. unfold bind. specialize (Hm w).
  destruct (m w) as [[a|e] w1]; simpl in Hm; [|exact Hm].
  rewrite Hf. exact Hm.
Qed.

Lemma keeps_write_file p q data : p <> q -> keeps p (write_file q data).
Proof.
  intros Hne w. unfold write_file.
  destruct (fs w !! q) as [[|old]|]; simpl; try reflexivity;
    apply lookup_insert_ne; congruence.
Qed.

Lemma keeps_os_makedirs p q : p <> q -> keeps p (os_makedirs q).
Proof.
  intros Hne w. unfold os_makedirs.
  destruct (fs w !! q) as [[|old]|]; simpl; try reflexivity.
  apply lookup_insert_ne; congruence.
Qed.

Lemma keeps_set_signatures p d : keeps p (set_signatures d).
Proof. intros w. reflexivity. Qed.

(** Two of the engine's fixed paths are different strings. *)
Ltac paths_differ :=
  let E := fresh "E" in intros E; vm_compute in E; discriminate E.

Section Initialisation.
Context `{Primitives}.

Lemma keeps_save_signatures p : p <> signatures_file -> keeps p _save_signatures.
Proof.
  intros Hne. apply keeps_bind; [apply keeps_reader, reader_get_signatures|].
  intros d. apply keeps_write_file, Hne.
Qed.

Lemma keeps_load_signatures p : p <> signatures_file -> keeps p _load_signatures.
Proof.
  intros Hne. apply keeps_bind; [apply keeps_reader, reader_os_path_exists|].
  intros [|].
  - apply keeps_bind; [apply keeps_reader, reader_read_file|]. intros data.
    apply keeps_bind; [apply keeps_reader, reader_lift|]. intros d.
    apply keeps_set_signatures.
  - apply keeps_bind; [apply keeps_set_signatures|]. intros _.
    apply keeps_save_signatures, Hne.
Qed.

(** The steps of [__init__] that come before the key check. *)
Lemma keeps_before_key_check p :
  p <> keys_folder -> p <> signatures_file ->
  keeps p (os_makedirs keys_folder;; _load_signatures).
Proof.
  intros H1 H2. apply keeps_bind; [apply keeps_os_makedirs, H1|].
  intros _. apply keeps_load_signatures, H2.
Qed.

Lemma init_unfold env w :
  __init__ env w =
  bind (os_makedirs keys_folder;; _load_signatures)
       (fun _ => e ← os_path_exists private_key_path;
                 if negb e then _generate_keys env else ret tt) w.
Proof.
  unfold __init__, bind.
  destruct (os_makedirs keys_folder w) as [[[]|e] w1]; reflexivity.
Qed.

(** With a private key file in place, construction writes no file but
    the folder and the ledger. *)
Lemma init_keeps_existing env w p :
  fs w !! private_key_path <> None ->
  p <> keys_folder -> p <> signatures_file ->
  fs (snd (__init__ env w)) !! p = fs w !! p.
Proof.
  intros Hk H1 H2. rewrite init_unfold. unfold bind at 1.
  pose proof (keeps_before_key_check p H1 H2 w) as Kp.
  assert (Kk : fs (snd ((os_makedirs keys_folder;; _load_signatures) w)) !! private_key_path
               = fs w !! private_key_path).
  { apply keeps_before_key_check; paths_differ. }
  destruct ((os_makedirs keys_folder;; _load_signatures) w) as [[[]|e] w2];
    simpl in Kp, Kk; [|exact Kp].
  unfold bind, os_path_exists.
  destruct (fs w2 !! private_key_path) eqn:E; [exact Kp | congruence].
Qed.

(** Without one, a construction that completes has written the three
    artefacts of a fresh 2048-bit key. *)
Lemma init_generates env w w' :
  __init__ env w = (Returned tt, w') ->
  fs w !! private_key_path = None ->
  let sk := rsa_generate_private_key 65537 2048 (entropy env) in
  fs w' !! private_key_path = Some (File (private_bytes sk)) /\
  fs w' !! public_key_path = Some (File (public_bytes (public_key_of sk))) /\
  fs w' !! certificate_path =
    Some (File (self_signed_certificate sk (serial_number env) (utcnow1 env) (utcnow2 env))).
Proof.
  intros Hrun Hk sk. rewrite init_unfold in Hrun. unfold bind at 1 in Hrun.
  assert (Kk : fs (snd ((os_makedirs keys_folder;; _load_signatures) w)) !! private_key_path
               = fs w !! private_key_path).
  { apply keeps_before_key_check; paths_differ. }
  destruct ((os_makedirs keys_folder;; _load_signatures) w) as [[[]|e] w2];
    simpl in Kk; [|discriminate].
  rewrite Hk in Kk. revert Hrun.
  unfold bind, os_path_exists. rewrite Kk. cbn [negb].
  unfold _generate_keys, bind, write_file. rewrite Kk. cbn [fs with_fs].
  fold sk.
  assert (Hpub : private_key_path <> public_key_path)
by paths_differ.
  assert (Hcert1 : private_key_path <> certificate_path)
by paths_differ.
  assert (Hcert2 : public_key_path <> certificate_path)
by paths_differ.
  rewrite lookup_insert_ne by assumption.
  destruct (fs w2 !! public_key_path) as [[|old]|]; [discriminate| |];
    cbn [fs with_fs]; rewrite !lookup_insert_ne by assumption;
    (destruct (fs w2 !! certificate_path) as [[|old']|]; [discriminate| |]);
    intros [= <-]; cbn [fs with_fs];
    (split; [|split]);
    rewrite ?lookup_insert_eq, ?(lookup_insert_ne _ certificate_path),
      ?(lookup_insert_ne _ public_key_path), ?lookup_insert_eq by congruence;
    reflexivity.
Qed.

Lemma init_returns_key env w w' :
  __init__ env w = (Returned tt, w') -> fs w' !! private_key_path <> None.
Proof.
  intros Hrun. destruct (fs w !! private_key_path) eqn:Hk.
  - replace w' with (snd (__init__ env w)) by (rewrite Hrun; reflexivity).
    rewrite init_keeps_existing by (congruence || paths_differ).
    congruence.
  - destruct (init_generates env w w' Hrun Hk) as (Hp & _). congruence.
Qed.

(** First use leaves the key store holding one pair. *)
Lemma init_persists_identity env w w' :
  __init__ env w = (Returned tt, w') ->
  fs w !! private_key_path = None ->
  identity_persisted (fs w') (rsa_generate_private_key 65537 2048 (entropy env)).
Proof.
  intros Hrun Hk. destruct (init_generates env w w' Hrun Hk) as (Hpriv & Hpub & _).
  split; assumption.
Qed.

End Initialisation.

(* ===================================================================== *)
(** * Lookup after a record is stored *)
(* ===================================================================== *)

Lemma unsigned_scan ledger ref :
  unsigned ledger ref -> scan_signatures ledger (PosixPath.normpath ref) = None.
Proof.
  induction ledger as [|[k r] ledger IH]; intros Hu; simpl; [reflexivity|].
  assert (Hr : matches ref r = false) by (apply (Hu k); left; reflexivity).
  unfold matches in Hr. rewrite Hr. apply IH.
  intros k' r' Hin. apply (Hu k'). right. exact Hin.
Qed.

Lemma scan_unsigned ledger ref :
  scan_signatures ledger (PosixPath.normpath ref) = None -> unsigned ledger ref.
Proof.
  induction ledger as [|[k r] ledger IH]; simpl; intros Hs k' r' Hin; [contradiction|].
  destruct (String.eqb (PosixPath.normpath (document_path r)) (PosixPath.normpath ref)) eqn:E;
    [discriminate|].
  destruct Hin as [[= <- <-]|Hin]; [exact E | exact (IH Hs k' r' Hin)].
Qed.

Section Stored.
Context `{Primitives}.

Lemma new_record_matches sk D ref info now1 now2 salt :
  matches ref (new_record sk D ref info now1 now2 salt) = true.
Proof.
  unfold matches, new_record; cbn [document_path].
  rewrite PosixPathFacts.normpath_idempotent. apply String.eqb_refl.
Qed.

(** In a ledger that held nothing for [ref], the lookup finds the record
    just stored for it. *)
Lemma scan_stored w sk D ref info now1 now2 salt :
  unsigned (signatures w) ref ->
  scan_signatures
    (signatures (stored w (new_record sk D ref info now1 now2 salt)))
    (PosixPath.normpath ref)
  = Some (new_record sk D ref info now1 now2 salt).
Proof.
  intros Hu. unfold stored; cbn [signatures].
  rewrite scan_signatures_set by (apply unsigned_scan, Hu).
  pose proof (new_record_matches sk D ref info now1 now2 salt) as Hm.
  unfold matches in Hm. rewrite Hm. reflexivity.
Qed.

Lemma stored_keeps w r p : p <> signatures_file -> fs (stored w r) !! p = fs w !! p.
Proof. intros Hne. unfold stored; cbn [fs]. apply lookup_insert_ne. congruence. Qed.

(** A successful [sign_document] under a persisted identity signed with
    that identity's key. *)
Lemma sign_document_succeeded `{!PrimitiveLaws} ref info now1 now2 salt w res w1 D sk :
  fs w !! private_key_path = Some (File (private_bytes sk)) ->
  fs w !! ref = Some (File D) ->
  sign_document ref info now1 now2 salt w = (Returned res, w1) ->
  res = success_result (new_record sk D ref info now1 now2 salt) /\
  w1 = stored w (new_record sk D ref info now1 now2 salt).
Proof.
  intros Hk Hf Hrun.
  destruct (sign_document_returns _ _ _ _ _ _ _ _ Hrun)
    as [(Hnone & _)|(D0 & sk0 & Hf0 & (pem & Hpem & Hload) & _ & -> & ->)];
    [congruence|].
  assert (D0 = D) by congruence. subst D0.
  assert (pem = private_bytes sk) by congruence. subst pem.
  rewrite load_private_bytes in Hload. injection Hload as <-.
  split; reflexivity.
Qed.

(** Verification against a record stored for [D]: valid on [D]. *)
Lemma verify_stored_valid `{!PrimitiveLaws} w1 sk D ref info now1 now2 salt :
  let r := new_record sk D ref info now1 now2 salt in
  scan_signatures (signatures w1) (PosixPath.normpath ref) = Some r ->
  fs w1 !! ref = Some (File D) ->
  fs w1 !! public_key_path = Some (File (public_bytes (public_key_of sk))) ->
  verify_signature ref w1 = (Returned (valid_verdict r), w1).
Proof.
  intros r Hs Hf Hpk.
  apply (verify_valid ref w1 r D (pss_sign sk (sha256 D) salt)
           (public_bytes (public_key_of sk)) (public_key_of sk)); try assumption.
  - apply b64decode_b64encode.
  - apply b64decode_b64encode.
  - apply load_public_bytes.
  - apply pss_verify_sign.
Qed.

(** ... and tampered on bytes with another digest. *)
Lemma verify_stored_tampered `{!PrimitiveLaws} w1 sk D D' ref info now1 now2 salt :
  let r := new_record sk D ref info now1 now2 salt in
  scan_signatures (signatures w1) (PosixPath.normpath ref) = Some r ->
  fs w1 !! ref = Some (File D') ->
  sha256 D' <> sha256 D ->
  verify_signature ref w1 = (Returned tampered_verdict, w1).
Proof.
  intros r Hs Hf Hne.
  apply (verify_tampered ref w1 r D' (sha256 D)); try assumption.
  apply b64decode_b64encode.
Qed.

Lemma b64encode_inj `{!PrimitiveLaws} a b : b64encode a = b64encode b -> a = b.
Proof.
  intros E. pose proof (b64decode_b64encode a) as Ha.
  rewrite E, b64decode_b64encode in Ha. congruence.
Qed.

End Stored.

(* ===================================================================== *)
(** * The executable instance obeys the laws *)
(* ===================================================================== *)

Lemma starts_with_app p s : Demo.starts_with p (p ++ s)%list = true.
Proof.
  induction p as [|x p IH]; simpl; [reflexivity|].
  rewrite IH, andb_true_r. apply Byte.byte_dec_lb. reflexivity.
Qed.

Lemma demo_laws : @PrimitiveLaws Demo.primitives.
Proof.
  split.
  - intros sk data salt.
    change (Demo.verify (Demo.checksum sk) (Demo.sign sk data salt) data = true).
    unfold Demo.verify, Demo.sign. rewrite app_assoc. apply starts_with_app.
  - intros sk data salt1 salt2.
    change (Demo.sign sk data salt1 = Demo.sign sk data salt2 -> salt1 = salt2).
    unfold Demo.sign. intros E.
    apply app_inv_head in E. apply app_inv_head in E. exact E.
  - intros b.
    change (Returned (String.list_byte_of_string (String.string_of_list_byte b)) = Returned b).
    rewrite String.list_byte_of_string_of_list_byte. reflexivity.
  - intros sk. reflexivity.
  - intros pk. reflexivity.
Qed.

(* ===================================================================== *)
(** * What a successful [sign_document] returns and stores *)
(* ===================================================================== *)

Lemma strftime_same_second a b : same_second a b -> strftime_YmdHMS a = strftime_YmdHMS b.
Proof.
  intros (Hy & Hmo & Hd & Hh & Hmi & Hs). unfold strftime_YmdHMS.
  rewrite Hy, Hmo, Hd, Hh, Hmi, Hs. reflexivity.
Qed.

Lemma success_result_signature_id r :
  success_result r !! "signature_id" = Some (PyStr (signature_id r)).
Proof.
  unfold success_result. rewrite lookup_insert_ne by discriminate. apply lookup_insert_eq.
Qed.

Lemma success_result_signature r :
  success_result r !! "signature" = Some (PyStr (signature r)).
Proof.
  unfold success_result. rewrite !lookup_insert_ne by discriminate. apply lookup_insert_eq.
Qed.

Lemma success_result_signer r :
  success_result r !! "signer" = Some (PyStr (signer_name r)).
Proof.
  unfold success_result. rewrite !lookup_insert_ne by discriminate. apply lookup_insert_eq.
Qed.

(** A [sign_document] that succeeded stored a record. *)
Lemma sign_document_stored `{Primitives} p info now1 now2 salt w res w1 :
  sign_document p info now1 now2 salt w = (Returned res, w1) ->
  succeeded res ->
  exists D sk,
    fs w !! p = Some (File D) /\
    (exists pem, fs w !! private_key_path = Some (File pem) /\
                 load_pem_private_key pem = Returned sk) /\
    fs w !! signatures_file <> Some Dir /\
    res = success_result (new_record sk D p info now1 now2 salt) /\
    w1 = stored w (new_record sk D p info now1 now2 salt).
Proof.
  intros Hrun Hok.
  destruct (sign_document_returns _ _ _ _ _ _ _ _ Hrun) as [(_ & -> & _)|Hcase];
    [|exact Hcase].
  exfalso. exact (document_not_found_not_success Hok).
Qed.

(** With a fresh id the ledger grows by the new record, placed last. *)
Lemma sign_document_fresh_id `{Primitives} p info now1 now2 salt w res w1 :
  sign_document p info now1 now2 salt w = (Returned res, w1) ->
  succeeded res ->
  PyDict.get (signatures w) ("SIG-" +:+ strftime_YmdHMS now1) = None ->
  exists r, signatures w1 = (signatures w ++ [("SIG-" +:+ strftime_YmdHMS now1, r)])%list /\
            length (signatures w1) = S (length (signatures w)).
Proof.
  intros Hrun Hok Hfresh.
  destruct (sign_document_stored _ _ _ _ _ _ _ _ Hrun Hok) as (D & sk & _ & _ & _ & _ & ->).
  eexists. unfold stored; cbn [signatures signature_id new_record].
  rewrite PyDictFacts.set_fresh by assumption. split; [reflexivity|].
  rewrite length_app. simpl. lia.
Qed.


(* ===================================================================== *)
(** * Ids and seconds *)
(* ===================================================================== *)

Lemma length_append s t : String.length (s +:+ t) = String.length s + String.length t.
Proof. induction s as [|c s IH]; simpl; [reflexivity | rewrite IH; reflexivity]. Qed.

Lemma append_inj_length s1 t1 s2 t2 :
  String.length s1 = String.length s2 ->
  s1 +:+ t1 = s2 +:+ t2 -> s1 = s2 /\ t1 = t2.
Proof.
  revert s2. induction s1 as [|c s1 IH]; intros [|c' s2]; simpl; try discriminate.
  - auto.
  - intros [= Hlen] [= -> Happ]. destruct (IH s2 Hlen Happ) as [-> ->]. auto.
Qed.

Lemma length_zfill w n : String.length (zfill w n) = w.
Proof.
  revert n. induction w as [|w IH]; intros n; simpl; [reflexivity|].
  rewrite length_append, IH. simpl. lia.
Qed.

Lemma digit_inj a b : digit a = digit b -> a mod 10 = b mod 10.
Proof.
  unfold digit. intros E.
  assert (Ha : a mod 10 < 10) by (apply Nat.mod_upper_bound; lia).
  assert (Hb : b mod 10 < 10) by (apply Nat.mod_upper_bound; lia).
  apply (f_equal nat_of_ascii) in E.
  rewrite !nat_ascii_embedding in E by lia. lia.
Qed.

Lemma zfill_inj w a b : a < 10 ^ w -> b < 10 ^ w -> zfill w a = zfill w b -> a = b.
Proof.
  revert a b. induction w as [|w IH]; intros a b Ha Hb; simpl in *; [lia|].
  intros E. apply append_inj_length in E; [|rewrite !length_zfill; reflexivity].
  destruct E as [Ehigh Elow]. injection Elow as Elow.
  assert (Hq : a / 10 = b / 10).
  { apply IH; [| |exact Ehigh]; apply Nat.Div0.div_lt_upper_bound; lia. }
  pose proof (digit_inj a b Elow) as Hr.
  rewrite (Nat.div_mod_eq a 10), (Nat.div_mod_eq b 10). lia.
Qed.

(** Between well-formed clock readings, equal ids mean the same second. *)
Lemma strftime_inj a b :
  well_formed a -> well_formed b ->
  strftime_YmdHMS a = strftime_YmdHMS b -> same_second a b.
Proof.
  intros ((_ & Hy) & Hmo & Hd & Hh & Hmi & Hs & _)
         ((_ & Hy') & Hmo' & Hd' & Hh' & Hmi' & Hs' & _).
  unfold strftime_YmdHMS, same_second. intros E.
  repeat (apply append_inj_length in E; [|rewrite !length_zfill; reflexivity];
          destruct E as [?E E]).
  repeat split;
    (eapply zfill_inj; [| |eassumption]; first [assumption | simpl; lia]).
Qed.

(** Two successful calls in different seconds get different ids, and the
    record of the first is still in the ledger after the second. *)
Lemma sign_document_distinct_seconds `{Primitives}
    p1 p2 info1 info2 a1 a2 b1 b2 salt1 salt2 w res1 w1 res2 w2 :
  sign_document p1 info1 a1 a2 salt1 w = (Returned res1, w1) ->
  succeeded res1 ->
  sign_document p2 info2 b1 b2 salt2 w1 = (Returned res2, w2) ->
  succeeded res2 ->
  well_formed a1 -> well_formed b1 -> ~ same_second a1 b1 ->
  res1 !! "signature_id" <> res2 !! "signature_id" /\
  PyDict.get (signatures w2) ("SIG-" +:+ strftime_YmdHMS a1)
    = PyDict.get (signatures w1) ("SIG-" +:+ strftime_YmdHMS a1).
Proof.
  intros Hrun1 Hok1 Hrun2 Hok2 Ha Hb Hdiff.
  destruct (sign_document_stored _ _ _ _ _ _ _ _ Hrun1 Hok1)
    as (D1 & sk1 & _ & _ & _ & -> & ->).
  destruct (sign_document_stored _ _ _ _ _ _ _ _ Hrun2 Hok2)
    as (D2 & sk2 & _ & _ & _ & -> & ->).
  assert (Hne : "SIG-" +:+ strftime_YmdHMS b1 <> "SIG-" +:+ strftime_YmdHMS a1).
  { intros E. apply Hdiff. apply strftime_inj; try assumption.
    apply append_inj_length in E; [|reflexivity]. symmetry. apply E. }
  split.
  - rewrite !success_result_signature_id. cbn [signature_id new_record]. congruence.
  - unfold stored at 1; cbn [signatures signature_id new_record].
    apply PyDictFacts.get_set_ne. exact Hne.
Qed.

(* ===================================================================== *)
(** * Properties of the engine *)
(* ===================================================================== *)

Ltac evaluate := vm_compute; reflexivity.

(** Runs on the executable instance, through the case lemmas of the
    methods: only look-ups and digests are evaluated. *)
Ltac demo_sign D :=
  apply (@sign_document_success Demo.primitives _ _ _ _ _ _ D Demo.key Demo.key);
  [evaluate | evaluate | reflexivity | vm_compute; discriminate].
Ltac demo_valid r D :=
  eapply (@verify_valid Demo.primitives _ _ r D);
  [evaluate | evaluate | evaluate | evaluate | evaluate | reflexivity | evaluate].
Ltac demo_tampered r D :=
  eapply (@verify_tampered Demo.primitives _ _ r D);
  [evaluate | evaluate | evaluate | vm_compute; discriminate].

(** C1, as amended.  When the key files hold the pair of one identity, the
    ledger holds no record for [ref], [sign_document] succeeds on the bytes
    [D] and the file still reads [D], the verification that follows returns
    the valid verdict, whatever the signer metadata. *)
Theorem sign_then_verify_valid `{Primitives} `{!PrimitiveLaws}
    ref info now1 now2 salt w res w1 D sk :
  identity_persisted (fs w) sk ->
  unsigned (signatures w) ref ->
  fs w !! ref = Some (File D) ->
  sign_document ref info now1 now2 salt w = (Returned res, w1) ->
  succeeded res ->
  fs w1 !! ref = Some (File D) ->
  verify_signature ref w1
    = (Returned (valid_verdict (new_record sk D ref info now1 now2 salt)), w1) /\
  valid_verdict (new_record sk D ref info now1 now2 salt) !! "valid" = Some (PyBool true).
Proof.
  intros [Hpriv Hpub] Hu Hf Hrun _ Hf1.
  destruct (sign_document_succeeded _ _ _ _ _ _ _ _ _ _ Hpriv Hf Hrun) as [_ ->].
  split; [|apply lookup_insert_eq].
  apply verify_stored_valid.
  - apply scan_stored, Hu.
  - exact Hf1.
  - rewrite stored_keeps by paths_differ. exact Hpub.
Qed.

Lemma sign_then_verify_valid_witness :
  identity_persisted (fs Demo.booted) Demo.key /\
  unsigned (signatures Demo.booted) "contract.txt" /\
  sign_document "contract.txt" Demo.acme
      (Demo.at_time 9 0 0 100) (Demo.at_time 9 0 0 150) (Demo.text "salt-1") Demo.booted
    = (Returned (success_result Demo.record1), Demo.signed_once) /\
  verify_signature "contract.txt" Demo.signed_once
    = (Returned (valid_verdict Demo.record1), Demo.signed_once) /\
  valid_verdict Demo.record1 !! "valid" = Some (PyBool true).
Proof.
  assert (Hid : identity_persisted (fs Demo.booted) Demo.key) by (split; evaluate).
  assert (Hu : unsigned (signatures Demo.booted) "contract.txt")
    by (apply scan_unsigned; evaluate).
  assert (Hrun : sign_document "contract.txt" Demo.acme
      (Demo.at_time 9 0 0 100) (Demo.at_time 9 0 0 150) (Demo.text "salt-1") Demo.booted
    = (Returned (success_result Demo.record1), Demo.signed_once))
    by demo_sign Demo.contract_v1.
  split; [exact Hid|]. split; [exact Hu|]. split; [exact Hrun|].
  apply (@sign_then_verify_valid Demo.primitives demo_laws "contract.txt" Demo.acme
           (Demo.at_time 9 0 0 100) (Demo.at_time 9 0 0 150) (Demo.text "salt-1")
           Demo.booted (success_result Demo.record1) Demo.signed_once
           Demo.contract_v1 Demo.key Hid Hu);
    [evaluate | exact Hrun | apply success_result_succeeded | evaluate].
Defined.

(** C1 as stated fails: the contract was signed at 09:00:00 and then
    edited; signing the edited file at 09:05:00 succeeds, and the
    verification that follows selects the older record and reports
    tampering. *)
Lemma resigned_document_verifies_tampered :
  identity_persisted (fs Demo.edited) Demo.key /\
  fs Demo.edited !! "contract.txt" = Some (File Demo.contract_v2) /\
  sign_document "contract.txt" Demo.acme
      (Demo.at_time 9 5 0 0) (Demo.at_time 9 5 0 9) (Demo.text "salt-2") Demo.edited
    = (Returned (success_result Demo.record2), Demo.signed_twice) /\
  succeeded (success_result Demo.record2) /\
  fs Demo.signed_twice !! "contract.txt" = Some (File Demo.contract_v2) /\
  verify_signature "contract.txt" Demo.signed_twice
    = (Returned tampered_verdict, Demo.signed_twice) /\
  tampered_verdict !! "valid" = Some (PyBool false).
Proof.
  split; [split; evaluate|]. split; [evaluate|].
  split; [demo_sign Demo.contract_v2|].
  split; [apply success_result_succeeded|]. split; [evaluate|].
  split; [demo_tampered Demo.record1 Demo.contract_v2 | apply lookup_insert_eq].
Qed.

(** C2, as amended.  When the ledger held no record for [ref] before [D]
    was signed, verifying bytes [D'] of another digest returns the tampered
    verdict.  The key files play no part: the statement holds for every
    file system at verification time, so the signature check is not
    reached. *)
Theorem mutated_document_is_tampered `{Primitives} `{!PrimitiveLaws}
    ref info now1 now2 salt w res w1 w2 D D' :
  unsigned (signatures w) ref ->
  fs w !! ref = Some (File D) ->
  sign_document ref info now1 now2 salt w = (Returned res, w1) ->
  succeeded res ->
  signatures w2 = signatures w1 ->
  fs w2 !! ref = Some (File D') ->
  sha256 D' <> sha256 D ->
  verify_signature ref w2 = (Returned tampered_verdict, w2) /\
  tampered_verdict !! "valid" = Some (PyBool false) /\
  tampered_verdict !! "integrity" = Some (PyStr "compromised").
Proof.
  intros Hu Hf Hrun _ Hsigs Hf2 Hne.
  destruct (sign_document_returns _ _ _ _ _ _ _ _ Hrun)
    as [(Hnone & _)|(D0 & sk & Hf0 & _ & _ & _ & ->)]; [congruence|].
  assert (D0 = D) by congruence. subst D0.
  split; [|split; [apply lookup_insert_eq | evaluate]].
  apply (verify_stored_tampered w2 sk D D' ref info now1 now2 salt).
  - rewrite Hsigs. apply scan_stored, Hu.
  - exact Hf2.
  - exact Hne.
Qed.

Lemma mutated_document_is_tampered_witness :
  unsigned (signatures Demo.booted) "contract.txt" /\
  sha256 Demo.contract_v2 <> sha256 Demo.contract_v1 /\
  verify_signature "contract.txt" Demo.edited = (Returned tampered_verdict, Demo.edited) /\
  tampered_verdict !! "valid" = Some (PyBool false) /\
  tampered_verdict !! "integrity" = Some (PyStr "compromised").
Proof.
  assert (Hu : unsigned (signatures Demo.booted) "contract.txt")
    by (apply scan_unsigned; evaluate).
  assert (Hne : sha256 Demo.contract_v2 <> sha256 Demo.contract_v1)
    by (vm_compute; discriminate).
  split; [exact Hu|]. split; [exact Hne|].
  apply (@mutated_document_is_tampered Demo.primitives demo_laws "contract.txt" Demo.acme
           (Demo.at_time 9 0 0 100) (Demo.at_time 9 0 0 150) (Demo.text "salt-1")
           Demo.booted (success_result Demo.record1) Demo.signed_once Demo.edited
           Demo.contract_v1 Demo.contract_v2 Hu);
    [evaluate | demo_sign Demo.contract_v1 | apply success_result_succeeded
    | reflexivity | evaluate | exact Hne].
Defined.

(** C2 as stated fails: version 2 of the contract is signed after
    version 1 was; one byte of the file is then changed, which gives
    version 1 back, and the verification selects the record of version 1
    and returns the valid verdict. *)
Lemma reverted_document_verifies_valid :
  sign_document "contract.txt" Demo.acme
      (Demo.at_time 9 5 0 0) (Demo.at_time 9 5 0 9) (Demo.text "salt-2") Demo.edited
    = (Returned (success_result Demo.record2), Demo.signed_twice) /\
  signatures Demo.reverted = signatures Demo.signed_twice /\
  fs Demo.reverted !! "contract.txt" = Some (File Demo.contract_v1) /\
  sha256 Demo.contract_v1 <> sha256 Demo.contract_v2 /\
  verify_signature "contract.txt" Demo.reverted
    = (Returned (valid_verdict Demo.record1), Demo.reverted) /\
  valid_verdict Demo.record1 !! "valid" = Some (PyBool true).
Proof.
  split; [demo_sign Demo.contract_v2|]. split; [reflexivity|]. split; [evaluate|].
  split; [vm_compute; discriminate|].
  split; [demo_valid Demo.record1 Demo.contract_v1 | apply lookup_insert_eq].
Qed.

(** C3, at the failing input.  Two successful calls whose first clock
    readings fall in one second are given the same id: the record of the
    second call replaces that of the first and the ledger does not grow. *)
Theorem same_second_signs_share_id `{Primitives}
    p1 p2 info1 info2 a1 a2 b1 b2 salt1 salt2 w res1 w1 res2 w2 :
  sign_document p1 info1 a1 a2 salt1 w = (Returned res1, w1) ->
  succeeded res1 ->
  sign_document p2 info2 b1 b2 salt2 w1 = (Returned res2, w2) ->
  succeeded res2 ->
  same_second a1 b1 ->
  exists id r1 r2,
    res1 !! "signature_id" = Some (PyStr id) /\
    res2 !! "signature_id" = Some (PyStr id) /\
    PyDict.get (signatures w1) id = Some r1 /\
    document_path r1 = PosixPath.normpath p1 /\
    PyDict.get (signatures w2) id = Some r2 /\
    document_path r2 = PosixPath.normpath p2 /\
    length (signatures w2) = length (signatures w1).
Proof.
  intros Hrun1 Hok1 Hrun2 Hok2 Hsame.
  destruct (sign_document_stored _ _ _ _ _ _ _ _ Hrun1 Hok1)
    as (D1 & sk1 & _ & _ & _ & -> & ->).
  destruct (sign_document_stored _ _ _ _ _ _ _ _ Hrun2 Hok2)
    as (D2 & sk2 & _ & _ & _ & -> & ->).
  exists ("SIG-" +:+ strftime_YmdHMS a1),
    (new_record sk1 D1 p1 info1 a1 a2 salt1), (new_record sk2 D2 p2 info2 b1 b2 salt2).
  rewrite !success_result_signature_id.
  unfold stored; cbn [signatures signature_id new_record document_path].
  rewrite <- (strftime_same_second a1 b1 Hsame).
  repeat split.
  - apply PyDictFacts.get_set_eq.
  - apply PyDictFacts.get_set_eq.
  - apply PyDictFacts.set_length_present. rewrite PyDictFacts.get_set_eq. discriminate.
Qed.

Lemma same_second_signs_share_id_witness :
  same_second (Demo.at_time 9 0 0 100) (Demo.at_time 9 0 0 900) /\
  exists id r1 r2,
    success_result Demo.record1 !! "signature_id" = Some (PyStr id) /\
    success_result Demo.invoice_record !! "signature_id" = Some (PyStr id) /\
    PyDict.get (signatures Demo.signed_once) id = Some r1 /\
    document_path r1 = PosixPath.normpath "contract.txt" /\
    PyDict.get (signatures Demo.signed_same_second) id = Some r2 /\
    document_path r2 = PosixPath.normpath "invoice.xml" /\
    length (signatures Demo.signed_same_second) = length (signatures Demo.signed_once).
Proof.
  assert (Hsame : same_second (Demo.at_time 9 0 0 100) (Demo.at_time 9 0 0 900))
    by (repeat split).
  split; [exact Hsame|].
  apply (@same_second_signs_share_id Demo.primitives
           "contract.txt" "invoice.xml" Demo.acme ∅
           (Demo.at_time 9 0 0 100) (Demo.at_time 9 0 0 150)
           (Demo.at_time 9 0 0 900) (Demo.at_time 9 0 0 950)
           (Demo.text "salt-1") (Demo.text "salt-3")
           Demo.booted (success_result Demo.record1) Demo.signed_once
           (success_result Demo.invoice_record) Demo.signed_same_second);
    [demo_sign Demo.contract_v1 | apply success_result_succeeded
    | demo_sign Demo.invoice | apply success_result_succeeded | exact Hsame].
Defined.

(** What the collision costs: the contract, signed a moment before the
    invoice, has no signature on record any more. *)
Example overwritten_signature_is_lost :
  verify_signature "contract.txt" Demo.signed_once
    = (Returned (valid_verdict Demo.record1), Demo.signed_once) /\
  verify_signature "contract.txt" Demo.signed_same_second
    = (Returned not_found_verdict, Demo.signed_same_second).
Proof.
  split; [demo_valid Demo.record1 Demo.contract_v1|].
  apply verify_not_found. evaluate.
Qed.

(** C4.  The loop of [verify_signature] is the first-match lookup of the
    specification: of the records in insertion order, the first whose
    stored path has the normal form of the queried path, the query being
    normalised too ([./ref] selects what a relative [ref] selects).  The
    verdict is that record's.  With no match it is the not-found verdict.
    With a first match [r] it is never the not-found verdict: it is the
    tampered verdict when the digest of the file differs from the one
    stored in [r], and with equal digests it is decided by the signature
    stored in [r], the valid verdict being the one of [r].  All of this
    holds whatever is stored after [r], matching records included: cutting
    the ledger down to the first match, or changing what follows it,
    changes nothing. *)
Theorem verify_selects_first_match `{Primitives} ref w :
  scan_signatures (signatures w) (PosixPath.normpath ref)
    = find_by_reference (signatures w) ref /\
  (String.prefix "/" ref = false ->
   find_by_reference (signatures w) ("./" +:+ ref)
   = find_by_reference (signatures w) ref) /\
  (find_by_reference (signatures w) ref = None ->
   verify_signature ref w = (Returned not_found_verdict, w)) /\
  fst (verify_signature ref w)
    = fst (verify_signature ref
             (with_signatures w (first_match_only (signatures w) ref))) /\
  (forall before k r after,
     signatures w = (before ++ (k, r) :: after)%list ->
     unsigned before ref -> matches ref r = true ->
     find_by_reference (signatures w) ref = Some r /\
     (forall v w1,
        verify_signature ref w = (Returned v, w1) ->
        v <> not_found_verdict /\
        (v = tampered_verdict \/ v = valid_verdict r \/ exists e, v = invalid_verdict e)) /\
     (forall D h,
        fs w !! ref = Some (File D) ->
        b64decode (document_hash r) = Returned h ->
        sha256 D <> h ->
        verify_signature ref w = (Returned tampered_verdict, w)) /\
     (forall D s pem pk,
        fs w !! ref = Some (File D) ->
        b64decode (document_hash r) = Returned (sha256 D) ->
        b64decode (signature r) = Returned s ->
        fs w !! public_key_path = Some (File pem) ->
        load_pem_public_key pem = Returned pk ->
        verify_signature ref w
        = (Returned (if pss_verify pk s (sha256 D) then valid_verdict r
                     else invalid_verdict InvalidSignature), w)) /\
     forall after',
       fst (verify_signature ref w)
       = fst (verify_signature ref
                (with_signatures w (before ++ (k, r) :: after')%list))).
Proof.
  assert (Hdep : forall l1 l2,
    scan_signatures l1 (PosixPath.normpath ref) = scan_signatures l2 (PosixPath.normpath ref) ->
    fst (verify_signature ref (with_signatures w l1))
    = fst (verify_signature ref (with_signatures w l2))).
  { intros l1 l2 Hl. unfold verify_signature, bind, get_signatures.
    cbn [signatures with_signatures]. rewrite Hl.
    destruct (scan_signatures l2 (PosixPath.normpath ref)) as [r|]; [|reflexivity].
    unfold read_file; cbn [fs with_signatures].
    destruct (fs w !! ref) as [[|D]|]; [reflexivity| |reflexivity].
    unfold lift. destruct (b64decode (document_hash r)) as [h|e]; [|reflexivity].
    destruct (negb (bytes_eqb (sha256 D) h)); [reflexivity|].
    unfold try_except, bind, lift.
    destruct (b64decode (signature r)) as [s|e]; [|reflexivity].
    unfold _load_public_key, bind, read_file; cbn [fs with_signatures].
    destruct (fs w !! public_key_path) as [[|pem]|]; [reflexivity| |reflexivity].
    unfold lift. destruct (load_pem_public_key pem) as [pk|e]; [|reflexivity].
    destruct (pss_verify pk s (sha256 D)); reflexivity. }
  assert (Hw : with_signatures w (signatures w) = w) by (destruct w; reflexivity).
  split; [apply scan_signatures_find|].
  split.
  { intros Hrel. rewrite <- !scan_signatures_find.
    rewrite PosixPathFacts.normpath_dot_slash by exact Hrel. reflexivity. }
  split.
  { intros Hnone. apply verify_not_found. rewrite scan_signatures_find. exact Hnone. }
  split.
  - rewrite <- Hw at 1. apply Hdep.
    unfold first_match_only. rewrite <- scan_signatures_find.
    destruct (scan_signatures (signatures w) (PosixPath.normpath ref)) as [r|] eqn:Hs;
      [|reflexivity].
    destruct (scan_signatures_Some _ _ _ Hs) as (_ & _ & _ & _ & _ & Hr).
    simpl. rewrite Hr. reflexivity.
  - intros before k r after Hl Hu Hr.
    assert (Hs : scan_signatures (signatures w) (PosixPath.normpath ref) = Some r).
    { rewrite Hl. apply scan_signatures_first; [apply unsigned_scan, Hu | exact Hr]. }
    split; [rewrite <- scan_signatures_find; exact Hs|].
    split.
    { intros v w1 Hrun.
      pose proof (verify_signature_selected ref w r v w1 Hs Hrun) as Hv.
      split; [exact (assessed_verdict_integrity r v Hv) | exact Hv]. }
    split; [intros D h Hf Hd Hne; exact (verify_tampered ref w r D h Hs Hf Hd Hne)|].
    split.
    { intros D s pem pk Hf Hd Hsig Hpem Hpk.
      destruct (pss_verify pk s (sha256 D)) eqn:Hv.
      - exact (verify_valid ref w r D s pem pk Hs Hf Hd Hsig Hpem Hpk Hv).
      - exact (verify_invalid_signature ref w r D s pem pk Hs Hf Hd Hsig Hpem Hpk Hv). }
    intros after'. rewrite <- Hw at 1. apply Hdep. rewrite Hl.
    rewrite !scan_signatures_first by (apply unsigned_scan, Hu || exact Hr).
    reflexivity.
Qed.

Lemma verify_selects_first_match_witness :
  signatures Scenes.respelled
    = ([] ++ ("SIG-20240307090000", Demo.record1)
          :: [("SIG-20240307090500", Demo.record2)])%list /\
  PosixPath.normpath "./contract.txt" <> "./contract.txt" /\
  matches "./contract.txt" Demo.record1 = true /\
  matches "./contract.txt" Demo.record2 = true /\
  fs Scenes.respelled !! "./contract.txt" = Some (File Demo.contract_v2) /\
  document_hash Demo.record2 = b64encode (sha256 Demo.contract_v2) /\
  find_by_reference (signatures Scenes.respelled) "./contract.txt" = Some Demo.record1 /\
  verify_signature "./contract.txt" Scenes.respelled
    = (Returned tampered_verdict, Scenes.respelled) /\
  fst (verify_signature "./contract.txt" Scenes.respelled)
    = fst (verify_signature "./contract.txt"
             (with_signatures Scenes.respelled
                ([] ++ [("SIG-20240307090000", Demo.record1)])%list)).
Proof.
  assert (Hl : signatures Scenes.respelled
    = ([] ++ ("SIG-20240307090000", Demo.record1)
          :: [("SIG-20240307090500", Demo.record2)])%list) by evaluate.
  assert (Hm : matches "./contract.txt" Demo.record1 = true) by evaluate.
  assert (Hf : fs Scenes.respelled !! "./contract.txt" = Some (File Demo.contract_v2))
    by evaluate.
  split; [exact Hl|]. split; [vm_compute; discriminate|].
  split; [exact Hm|]. split; [evaluate|]. split; [exact Hf|]. split; [reflexivity|].
  destruct (proj2 (proj2 (proj2 (proj2 (@verify_selects_first_match Demo.primitives
                                          "./contract.txt" Scenes.respelled))))
              [] "SIG-20240307090000" Demo.record1
              [("SIG-20240307090500", Demo.record2)] Hl)
    as (Hfind & _ & Htampered & _ & Hafter).
  - intros k r Hin. destruct Hin.
  - exact Hm.
  - split; [exact Hfind|]. split; [|exact (Hafter [])].
    apply (Htampered Demo.contract_v2 (sha256 Demo.contract_v1) Hf);
      [evaluate | vm_compute; discriminate].
Defined.

(** C5, as amended.  When no record of the ledger matches [ref], the
    verdict is [{valid: False, error: 'No signature found for this
    document'}]: the failure is reported under the key [error] and the
    verdict has no [integrity] entry. *)
Theorem verify_unsigned_not_found `{Primitives} ref w :
  unsigned (signatures w) ref ->
  verify_signature ref w = (Returned not_found_verdict, w) /\
  not_found_verdict !! "valid" = Some (PyBool false) /\
  not_found_verdict !! "error" = Some (PyStr "No signature found for this document") /\
  not_found_verdict !! "integrity" = None.
Proof.
  intros Hu. split; [apply verify_not_found, unsigned_scan, Hu|].
  split; [apply lookup_insert_eq|]. split; evaluate.
Qed.

Lemma verify_unsigned_not_found_witness :
  unsigned (signatures Demo.booted) "contract.txt" /\
  verify_signature "contract.txt" Demo.booted = (Returned not_found_verdict, Demo.booted) /\
  not_found_verdict !! "valid" = Some (PyBool false) /\
  not_found_verdict !! "error" = Some (PyStr "No signature found for this document") /\
  not_found_verdict !! "integrity" = None.
Proof.
  assert (Hu : unsigned (signatures Demo.booted) "contract.txt")
    by (apply scan_unsigned; evaluate).
  split; [exact Hu|].
  exact (@verify_unsigned_not_found Demo.primitives "contract.txt" Demo.booted Hu).
Defined.

(** C5 as stated fails: before anything is signed the verdict for the
    contract has no [integrity] entry, so the entry is not ["unknown"]. *)
Lemma not_found_verdict_lacks_integrity :
  signatures Demo.booted = [] /\
  verify_signature "contract.txt" Demo.booted = (Returned not_found_verdict, Demo.booted) /\
  not_found_verdict !! "integrity" = None /\
  not_found_verdict !! "integrity" <> Some (PyStr "unknown").
Proof.
  split; [evaluate|]. split; [apply verify_not_found; evaluate|].
  split; [evaluate | vm_compute; discriminate].
Qed.

(** C6, at the failing input.  When a record matches [ref] and the file
    is gone, [verify_signature] does not return a verdict: the
    [FileNotFoundError] of the read leaves the method.  [sign_document]
    tests for the file first and returns its error dictionary. *)
Theorem verify_raises_on_missing_document `{Primitives} ref w r info now1 now2 salt :
  scan_signatures (signatures w) (PosixPath.normpath ref) = Some r ->
  fs w !! ref = None ->
  verify_signature ref w = (Raised (FileNotFoundError ref), w) /\
  sign_document ref info now1 now2 salt w = (Returned document_not_found, w).
Proof.
  intros Hs Hf. split.
  - rewrite (verify_unreadable ref w r Hs), Hf. reflexivity.
  - apply sign_document_missing, Hf.
Qed.

Lemma verify_raises_on_missing_document_witness :
  scan_signatures (signatures Demo.removed) (PosixPath.normpath "contract.txt")
    = Some Demo.record1 /\
  fs Demo.removed !! "contract.txt" = None /\
  verify_signature "contract.txt" Demo.removed
    = (Raised (FileNotFoundError "contract.txt"), Demo.removed) /\
  sign_document "contract.txt" Demo.acme
      (Demo.at_time 9 30 0 0) (Demo.at_time 9 30 0 1) (Demo.text "salt-4") Demo.removed
    = (Returned document_not_found, Demo.removed).
Proof.
  assert (Hs : scan_signatures (signatures Demo.removed) (PosixPath.normpath "contract.txt")
                 = Some Demo.record1) by evaluate.
  assert (Hf : fs Demo.removed !! "contract.txt" = None) by evaluate.
  split; [exact Hs|]. split; [exact Hf|].
  exact (@verify_raises_on_missing_document Demo.primitives "contract.txt" Demo.removed
           Demo.record1 Demo.acme (Demo.at_time 9 30 0 0) (Demo.at_time 9 30 0 1)
           (Demo.text "salt-4") Hs Hf).
Defined.

(** A path that names a directory passes the existence test of
    [sign_document], and the read raises. *)
Lemma sign_document_directory_raises `{Primitives} p info now1 now2 salt w :
  fs w !! p = Some Dir ->
  sign_document p info now1 now2 salt w = (Raised (IsADirectoryError p), w).
Proof. intros Hf. enter_sign Hf. reflexivity. Qed.

(** C7.  [verify_signature] hands back the world it was given, ledger
    and files, whether it returns a verdict or raises; and the record a
    successful [sign_document] stores has status ["valid"]. *)
Theorem verification_is_read_only `{Primitives} :
  (forall p w,
     snd (verify_signature p w) = w /\
     signatures (snd (verify_signature p w)) = signatures w /\
     fs (snd (verify_signature p w)) = fs w) /\
  (forall p info now1 now2 salt w res w1,
     sign_document p info now1 now2 salt w = (Returned res, w1) ->
     succeeded res ->
     exists r,
       PyDict.get (signatures w1) ("SIG-" +:+ strftime_YmdHMS now1) = Some r /\
       status r = "valid").
Proof.
  split.
  - intros p w. rewrite reader_verify_signature. repeat split.
  - intros p info now1 now2 salt w res w1 Hrun Hok.
    destruct (sign_document_stored _ _ _ _ _ _ _ _ Hrun Hok)
      as (D & sk & _ & _ & _ & _ & ->).
    exists (new_record sk D p info now1 now2 salt). split; [|reflexivity].
    apply PyDictFacts.get_set_eq.
Qed.

Lemma verification_is_read_only_witness :
  snd (verify_signature "contract.txt" Demo.edited) = Demo.edited /\
  exists r,
    PyDict.get (signatures Demo.signed_once)
      ("SIG-" +:+ strftime_YmdHMS (Demo.at_time 9 0 0 100)) = Some r /\
    status r = "valid".
Proof.
  split.
  - apply (proj1 (@verification_is_read_only Demo.primitives)).
  - apply (proj2 (@verification_is_read_only Demo.primitives)
             "contract.txt" Demo.acme (Demo.at_time 9 0 0 100) (Demo.at_time 9 0 0 150)
             (Demo.text "salt-1") Demo.booted (success_result Demo.record1));
      [demo_sign Demo.contract_v1 | apply success_result_succeeded].
Defined.

(** C8.  A construction that completes generated and wrote the key pair
    and certificate of a fresh 2048-bit key exactly when no private key
    file existed; otherwise it left the three files as they were.  Any
    later construction then leaves them alone, so the public key bytes on
    disk are those of the first. *)
Theorem identity_generated_once `{Primitives} env w w' :
  __init__ env w = (Returned tt, w') ->
  (fs w !! private_key_path = None ->
   let sk := rsa_generate_private_key 65537 2048 (entropy env) in
   fs w' !! private_key_path = Some (File (private_bytes sk)) /\
   fs w' !! public_key_path = Some (File (public_bytes (public_key_of sk))) /\
   fs w' !! certificate_path =
     Some (File (self_signed_certificate sk (serial_number env) (utcnow1 env) (utcnow2 env)))) /\
  (fs w !! private_key_path <> None ->
   fs w' !! private_key_path = fs w !! private_key_path /\
   fs w' !! public_key_path = fs w !! public_key_path /\
   fs w' !! certificate_path = fs w !! certificate_path) /\
  (forall env2,
     fs (snd (__init__ env2 w')) !! private_key_path = fs w' !! private_key_path /\
     fs (snd (__init__ env2 w')) !! public_key_path = fs w' !! public_key_path /\
     fs (snd (__init__ env2 w')) !! certificate_path = fs w' !! certificate_path /\
     fst (_load_public_key (snd (__init__ env2 w'))) = fst (_load_public_key w')).
Proof.
  intros Hrun. split; [|split].
  - intros Hk. exact (init_generates env w w' Hrun Hk).
  - intros Hk. replace w' with (snd (__init__ env w)) by (rewrite Hrun; reflexivity).
    repeat split; apply init_keeps_existing; (exact Hk || paths_differ).
  - intros env2. pose proof (init_returns_key env w w' Hrun) as Hk.
    assert (Hpub : fs (snd (__init__ env2 w')) !! public_key_path = fs w' !! public_key_path)
      by (apply init_keeps_existing; (exact Hk || paths_differ)).
    repeat split; try (apply init_keeps_existing; (exact Hk || paths_differ)).
    unfold _load_public_key, bind, read_file. rewrite Hpub.
    destruct (fs w' !! public_key_path) as [[|pem]|]; reflexivity.
Qed.

Lemma pair_from_fst {A B} (x : A * B) a : fst x = a -> x = (a, snd x).
Proof. intros <-. destruct x; reflexivity. Qed.

Lemma identity_generated_once_witness :
  __init__ Demo.env0 Demo.disk0 = (Returned tt, Demo.booted) /\
  fs Demo.disk0 !! private_key_path = None /\
  fs Demo.booted !! public_key_path
    = Some (File (public_bytes
                    (public_key_of (rsa_generate_private_key 65537 2048 (Demo.text "seed-0"))))) /\
  fs (snd (__init__ Demo.env1 Demo.booted)) !! public_key_path
    = fs Demo.booted !! public_key_path.
Proof.
  assert (Hrun : __init__ Demo.env0 Demo.disk0 = (Returned tt, Demo.booted))
    by (apply pair_from_fst; evaluate).
  assert (Hk : fs Demo.disk0 !! private_key_path = None) by evaluate.
  destruct (@identity_generated_once Demo.primitives Demo.env0 Demo.disk0 Demo.booted Hrun)
    as (Hgen & _ & Hlater).
  split; [exact Hrun|]. split; [exact Hk|]. split.
  - exact (proj1 (proj2 (Hgen Hk))).
  - exact (proj1 (proj2 (Hlater Demo.env1))).
Defined.

(** C9.  Two runs of [sign_document] on the same world, document and
    identity that differ in the salt drawn return different signature
    strings; each signature passes the RSA-PSS check against the digest of
    the document under the public key, and after either run the document
    verifies as valid (when nothing was on record for [ref] and [ref] is
    not the ledger file). *)
Theorem salted_signatures_differ `{Primitives} `{!PrimitiveLaws}
    ref info now1 now2 salt1 salt2 w res1 w1 res2 w2 D sk :
  identity_persisted (fs w) sk ->
  fs w !! ref = Some (File D) ->
  sign_document ref info now1 now2 salt1 w = (Returned res1, w1) ->
  sign_document ref info now1 now2 salt2 w = (Returned res2, w2) ->
  salt1 <> salt2 ->
  let s1 := pss_sign sk (sha256 D) salt1 in
  let s2 := pss_sign sk (sha256 D) salt2 in
  succeeded res1 /\ succeeded res2 /\
  res1 !! "signature" = Some (PyStr (b64encode s1)) /\
  res2 !! "signature" = Some (PyStr (b64encode s2)) /\
  s1 <> s2 /\
  b64encode s1 <> b64encode s2 /\
  pss_verify (public_key_of sk) s1 (sha256 D) = true /\
  pss_verify (public_key_of sk) s2 (sha256 D) = true /\
  (unsigned (signatures w) ref ->
   ref <> signatures_file ->
   verify_signature ref w1
     = (Returned (valid_verdict (new_record sk D ref info now1 now2 salt1)), w1) /\
   verify_signature ref w2
     = (Returned (valid_verdict (new_record sk D ref info now1 now2 salt2)), w2)).
Proof.
  intros [Hpriv Hpub] Hf Hrun1 Hrun2 Hsalt s1 s2.
  destruct (sign_document_succeeded _ _ _ _ _ _ _ _ _ _ Hpriv Hf Hrun1) as [-> ->].
  destruct (sign_document_succeeded _ _ _ _ _ _ _ _ _ _ Hpriv Hf Hrun2) as [-> ->].
  rewrite !success_result_signature. cbn [signature new_record]. fold s1 s2.
  assert (Hdiff : s1 <> s2).
  { intros E. apply Hsalt. exact (pss_sign_salt_inj _ _ _ _ E). }
  split; [apply success_result_succeeded|]. split; [apply success_result_succeeded|].
  split; [reflexivity|]. split; [reflexivity|]. split; [exact Hdiff|].
  split; [intros E; apply Hdiff, b64encode_inj, E|].
  split; [apply pss_verify_sign|]. split; [apply pss_verify_sign|].
  intros Hu Hne. split.
  - apply verify_stored_valid; [apply scan_stored, Hu | | ];
      rewrite stored_keeps by (assumption || paths_differ); assumption.
  - apply verify_stored_valid; [apply scan_stored, Hu | | ];
      rewrite stored_keeps by (assumption || paths_differ); assumption.
Qed.

Lemma salted_signatures_differ_witness :
  identity_persisted (fs Demo.booted) Demo.key /\
  Demo.text "salt-1" <> Demo.text "salt-9" /\
  success_result Demo.record1 !! "signature" = Some (PyStr (signature Demo.record1)) /\
  success_result Demo.record1' !! "signature" = Some (PyStr (signature Demo.record1')) /\
  signature Demo.record1 <> signature Demo.record1' /\
  verify_signature "contract.txt" (stored Demo.booted Demo.record1)
    = (Returned (valid_verdict Demo.record1), stored Demo.booted Demo.record1) /\
  verify_signature "contract.txt" (stored Demo.booted Demo.record1')
    = (Returned (valid_verdict Demo.record1'), stored Demo.booted Demo.record1').
Proof.
  assert (Hid : identity_persisted (fs Demo.booted) Demo.key) by (split; evaluate).
  assert (Hsalt : Demo.text "salt-1" <> Demo.text "salt-9") by (vm_compute; discriminate).
  destruct (@salted_signatures_differ Demo.primitives demo_laws
              "contract.txt" Demo.acme (Demo.at_time 9 0 0 100) (Demo.at_time 9 0 0 150)
              (Demo.text "salt-1") (Demo.text "salt-9") Demo.booted
              (success_result Demo.record1) (stored Demo.booted Demo.record1)
              (success_result Demo.record1') (stored Demo.booted Demo.record1')
              Demo.contract_v1 Demo.key Hid)
    as (_ & _ & Hs1 & Hs2 & _ & Hdiff & _ & _ & Hverify);
    [evaluate | demo_sign Demo.contract_v1 | demo_sign Demo.contract_v1 | exact Hsalt |].
  split; [exact Hid|]. split; [exact Hsalt|].
  split; [exact Hs1|]. split; [exact Hs2|]. split; [exact Hdiff|].
  apply Hverify; [apply scan_unsigned; evaluate | vm_compute; discriminate].
Defined.

(** C10.  Signer metadata is not validated: a successful call stores the
    three signer fields as [signer_info.get(key, '')] gives them, so a
    missing key is stored (and, for the name, returned) as the empty
    string; and whatever the metadata, the call succeeds when it succeeds
    for one. *)
Theorem missing_signer_fields_default `{Primitives}
    ref info now1 now2 salt w res w1 :
  sign_document ref info now1 now2 salt w = (Returned res, w1) ->
  succeeded res ->
  (exists r,
     PyDict.get (signatures w1) ("SIG-" +:+ strftime_YmdHMS now1) = Some r /\
     signer_name r = default "" (info !! "name") /\
     signer_email r = default "" (info !! "email") /\
     signer_tax_code r = default "" (info !! "tax_code") /\
     res !! "signer" = Some (PyStr (default "" (info !! "name"))) /\
     (info !! "name" = None -> signer_name r = "" /\ res !! "signer" = Some (PyStr "")) /\
     (info !! "email" = None -> signer_email r = "") /\
     (info !! "tax_code" = None -> signer_tax_code r = "")) /\
  (forall info', exists res' w1',
     sign_document ref info' now1 now2 salt w = (Returned res', w1') /\ succeeded res').
Proof.
  intros Hrun Hok.
  destruct (sign_document_stored _ _ _ _ _ _ _ _ Hrun Hok)
    as (D & sk & Hf & (pem & Hpem & Hload) & Hl & -> & ->).
  split.
  - exists (new_record sk D ref info now1 now2 salt).
    rewrite success_result_signer. cbn [signer_name signer_email signer_tax_code new_record].
    split; [apply PyDictFacts.get_set_eq|].
    repeat (split; [reflexivity|]).
    split; [intros ->; split; reflexivity|].
    split; intros ->; reflexivity.
  - intros info'. eexists _, _. split.
    + apply (sign_document_success ref info' now1 now2 salt w D pem sk); assumption.
    + apply success_result_succeeded.
Qed.

Lemma missing_signer_fields_default_witness :
  sign_document "invoice.xml" ∅
      (Demo.at_time 9 0 0 900) (Demo.at_time 9 0 0 950) (Demo.text "salt-3") Demo.signed_once
    = (Returned (success_result Demo.invoice_record), Demo.signed_same_second) /\
  exists r,
    PyDict.get (signatures Demo.signed_same_second)
      ("SIG-" +:+ strftime_YmdHMS (Demo.at_time 9 0 0 900)) = Some r /\
    signer_name r = "" /\ signer_email r = "" /\ signer_tax_code r = "" /\
    success_result Demo.invoice_record !! "signer" = Some (PyStr "").
Proof.
  assert (Hrun : sign_document "invoice.xml" ∅
      (Demo.at_time 9 0 0 900) (Demo.at_time 9 0 0 950) (Demo.text "salt-3") Demo.signed_once
    = (Returned (success_result Demo.invoice_record), Demo.signed_same_second))
    by demo_sign Demo.invoice.
  split; [exact Hrun|].
  destruct (proj1 (@missing_signer_fields_default Demo.primitives
              "invoice.xml" ∅ (Demo.at_time 9 0 0 900) (Demo.at_time 9 0 0 950)
              (Demo.text "salt-3") Demo.signed_once
              (success_result Demo.invoice_record) Demo.signed_same_second
              Hrun (success_result_succeeded _)))
    as (r & Hget & _ & _ & _ & _ & Hname & Hemail & Htax).
  exists r. split; [exact Hget|].
  split; [exact (proj1 (Hname (lookup_empty _)))|].
  split; [exact (Hemail (lookup_empty _))|].
  split; [exact (Htax (lookup_empty _)) | exact (proj2 (Hname (lookup_empty _)))].
Defined.

(** Why C1 asks for a key store that holds one pair: with the public key
    file of another identity the digest agrees and the signature check
    fails. *)
Example foreign_public_key_verifies_invalid :
  fs Demo.rekeyed !! "contract.txt" = Some (File Demo.contract_v1) /\
  signatures Demo.rekeyed = signatures Demo.signed_once /\
  verify_signature "contract.txt" Demo.rekeyed
    = (Returned (invalid_verdict InvalidSignature), Demo.rekeyed) /\
  invalid_verdict InvalidSignature !! "integrity" = Some (PyStr "invalid").
Proof.
  split; [evaluate|]. split; [reflexivity|]. split; [|evaluate].
  eapply (@verify_invalid_signature Demo.primitives _ _ Demo.record1 Demo.contract_v1);
    [evaluate | evaluate | evaluate | evaluate | evaluate | reflexivity | evaluate].
Qed.

(* ===================================================================== *)
(** * The scenario of the specification *)
(* ===================================================================== *)

(** Sign a text document as Acme, verify it, change it and verify again:
    a [SIG-] id and an ISO timestamp, then [valid] with signer and
    [intact], then [compromised]. *)
Example sign_verify_tamper_scenario :
  sign_document "contract.txt" Demo.acme
      (Demo.at_time 9 0 0 100) (Demo.at_time 9 0 0 150) (Demo.text "salt-1") Demo.booted
    = (Returned (success_result Demo.record1), Demo.signed_once) /\
  success_result Demo.record1 !! "signature_id" = Some (PyStr "SIG-20240307090000") /\
  success_result Demo.record1 !! "timestamp" = Some (PyStr "2024-03-07T09:00:00.000150") /\
  verify_signature "contract.txt" Demo.signed_once
    = (Returned (valid_verdict Demo.record1), Demo.signed_once) /\
  valid_verdict Demo.record1 !! "signer" = Some (PyStr "Acme") /\
  valid_verdict Demo.record1 !! "integrity" = Some (PyStr "intact") /\
  verify_signature "contract.txt" Demo.edited = (Returned tampered_verdict, Demo.edited) /\
  tampered_verdict !! "integrity" = Some (PyStr "compromised").
Proof.
  split; [demo_sign Demo.contract_v1|].
  split; [evaluate|]. split; [evaluate|].
  split; [demo_valid Demo.record1 Demo.contract_v1|].
  split; [evaluate|]. split; [evaluate|].
  split; [demo_tampered Demo.record1 Demo.contract_v2 | evaluate].
Qed.

(* ===================================================================== *)
(** * What the verdicts of [verify_signature] guarantee *)
(* ===================================================================== *)

Lemma not_found_verdict_not_valid : not_found_verdict !! "valid" <> Some (PyBool true).
Proof. unfold not_found_verdict. rewrite lookup_insert_eq. discriminate. Qed.

Lemma tampered_verdict_not_valid : tampered_verdict !! "valid" <> Some (PyBool true).
Proof. unfold tampered_verdict. rewrite lookup_insert_eq. discriminate. Qed.

Lemma invalid_verdict_not_valid e : invalid_verdict e !! "valid" <> Some (PyBool true).
Proof. unfold invalid_verdict. rewrite lookup_insert_eq. discriminate. Qed.

(** X1.  [verify_signature] returns [valid: True] only from the record the
    first-match lookup selects, only when the digest of the file as it is
    now equals the digest stored in that record, and only when the stored
    signature passes the RSA-PSS check under the key read from the public
    key file; the verdict then describes that record. *)
Theorem verify_valid_sound `{Primitives} p w v w1 :
  verify_signature p w = (Returned v, w1) ->
  v !! "valid" = Some (PyBool true) ->
  exists r D s pem pk,
    find_by_reference (signatures w) p = Some r /\
    fs w !! p = Some (File D) /\
    b64decode (document_hash r) = Returned (sha256 D) /\
    b64decode (signature r) = Returned s /\
    fs w !! public_key_path = Some (File pem) /\
    load_pem_public_key pem = Returned pk /\
    pss_verify pk s (sha256 D) = true /\
    v = valid_verdict r /\ w1 = w.
Proof.
  intros Hrun Hvalid.
  destruct (scan_signatures (signatures w) (PosixPath.normpath p)) as [r|] eqn:Hs.
  2:{ rewrite verify_not_found in Hrun by exact Hs. injection Hrun as <- <-.
      exfalso. exact (not_found_verdict_not_valid Hvalid). }
  destruct (fs w !! p) as [[|D]|] eqn:Hf;
    try (rewrite (verify_unreadable p w r Hs), Hf in Hrun; discriminate).
  destruct (b64decode (document_hash r)) as [h|e] eqn:Hd.
  2:{ revert Hrun. unfold verify_signature, bind, get_signatures.
      rewrite Hs. unfold read_file. rewrite Hf. unfold lift. rewrite Hd. discriminate. }
  destruct (bytes_eqb (sha256 D) h) eqn:Hh.
  2:{ rewrite (verify_tampered p w r D h Hs Hf Hd) in Hrun.
      - injection Hrun as <- <-. exfalso. exact (tampered_verdict_not_valid Hvalid).
      - intros E. apply bytes_eqb_eq in E. congruence. }
  apply bytes_eqb_eq in Hh. subst h.
  rewrite (verify_guarded_block p w r D Hs Hf Hd) in Hrun. injection Hrun as <- <-.
  destruct (b64decode (signature r)) as [s|e] eqn:Hsig;
    [|exfalso; exact (invalid_verdict_not_valid e Hvalid)].
  unfold _load_public_key, bind, read_file, lift in Hvalid |- *.
  destruct (fs w !! public_key_path) as [[|pem]|] eqn:Hpem; cbn [fst] in Hvalid |- *;
    try (exfalso; exact (invalid_verdict_not_valid _ Hvalid)).
  destruct (load_pem_public_key pem) as [pk|e] eqn:Hpk; cbn [fst] in Hvalid |- *;
    [|exfalso; exact (invalid_verdict_not_valid _ Hvalid)].
  destruct (pss_verify pk s (sha256 D)) eqn:Hv;
    [|exfalso; exact (invalid_verdict_not_valid _ Hvalid)].
  exists r, D, s, pem, pk. rewrite <- scan_signatures_find.
  repeat (split; [first [assumption | reflexivity]|]). reflexivity.
Qed.

Lemma verify_valid_sound_witness :
  verify_signature "contract.txt" Demo.signed_once
    = (Returned (valid_verdict Demo.record1), Demo.signed_once) /\
  exists r D s pem pk,
    find_by_reference (signatures Demo.signed_once) "contract.txt" = Some r /\
    fs Demo.signed_once !! "contract.txt" = Some (File D) /\
    b64decode (document_hash r) = Returned (sha256 D) /\
    b64decode (signature r) = Returned s /\
    fs Demo.signed_once !! public_key_path = Some (File pem) /\
    load_pem_public_key pem = Returned pk /\
    pss_verify pk s (sha256 D) = true /\
    valid_verdict Demo.record1 = valid_verdict r /\ Demo.signed_once = Demo.signed_once.
Proof.
  assert (Hrun : verify_signature "contract.txt" Demo.signed_once
    = (Returned (valid_verdict Demo.record1), Demo.signed_once))
    by demo_valid Demo.record1 Demo.contract_v1.
  split; [exact Hrun|].
  exact (@verify_valid_sound Demo.primitives _ _ _ _ Hrun (lookup_insert_eq _ _ _)).
Defined.

(** X2.  Once a record is selected, the file is read and its digest equals
    the stored one, [verify_signature] does not raise: every failure of the
    guarded block (a stored signature that does not decode, a public key
    file that is missing, a directory or malformed, a signature that does
    not pass) comes back as the verdict with integrity ["invalid"], never as
    valid. *)
Theorem verify_guarded_block_returns `{Primitives} p w r D :
  scan_signatures (signatures w) (PosixPath.normpath p) = Some r ->
  fs w !! p = Some (File D) ->
  b64decode (document_hash r) = Returned (sha256 D) ->
  (verify_signature p w = (Returned (valid_verdict r), w) \/
   exists e,
     verify_signature p w = (Returned (invalid_verdict e), w) /\
     invalid_verdict e !! "valid" = Some (PyBool false) /\
     invalid_verdict e !! "integrity" = Some (PyStr "invalid")) /\
  (fs w !! public_key_path = None ->
   forall s, b64decode (signature r) = Returned s ->
   verify_signature p w = (Returned (invalid_verdict (FileNotFoundError public_key_path)), w)) /\
  (forall s pem pk,
     b64decode (signature r) = Returned s ->
     fs w !! public_key_path = Some (File pem) ->
     load_pem_public_key pem = Returned pk ->
     pss_verify pk s (sha256 D) = false ->
     verify_signature p w = (Returned (invalid_verdict InvalidSignature), w)).
Proof.
  intros Hs Hf Hd.
  assert (Hinv : forall e,
    invalid_verdict e !! "valid" = Some (PyBool false) /\
    invalid_verdict e !! "integrity" = Some (PyStr "invalid")).
  { intros e. unfold invalid_verdict. split; [apply lookup_insert_eq|].
    rewrite !lookup_insert_ne by discriminate. apply lookup_singleton_eq. }
  split; [|split].
  - rewrite (verify_guarded_block p w r D Hs Hf Hd).
    destruct (b64decode (signature r)) as [s|e]; [|right; eauto].
    destruct (fst (_load_public_key w)) as [pk|e]; [|right; eauto].
    destruct (pss_verify pk s (sha256 D)); [left; reflexivity | right; eauto].
  - intros Hpem s Hsig. exact (verify_missing_public_key p w r D s Hs Hf Hd Hsig Hpem).
  - intros s pem pk Hsig Hpem Hpk Hv.
    exact (verify_invalid_signature p w r D s pem pk Hs Hf Hd Hsig Hpem Hpk Hv).
Qed.

Lemma verify_guarded_block_returns_witness :
  scan_signatures (signatures Demo.rekeyed) (PosixPath.normpath "contract.txt")
    = Some Demo.record1 /\
  fs Demo.rekeyed !! "contract.txt" = Some (File Demo.contract_v1) /\
  b64decode (document_hash Demo.record1) = Returned (sha256 Demo.contract_v1) /\
  verify_signature "contract.txt" Demo.rekeyed
    = (Returned (invalid_verdict InvalidSignature), Demo.rekeyed).
Proof.
  assert (Hs : scan_signatures (signatures Demo.rekeyed) (PosixPath.normpath "contract.txt")
               = Some Demo.record1) by evaluate.
  assert (Hf : fs Demo.rekeyed !! "contract.txt" = Some (File Demo.contract_v1)) by evaluate.
  assert (Hd : b64decode (document_hash Demo.record1) = Returned (sha256 Demo.contract_v1))
    by evaluate.
  split; [exact Hs|]. split; [exact Hf|]. split; [exact Hd|].
  destruct (@verify_guarded_block_returns Demo.primitives _ _ _ _ Hs Hf Hd)
    as (_ & _ & Hbad).
  eapply Hbad; [evaluate | evaluate | reflexivity | evaluate].
Defined.

(* ===================================================================== *)
(** * Every way [sign_document] can end *)
(* ===================================================================== *)

(** The five places where [sign_document] can stop, with the world each
    leaves: the early return, the three reads that may raise, the save
    that may raise after the record is in memory, and the success. *)
Lemma sign_document_cases `{Primitives} p info now1 now2 salt w :
  (fs w !! p = None /\
   sign_document p info now1 now2 salt w = (Returned document_not_found, w)) \/
  (fs w !! p = Some Dir /\
   sign_document p info now1 now2 salt w = (Raised (IsADirectoryError p), w)) \/
  (exists D e,
     fs w !! p = Some (File D) /\ _load_private_key w = (Raised e, w) /\
     sign_document p info now1 now2 salt w = (Raised e, w)) \/
  (exists D sk,
     fs w !! p = Some (File D) /\ _load_private_key w = (Returned sk, w) /\
     fs w !! signatures_file = Some Dir /\
     let r := new_record sk D p info now1 now2 salt in
     sign_document p info now1 now2 salt w
     = (Raised (IsADirectoryError signatures_file),
        with_signatures w (PyDict.set (signatures w) (signature_id r) r))) \/
  (exists D sk,
     fs w !! p = Some (File D) /\ _load_private_key w = (Returned sk, w) /\
     fs w !! signatures_file <> Some Dir /\
     let r := new_record sk D p info now1 now2 salt in
     sign_document p info now1 now2 salt w = (Returned (success_result r), stored w r)).
Proof.
  destruct (fs w !! p) as [[|D]|] eqn:Hf.
  - right; left. split; [reflexivity|]. enter_sign Hf. reflexivity.
  - right; right.
    assert (Hkw : snd (_load_private_key w) = w).
    { unfold _load_private_key, bind, read_file, lift.
      destruct (fs w !! private_key_path) as [[|pem]|]; reflexivity. }
    destruct (_load_private_key w) as [[sk|e] wk] eqn:Hk; simpl in Hkw; subst wk.
    + right.
      assert (Hrun : forall o w',
        (let r := new_record sk D p info now1 now2 salt in
         _save_signatures (with_signatures w (PyDict.set (signatures w) (signature_id r) r))
         = (o, w')) ->
        sign_document p info now1 now2 salt w
        = (match o with
           | Returned _ => Returned (success_result (new_record sk D p info now1 now2 salt))
           | Raised e => Raised e
           end, w')).
      { intros o w' Hsave. cbv zeta in Hsave.
        unfold sign_document, bind at 1, os_path_exists. rewrite Hf. cbn [negb].
        unfold bind at 1, read_file. rewrite Hf.
        unfold bind at 1. rewrite Hk.
        unfold bind at 1, get_signatures.
        unfold bind at 1, set_signatures.
        unfold bind at 1.
        unfold new_record in Hsave. cbn [signature_id] in Hsave. rewrite Hsave.
        destruct o as [[]|e]; reflexivity. }
      destruct (fs w !! signatures_file) as [[|old]|] eqn:Hl.
      * left. exists D, sk. split; [reflexivity|]. split; [reflexivity|].
        split; [reflexivity|]. cbv zeta.
        apply (Hrun (Raised (IsADirectoryError signatures_file))).
        cbv zeta. unfold _save_signatures, bind, get_signatures, write_file.
        cbn [fs with_signatures]. rewrite Hl. reflexivity.
      * right. exists D, sk. split; [reflexivity|]. split; [reflexivity|].
        split; [discriminate|]. cbv zeta.
        apply (Hrun (Returned tt)).
        cbv zeta. unfold _save_signatures, bind, get_signatures, write_file.
        cbn [fs with_signatures]. rewrite Hl. reflexivity.
      * right. exists D, sk. split; [reflexivity|]. split; [reflexivity|].
        split; [discriminate|]. cbv zeta.
        apply (Hrun (Returned tt)).
        cbv zeta. unfold _save_signatures, bind, get_signatures, write_file.
        cbn [fs with_signatures]. rewrite Hl. reflexivity.
    + left. exists D, e. split; [reflexivity|]. split; [reflexivity|].
      unfold sign_document, bind at 1, os_path_exists. rewrite Hf. cbn [negb].
      unfold bind at 1, read_file. rewrite Hf.
      unfold bind at 1. rewrite Hk. reflexivity.
  - left. split; [reflexivity|]. apply sign_document_missing, Hf.
Qed.

Lemma keys_set {V} (d : PyDict.t V) k v :
  PyDict.keys (PyDict.set d k v) = PyDict.keys d \/
  PyDict.keys (PyDict.set d k v) = (PyDict.keys d ++ [k])%list.
Proof.
  unfold PyDict.keys. induction d as [|[k' v'] d IH]; simpl; [right; reflexivity|].
  destruct (String.eqb k' k); simpl; [left; reflexivity|].
  destruct IH as [-> | ->]; [left | right]; reflexivity.
Qed.

(** X3.  Whatever its outcome, [sign_document] writes no file but the
    ledger file, so the signed document and the key files are as before;
    in memory it leaves every record stored under another id as it was,
    and the ids keep their order, the new one going last when it is new. *)
Theorem sign_document_touches_ledger_only `{Primitives} p info now1 now2 salt w :
  let w1 := snd (sign_document p info now1 now2 salt w) in
  let id := "SIG-" +:+ strftime_YmdHMS now1 in
  (forall q, q <> signatures_file -> fs w1 !! q = fs w !! q) /\
  (forall k, k <> id -> PyDict.get (signatures w1) k = PyDict.get (signatures w) k) /\
  (PyDict.keys (signatures w1) = PyDict.keys (signatures w) \/
   PyDict.keys (signatures w1) = (PyDict.keys (signatures w) ++ [id])%list).
Proof.
  cbv zeta.
  destruct (sign_document_cases p info now1 now2 salt w)
    as [(_ & ->)|[(_ & ->)|[(D & e & _ & _ & ->)|[(D & sk & _ & _ & _ & Hrun)
       |(D & sk & _ & _ & _ & Hrun)]]]];
    cbv zeta in *; try rewrite Hrun; cbn [snd];
    try (split; [reflexivity | split; [reflexivity | left; reflexivity]]).
  - cbn [fs signatures with_signatures signature_id new_record].
    split; [reflexivity|]. split; [|apply keys_set].
    intros k Hk. apply PyDictFacts.get_set_ne. congruence.
  - unfold stored. cbn [fs signatures signature_id new_record].
    split; [intros q Hq; apply lookup_insert_ne; congruence|].
    split; [|apply keys_set].
    intros k Hk. apply PyDictFacts.get_set_ne. congruence.
Qed.




(* ===================================================================== *)
(** * Ids across calls, and paths across spellings *)
(* ===================================================================== *)

(** X5.  Two successful calls whose first clock readings lie in different
    seconds are given different ids, and after the second call the ledger
    holds both records; when the second id is new to the ledger, its
    record is appended and nothing else changes. *)
Theorem signs_in_distinct_seconds_keep_both `{Primitives}
    p1 p2 info1 info2 a1 a2 b1 b2 salt1 salt2 w res1 w1 res2 w2 :
  sign_document p1 info1 a1 a2 salt1 w = (Returned res1, w1) ->
  succeeded res1 ->
  sign_document p2 info2 b1 b2 salt2 w1 = (Returned res2, w2) ->
  succeeded res2 ->
  well_formed a1 -> well_formed b1 -> ~ same_second a1 b1 ->
  exists id1 id2 r1 r2,
    id1 <> id2 /\
    res1 !! "signature_id" = Some (PyStr id1) /\
    res2 !! "signature_id" = Some (PyStr id2) /\
    PyDict.get (signatures w2) id1 = Some r1 /\
    document_path r1 = PosixPath.normpath p1 /\
    PyDict.get (signatures w2) id2 = Some r2 /\
    document_path r2 = PosixPath.normpath p2 /\
    (PyDict.get (signatures w1) id2 = None ->
     signatures w2 = (signatures w1 ++ [(id2, r2)])%list).
Proof.
  intros Hrun1 Hok1 Hrun2 Hok2 Ha Hb Hdiff.
  destruct (sign_document_distinct_seconds _ _ _ _ _ _ _ _ _ _ _ _ _ _ _
              Hrun1 Hok1 Hrun2 Hok2 Ha Hb Hdiff) as [Hids Hkept].
  destruct (sign_document_stored _ _ _ _ _ _ _ _ Hrun1 Hok1)
    as (D1 & sk1 & _ & _ & _ & -> & ->).
  destruct (sign_document_stored _ _ _ _ _ _ _ _ Hrun2 Hok2)
    as (D2 & sk2 & _ & _ & _ & -> & ->).
  rewrite !success_result_signature_id in Hids.
  cbn [signature_id new_record] in Hids.
  exists ("SIG-" +:+ strftime_YmdHMS a1), ("SIG-" +:+ strftime_YmdHMS b1),
    (new_record sk1 D1 p1 info1 a1 a2 salt1), (new_record sk2 D2 p2 info2 b1 b2 salt2).
  rewrite !success_result_signature_id.
  split; [congruence|]. split; [reflexivity|]. split; [reflexivity|].
  split; [rewrite Hkept; unfold stored; cbn [signatures signature_id new_record];
          apply PyDictFacts.get_set_eq|].
  split; [reflexivity|].
  split; [unfold stored at 1; cbn [signatures signature_id new_record];
          apply PyDictFacts.get_set_eq|].
  split; [reflexivity|].
  intros Hfresh. unfold stored at 1. cbn [signatures signature_id new_record].
  apply PyDictFacts.set_fresh. exact Hfresh.
Qed.

Lemma well_formed_at_time h m s us :
  h < 24 -> m < 60 -> s < 60 -> Nat.ltb us (10 ^ 6) = true ->
  well_formed (Demo.at_time h m s us).
Proof.
  intros Hh Hm Hs Hus. unfold well_formed, Demo.at_time.
  cbn [year month day hour minute second microsecond].
  split; [split; [lia | apply Nat.ltb_lt; vm_compute; reflexivity]|].
  split; [lia|]. split; [lia|]. split; [exact Hh|]. split; [exact Hm|].
  split; [exact Hs | apply Nat.ltb_lt; exact Hus].
Qed.

Lemma signs_in_distinct_seconds_keep_both_witness :
  ~ same_second (Demo.at_time 9 0 0 100) (Demo.at_time 9 5 0 0) /\
  exists id1 id2 r1 r2,
    id1 <> id2 /\
    success_result Demo.record1 !! "signature_id" = Some (PyStr id1) /\
    success_result Scenes.late_invoice_record !! "signature_id" = Some (PyStr id2) /\
    PyDict.get (signatures Scenes.both_signed) id1 = Some r1 /\
    document_path r1 = PosixPath.normpath "contract.txt" /\
    PyDict.get (signatures Scenes.both_signed) id2 = Some r2 /\
    document_path r2 = PosixPath.normpath "invoice.xml" /\
    (PyDict.get (signatures Demo.signed_once) id2 = None ->
     signatures Scenes.both_signed = (signatures Demo.signed_once ++ [(id2, r2)])%list).
Proof.
  assert (Hdiff : ~ same_second (Demo.at_time 9 0 0 100) (Demo.at_time 9 5 0 0)).
  { intros (_ & _ & _ & _ & Hmin & _). discriminate Hmin. }
  split; [exact Hdiff|].
  apply (@signs_in_distinct_seconds_keep_both Demo.primitives
           "contract.txt" "invoice.xml" Demo.acme Demo.acme
           (Demo.at_time 9 0 0 100) (Demo.at_time 9 0 0 150)
           (Demo.at_time 9 5 0 0) (Demo.at_time 9 5 0 9)
           (Demo.text "salt-1") (Demo.text "salt-2")
           Demo.booted (success_result Demo.record1) Demo.signed_once
           (success_result Scenes.late_invoice_record) Scenes.both_signed);
    [demo_sign Demo.contract_v1 | apply success_result_succeeded
    | demo_sign Demo.invoice | apply success_result_succeeded
    | apply well_formed_at_time; (lia || reflexivity)
    | apply well_formed_at_time; (lia || reflexivity) | exact Hdiff].
Defined.

Lemma unsigned_same_normal_form ledger p q :
  PosixPath.normpath q = PosixPath.normpath p -> unsigned ledger p -> unsigned ledger q.
Proof.
  intros E Hu k r Hin. specialize (Hu k r Hin). unfold matches in *. rewrite E. exact Hu.
Qed.

(** X6.  The lookup compares normal forms, on both sides: after [p] is
    signed, verifying any spelling [q] with the normal form of [p] selects
    the new record (and is valid when the file read through [q] has the
    signed bytes), while a [q] with another normal form, for which nothing
    was on record, is answered not found. *)
Theorem verify_finds_any_spelling `{Primitives} `{!PrimitiveLaws}
    p q info now1 now2 salt w res w1 D sk :
  identity_persisted (fs w) sk ->
  unsigned (signatures w) p ->
  fs w !! p = Some (File D) ->
  sign_document p info now1 now2 salt w = (Returned res, w1) ->
  (PosixPath.normpath q = PosixPath.normpath p ->
   fs w1 !! q = Some (File D) ->
   verify_signature q w1
     = (Returned (valid_verdict (new_record sk D p info now1 now2 salt)), w1)) /\
  (PosixPath.normpath q <> PosixPath.normpath p ->
   unsigned (signatures w) q ->
   verify_signature q w1 = (Returned not_found_verdict, w1)).
Proof.
  intros [Hpriv Hpub] Hu Hf Hrun.
  destruct (sign_document_succeeded _ _ _ _ _ _ _ _ _ _ Hpriv Hf Hrun) as [_ ->].
  split.
  - intros E Hfq.
    apply (verify_valid q _ (new_record sk D p info now1 now2 salt) D
             (pss_sign sk (sha256 D) salt)
             (public_bytes (public_key_of sk)) (public_key_of sk)).
    + rewrite E. apply scan_stored, Hu.
    + exact Hfq.
    + apply b64decode_b64encode.
    + apply b64decode_b64encode.
    + rewrite stored_keeps by paths_differ. exact Hpub.
    + apply load_public_bytes.
    + apply pss_verify_sign.
  - intros Hne Huq. apply verify_not_found.
    unfold stored; cbn [signatures].
    rewrite scan_signatures_set by (apply unsigned_scan, Huq).
    cbn [document_path new_record]. rewrite PosixPathFacts.normpath_idempotent.
    destruct (String.eqb (PosixPath.normpath p) (PosixPath.normpath q)) eqn:E;
      [|reflexivity].
    apply String.eqb_eq in E. congruence.
Qed.

Lemma verify_finds_any_spelling_witness :
  PosixPath.normpath "./docs/../contract.txt" = PosixPath.normpath "contract.txt" /\
  verify_signature "./docs/../contract.txt" Scenes.aliased_signed
    = (Returned (valid_verdict Demo.record1), Scenes.aliased_signed) /\
  PosixPath.normpath "docs/contract.txt" <> PosixPath.normpath "contract.txt" /\
  verify_signature "docs/contract.txt" Demo.signed_once
    = (Returned not_found_verdict, Demo.signed_once).
Proof.
  assert (Hid : forall w, fs w !! private_key_path = fs Demo.booted !! private_key_path ->
                          fs w !! public_key_path = fs Demo.booted !! public_key_path ->
                          identity_persisted (fs w) Demo.key).
  { intros w E1 E2. split; [rewrite E1 | rewrite E2]; evaluate. }
  assert (Hsame : PosixPath.normpath "./docs/../contract.txt"
                  = PosixPath.normpath "contract.txt") by evaluate.
  assert (Hother : PosixPath.normpath "docs/contract.txt"
                   <> PosixPath.normpath "contract.txt") by (vm_compute; discriminate).
  split; [exact Hsame|]. split; [|split; [exact Hother|]].
  - apply (proj1 (@verify_finds_any_spelling Demo.primitives demo_laws
             "contract.txt" "./docs/../contract.txt" Demo.acme
             (Demo.at_time 9 0 0 100) (Demo.at_time 9 0 0 150) (Demo.text "salt-1")
             Scenes.aliased (success_result Demo.record1) Scenes.aliased_signed
             Demo.contract_v1 Demo.key
             (Hid Scenes.aliased ltac:(evaluate) ltac:(evaluate))
             ltac:(apply scan_unsigned; evaluate) ltac:(evaluate)
             ltac:(demo_sign Demo.contract_v1)));
      [exact Hsame | evaluate].
  - apply (proj2 (@verify_finds_any_spelling Demo.primitives demo_laws
             "contract.txt" "docs/contract.txt" Demo.acme
             (Demo.at_time 9 0 0 100) (Demo.at_time 9 0 0 150) (Demo.text "salt-1")
             Demo.booted (success_result Demo.record1) Demo.signed_once
             Demo.contract_v1 Demo.key
             (Hid Demo.booted eq_refl eq_refl)
             ltac:(apply scan_unsigned; evaluate) ltac:(evaluate)
             ltac:(demo_sign Demo.contract_v1)));
      [exact Hother | apply scan_unsigned; evaluate].
Defined.

(* ===================================================================== *)
(** * Construction, persistence and restart *)
(* ===================================================================== *)

Section Persistence.
Context `{Primitives}.

Lemma with_signatures_same (w : world) : with_signatures w (signatures w) = w.
Proof. destruct w; reflexivity. Qed.

(** A first construction on a fresh disk completes. *)
Lemma init_fresh env w :
  fresh_install (fs w) -> __init__ env w = (Returned tt, installed env w).
Proof.
  intros (Hfolder & Hledger & Hpriv & Hpub & Hcert).
  set (f1 := <[ keys_folder := Dir ]> (fs w)).
  set (f2 := <[ signatures_file := File (json_dump []) ]> f1).
  set (sk := rsa_generate_private_key 65537 2048 (entropy env)).
  set (f3 := <[ private_key_path := File (private_bytes sk) ]> f2).
  set (f4 := <[ public_key_path := File (public_bytes (public_key_of sk)) ]> f3).
  assert (H1 : os_makedirs keys_folder w = (Returned tt, with_fs w f1)).
  { unfold os_makedirs. rewrite Hfolder. reflexivity. }
  assert (H2 : _load_signatures (with_fs w f1)
               = (Returned tt, {| fs := f2; signatures := [] |})).
  { unfold _load_signatures, bind at 1, os_path_exists. cbn [fs with_fs].
    unfold f1 at 1. rewrite lookup_insert_ne by paths_differ. rewrite Hledger.
    unfold bind, set_signatures, _save_signatures, bind, get_signatures, write_file.
    cbn [fs with_fs with_signatures signatures].
    unfold f1 at 1. rewrite lookup_insert_ne by paths_differ. rewrite Hledger.
    reflexivity. }
  assert (H3 : _generate_keys env {| fs := f2; signatures := [] |}
               = (Returned tt, installed env w)).
  { unfold _generate_keys. fold sk.
    assert (W1 : write_file private_key_path (private_bytes sk)
                   {| fs := f2; signatures := [] |}
                 = (Returned tt, {| fs := f3; signatures := [] |})).
    { unfold write_file. cbn [fs]. unfold f2, f1.
      rewrite !lookup_insert_ne by paths_differ. rewrite Hpriv. reflexivity. }
    assert (W2 : write_file public_key_path (public_bytes (public_key_of sk))
                   {| fs := f3; signatures := [] |}
                 = (Returned tt, {| fs := f4; signatures := [] |})).
    { unfold write_file. cbn [fs]. unfold f3, f2, f1.
      rewrite !lookup_insert_ne by paths_differ. rewrite Hpub. reflexivity. }
    rewrite (bind_returned _ _ _ _ _ W1), (bind_returned _ _ _ _ _ W2).
    unfold write_file. cbn [fs]. unfold f4, f3, f2, f1.
    rewrite !lookup_insert_ne by paths_differ. rewrite Hcert. reflexivity. }
  unfold __init__.
  rewrite (bind_returned _ _ _ _ _ H1), (bind_returned _ _ _ _ _ H2).
  unfold bind at 1, os_path_exists. cbn [fs]. unfold f2, f1.
  rewrite !lookup_insert_ne by paths_differ. rewrite Hpriv. cbn [negb].
  exact H3.
Qed.

Lemma generate_keys_signatures env w :
  signatures (snd (_generate_keys env w)) = signatures w.
Proof.
  unfold _generate_keys, bind, write_file.
  destruct (fs w !! private_key_path) as [[|a]|]; cbn [fs with_fs signatures snd];
    try reflexivity;
    (destruct (_ !! public_key_path) as [[|b]|]; cbn [fs with_fs signatures snd];
      try reflexivity;
      (destruct (_ !! certificate_path) as [[|c]|]; reflexivity)).
Qed.

Lemma keeps_generate_keys env p :
  p <> private_key_path -> p <> public_key_path -> p <> certificate_path ->
  keeps p (_generate_keys env).
Proof.
  intros H1 H2 H3. unfold _generate_keys.
  apply keeps_bind; [apply keeps_write_file, H1|]. intros _.
  apply keeps_bind; [apply keeps_write_file, H2|]. intros _.
  apply keeps_write_file, H3.
Qed.

Lemma load_signatures_in_sync `{!JsonLaws} w w' :
  _load_signatures w = (Returned tt, w') -> ledger_in_sync w'.
Proof.
  unfold _load_signatures, bind at 1, os_path_exists.
  destruct (fs w !! signatures_file) as [[|data]|] eqn:Hl.
  - unfold bind, read_file. rewrite Hl. discriminate.
  - unfold bind, read_file, lift, set_signatures. rewrite Hl.
    destruct (json_load data) as [d|e] eqn:Hd; [|discriminate].
    intros [= <-]. exists data. cbn [fs with_signatures signatures]. auto.
  - unfold bind, set_signatures, _save_signatures, bind, get_signatures, write_file.
    cbn [fs with_signatures signatures]. rewrite Hl. intros [= <-].
    exists (json_dump []). cbn [fs with_fs with_signatures signatures].
    split; [apply lookup_insert_eq | apply json_load_dump].
Qed.

Lemma init_in_sync `{!JsonLaws} env w w' :
  __init__ env w = (Returned tt, w') -> ledger_in_sync w'.
Proof.
  unfold __init__, bind at 1.
  destruct (os_makedirs keys_folder w) as [[[]|e] w1]; [|discriminate].
  unfold bind at 1.
  destruct (_load_signatures w1) as [[[]|e] w2] eqn:Hload; [|discriminate].
  apply load_signatures_in_sync in Hload. destruct Hload as (data & Hfile & Hdata).
  unfold bind, os_path_exists.
  destruct (fs w2 !! private_key_path); cbn [negb].
  - intros [= <-]. exists data. auto.
  - intros Hgen. exists data.
    pose proof (keeps_generate_keys env signatures_file
                  ltac:(paths_differ) ltac:(paths_differ) ltac:(paths_differ) w2) as Hk.
    pose proof (generate_keys_signatures env w2) as Hs.
    rewrite Hgen in Hk, Hs. cbn [snd] in Hk, Hs. rewrite Hk, Hs. auto.
Qed.

(** A call of [sign_document] that returns: after a success the ledger
    file holds the ledger just saved, whatever it held before; the error
    result changes nothing. *)
Lemma sign_document_returned_in_sync `{!JsonLaws} p info now1 now2 salt w res w1 :
  sign_document p info now1 now2 salt w = (Returned res, w1) ->
  (succeeded res -> ledger_in_sync w1) /\
  (ledger_in_sync w -> ledger_in_sync w1).
Proof.
  intros Hrun.
  destruct (sign_document_returns _ _ _ _ _ _ _ _ Hrun)
    as [(_ & -> & ->)|(D & sk & _ & _ & _ & -> & ->)].
  - split; [intros Hok; exfalso; exact (document_not_found_not_success Hok) | auto].
  - assert (Hs : ledger_in_sync (stored w (new_record sk D p info now1 now2 salt))).
    { unfold stored. eexists. cbn [fs signatures].
      split; [apply lookup_insert_eq | apply json_load_dump]. }
    split; intros _; exact Hs.
Qed.

Lemma verify_signature_in_sync p w :
  ledger_in_sync w -> ledger_in_sync (snd (verify_signature p w)).
Proof. rewrite reader_verify_signature. auto. Qed.

(** Construction over the files of a world whose ledger file agrees with
    its memory, by an object that starts with any ledger [stale]: nothing
    is written and the ledger of the file is loaded. *)
Lemma init_after_restart env w stale :
  ledger_in_sync w ->
  fs w !! keys_folder = Some Dir ->
  fs w !! private_key_path <> None ->
  __init__ env (with_signatures w stale) = (Returned tt, w).
Proof.
  intros (data & Hfile & Hdata) Hfolder Hkey.
  unfold __init__, bind at 1, os_makedirs. cbn [fs with_signatures]. rewrite Hfolder.
  unfold bind at 1, _load_signatures, bind at 1, os_path_exists.
  cbn [fs with_signatures]. rewrite Hfile.
  unfold bind at 1, read_file. cbn [fs with_signatures]. rewrite Hfile.
  unfold bind at 1, lift. rewrite Hdata.
  unfold set_signatures, with_signatures at 1. cbn [fs with_signatures].
  change {| fs := fs w; signatures := signatures w |} with (with_signatures w (signatures w)).
  rewrite with_signatures_same.
  unfold bind, os_path_exists.
  destruct (fs w !! private_key_path); [reflexivity | congruence].
Qed.

Lemma init_over_synced env w :
  ledger_in_sync w ->
  fs w !! keys_folder = Some Dir ->
  fs w !! private_key_path <> None ->
  __init__ env w = (Returned tt, w).
Proof.
  intros Hsync Hfolder Hkey.
  rewrite <- (with_signatures_same w) at 1.
  apply init_after_restart; assumption.
Qed.

End Persistence.

Lemma lossless_unbits_bits n : Lossless.unbits (Lossless.bits n) = n.
Proof. induction n as [n IH|n IH|]; simpl; congruence. Qed.

Lemma lossless_json_laws : @JsonLaws Lossless.primitives.
Proof.
  split. intros d.
  change (Lossless.load (Lossless.dump d) = Returned d).
  unfold Lossless.load, Lossless.dump.
  rewrite lossless_unbits_bits, decode_encode. reflexivity.
Qed.

Lemma lossless_booted :
  @__init__ Lossless.primitives Demo.env0 Demo.disk0 = (Returned tt, Lossless.booted).
Proof. apply (@init_fresh Lossless.primitives). repeat split; evaluate. Qed.

Lemma lossless_signed_once :
  @sign_document Lossless.primitives "contract.txt" Demo.acme
    (Demo.at_time 9 0 0 100) (Demo.at_time 9 0 0 150) (Demo.text "salt-1") Lossless.booted
  = (Returned (success_result Lossless.record1), Lossless.signed_once).
Proof.
  apply (@sign_document_success Lossless.primitives _ _ _ _ _ _
           Demo.contract_v1 Demo.key Demo.key);
    [evaluate | evaluate | reflexivity | vm_compute; discriminate].
Qed.

(** X7.  The ledger file follows the ledger in memory on the runs that
    complete.  A construction that completes leaves a file that reads
    back as [self.signatures]; so does every call of [sign_document] that
    returns success, whatever the file held before; a call that returns
    the error result keeps a file that agreed, and so does every call of
    [verify_signature].  A call of [sign_document] that raises is not
    covered: a save that fails leaves the memory ahead of the file. *)
Theorem ledger_file_tracks_memory `{Primitives} `{!JsonLaws} :
  (forall env w w', __init__ env w = (Returned tt, w') -> ledger_in_sync w') /\
  (forall p info now1 now2 salt w res w1,
     sign_document p info now1 now2 salt w = (Returned res, w1) ->
     (succeeded res -> ledger_in_sync w1) /\
     (ledger_in_sync w -> ledger_in_sync w1)) /\
  (forall p w, ledger_in_sync w -> ledger_in_sync (snd (verify_signature p w))).
Proof.
  split; [exact init_in_sync|].
  split; [intros p info now1 now2 salt w res w1 Hrun;
          exact (sign_document_returned_in_sync p info now1 now2 salt w res w1 Hrun)|].
  intros; apply verify_signature_in_sync; assumption.
Qed.

Lemma ledger_file_tracks_memory_witness :
  @ledger_in_sync Lossless.primitives Lossless.booted /\
  @ledger_in_sync Lossless.primitives Lossless.signed_once /\
  signatures Lossless.signed_once = [("SIG-20240307090000", Lossless.record1)].
Proof.
  destruct (@ledger_file_tracks_memory Lossless.primitives lossless_json_laws)
    as (Hinit & Hsign & _).
  split; [exact (Hinit _ _ _ lossless_booted)|]. split; [|evaluate].
  exact (proj1 (Hsign _ _ _ _ _ _ _ _ lossless_signed_once)
           (@success_result_succeeded Lossless.record1)).
Defined.

(** X8.  A restart loses nothing.  Let the ledger file of a world agree
    with its ledger in memory, the key folder and the private key being in
    place.  An object constructed over the same files, whatever it held in
    memory before, writes nothing and ends with the ledger the old object
    held, so every verification answers as before. *)
Theorem restart_loads_same_ledger `{Primitives} env w stale :
  ledger_in_sync w ->
  fs w !! keys_folder = Some Dir ->
  fs w !! private_key_path <> None ->
  __init__ env (with_signatures w stale) = (Returned tt, w) /\
  forall p,
    verify_signature p (snd (__init__ env (with_signatures w stale))) = verify_signature p w.
Proof.
  intros Hsync Hfolder Hkey.
  pose proof (init_after_restart env w stale Hsync Hfolder Hkey) as Hrun.
  split; [exact Hrun|]. intros p. rewrite Hrun. reflexivity.
Qed.

Lemma restart_loads_same_ledger_witness :
  @ledger_in_sync Lossless.primitives Lossless.signed_once /\
  @__init__ Lossless.primitives Demo.env1 (with_signatures Lossless.signed_once [])
    = (Returned tt, Lossless.signed_once) /\
  signatures Lossless.signed_once = [("SIG-20240307090000", Lossless.record1)].
Proof.
  assert (Hs : @ledger_in_sync Lossless.primitives Lossless.signed_once).
  { exact (proj1 (@sign_document_returned_in_sync Lossless.primitives lossless_json_laws
                     _ _ _ _ _ _ _ _ lossless_signed_once)
             (@success_result_succeeded Lossless.record1)). }
  split; [exact Hs|]. split; [|evaluate].
  apply (@restart_loads_same_ledger Lossless.primitives Demo.env1 Lossless.signed_once [] Hs).
  - unfold Lossless.signed_once. rewrite (@stored_keeps Lossless.primitives) by paths_differ.
    evaluate.
  - unfold Lossless.signed_once. rewrite (@stored_keeps Lossless.primitives) by paths_differ.
    vm_compute. discriminate.
Defined.

(** X9.  First use, end to end: on a disk where the engine never ran,
    construction completes with an empty ledger and a fresh key pair; any
    regular file can then be signed, and the verification that follows
    returns the valid verdict for the new record. *)
Theorem first_use_sign_verify `{Primitives} `{!PrimitiveLaws}
    env w ref D info now1 now2 salt :
  fresh_install (fs w) ->
  fs w !! ref = Some (File D) ->
  let w1 := installed env w in
  let r := new_record (rsa_generate_private_key 65537 2048 (entropy env))
             D ref info now1 now2 salt in
  __init__ env w = (Returned tt, w1) /\
  signatures w1 = [] /\
  sign_document ref info now1 now2 salt w1 = (Returned (success_result r), stored w1 r) /\
  verify_signature ref (stored w1 r) = (Returned (valid_verdict r), stored w1 r).
Proof.
  intros Hfresh Hf w1 r.
  pose proof Hfresh as (Hfolder & Hledger & Hpriv & Hpub & Hcert).
  assert (Hne : forall q, fs w !! q = None -> ref <> q) by (intros q Hq E; congruence).
  assert (Hf1 : fs w1 !! ref = Some (File D)).
  { unfold w1, installed; cbn [fs]. rewrite !lookup_insert_ne by (apply not_eq_sym; auto).
    exact Hf. }
  assert (Hk1 : fs w1 !! private_key_path
                = Some (File (private_bytes (rsa_generate_private_key 65537 2048 (entropy env))))).
  { unfold w1, installed; cbn [fs]. rewrite !lookup_insert_ne by paths_differ.
    apply lookup_insert_eq. }
  assert (Hp1 : fs w1 !! public_key_path
                = Some (File (public_bytes (public_key_of
                          (rsa_generate_private_key 65537 2048 (entropy env)))))).
  { unfold w1, installed; cbn [fs]. rewrite !lookup_insert_ne by paths_differ.
    apply lookup_insert_eq. }
  assert (Hl1 : fs w1 !! signatures_file <> Some Dir).
  { unfold w1, installed; cbn [fs]. rewrite !lookup_insert_ne by paths_differ.
    rewrite lookup_insert_eq. discriminate. }
  split; [apply init_fresh, Hfresh|]. split; [reflexivity|]. split.
  - apply (sign_document_success ref info now1 now2 salt w1 D _ _ Hf1 Hk1
             (load_private_bytes _) Hl1).
  - apply verify_stored_valid.
    + apply scan_stored. intros k r0 [].
    + rewrite stored_keeps by auto. exact Hf1.
    + rewrite stored_keeps by paths_differ. exact Hp1.
Qed.

Lemma first_use_sign_verify_witness :
  fresh_install (fs Demo.disk0) /\
  __init__ Demo.env0 Demo.disk0 = (Returned tt, installed Demo.env0 Demo.disk0) /\
  signatures (installed Demo.env0 Demo.disk0) = [] /\
  sign_document "contract.txt" Demo.acme
      (Demo.at_time 9 0 0 100) (Demo.at_time 9 0 0 150) (Demo.text "salt-1")
      (installed Demo.env0 Demo.disk0)
    = (Returned (success_result Demo.record1),
       stored (installed Demo.env0 Demo.disk0) Demo.record1) /\
  verify_signature "contract.txt" (stored (installed Demo.env0 Demo.disk0) Demo.record1)
    = (Returned (valid_verdict Demo.record1),
       stored (installed Demo.env0 Demo.disk0) Demo.record1).
Proof.
  assert (Hfresh : fresh_install (fs Demo.disk0)) by (repeat split; evaluate).
  split; [exact Hfresh|].
  apply (@first_use_sign_verify Demo.primitives demo_laws Demo.env0 Demo.disk0
           "contract.txt" Demo.contract_v1 Demo.acme
           (Demo.at_time 9 0 0 100) (Demo.at_time 9 0 0 150) (Demo.text "salt-1") Hfresh).
  evaluate.
Defined.

(* ===================================================================== *)
(** * Invoices *)
(* ===================================================================== *)

(** X10.  [sign_xml_invoice] signs under the identity of the billing
    system and nothing of the caller's: when it returns, either the XML
    file does not exist, the result is the error dictionary and nothing
    was recorded, or the stored record and the result carry the three
    fixed signer fields, none of them empty. *)
Theorem sign_xml_invoice_signs_as_billing_system `{Primitives}
    xml_path now1 now2 salt w res w1 :
  sign_xml_invoice xml_path now1 now2 salt w = (Returned res, w1) ->
  (fs w !! xml_path = None /\ res = document_not_found /\ w1 = w) \/
  (exists r,
     res = success_result r /\ w1 = stored w r /\
     PyDict.get (signatures w1) ("SIG-" +:+ strftime_YmdHMS now1) = Some r /\
     document_path r = PosixPath.normpath xml_path /\
     signer_name r = "Sistema de Facturación MiPyME" /\
     signer_email r = "facturacion@mipyme.vn" /\
     signer_tax_code r = "DEMO-TAX-CODE" /\
     res !! "signer" = Some (PyStr "Sistema de Facturación MiPyME")).
Proof.
  unfold sign_xml_invoice. cbv zeta. intros Hrun.
  destruct (sign_document_returns _ _ _ _ _ _ _ _ Hrun)
    as [Hmiss|(D & sk & _ & _ & _ & -> & ->)]; [left; exact Hmiss|].
  right. eexists. split; [reflexivity|]. split; [reflexivity|].
  split; [unfold stored; cbn [signatures signature_id new_record]; apply PyDictFacts.get_set_eq|].
  split; [reflexivity|].
  assert (Hname : (<[ "name" := "Sistema de Facturación MiPyME" ]>
                   (<[ "email" := "facturacion@mipyme.vn" ]>
                    ({[ "tax_code" := "DEMO-TAX-CODE" ]} : gmap string string)))
                  !! "name" = Some "Sistema de Facturación MiPyME")
    by apply lookup_insert_eq.
  assert (Hemail : (<[ "name" := "Sistema de Facturación MiPyME" ]>
                   (<[ "email" := "facturacion@mipyme.vn" ]>
                    ({[ "tax_code" := "DEMO-TAX-CODE" ]} : gmap string string)))
                  !! "email" = Some "facturacion@mipyme.vn").
  { rewrite lookup_insert_ne by discriminate. apply lookup_insert_eq. }
  assert (Htax : (<[ "name" := "Sistema de Facturación MiPyME" ]>
                   (<[ "email" := "facturacion@mipyme.vn" ]>
                    ({[ "tax_code" := "DEMO-TAX-CODE" ]} : gmap string string)))
                  !! "tax_code" = Some "DEMO-TAX-CODE").
  { rewrite !lookup_insert_ne by discriminate. apply lookup_singleton_eq. }
  cbn [signer_name signer_email signer_tax_code new_record].
  rewrite Hname, Hemail, Htax. cbn [default].
  repeat (split; [reflexivity|]).
  unfold success_result.
  rewrite !lookup_insert_ne by discriminate.
  cbn [signer_name new_record]. rewrite Hname. apply lookup_insert_eq.
Qed.

Lemma sign_xml_invoice_signs_as_billing_system_witness :
  sign_xml_invoice "invoice.xml" (Demo.at_time 9 5 0 0) (Demo.at_time 9 5 0 9)
      (Demo.text "salt-2") Demo.signed_once
    = (Returned (success_result Scenes.billed_record), stored Demo.signed_once Scenes.billed_record) /\
  signer_name Scenes.billed_record = "Sistema de Facturación MiPyME" /\
  signer_tax_code Scenes.billed_record = "DEMO-TAX-CODE".
Proof.
  assert (Hrun : sign_xml_invoice "invoice.xml" (Demo.at_time 9 5 0 0) (Demo.at_time 9 5 0 9)
      (Demo.text "salt-2") Demo.signed_once
    = (Returned (success_result Scenes.billed_record),
       stored Demo.signed_once Scenes.billed_record)).
  { unfold sign_xml_invoice. cbv zeta. demo_sign Demo.invoice. }
  split; [exact Hrun|].
  destruct (@sign_xml_invoice_signs_as_billing_system Demo.primitives _ _ _ _ _ _ _ Hrun)
    as [(_ & Hres & _)|(r & Hres & _)]; split; evaluate.
Defined.

(* ===================================================================== *)
(** * Damaged key stores and ledgers *)
(* ===================================================================== *)

Section Damage.
Context `{Primitives}.


(** X12.  Construction over a ledger file that cannot be read, because it
    is a directory or because [json.load] raises on its bytes, raises that
    exception: the file is not reset, no key is generated, no file but the
    key folder is created and the ledger in memory is not assigned. *)
Theorem init_raises_on_unreadable_ledger env w e :
  (forall c, fs w !! keys_folder <> Some (File c)) ->
  (fs w !! signatures_file = Some Dir /\ e = IsADirectoryError signatures_file) \/
  (exists data, fs w !! signatures_file = Some (File data) /\ json_load data = Raised e) ->
  exists w',
    __init__ env w = (Raised e, w') /\
    signatures w' = signatures w /\
    (forall p, p <> keys_folder -> fs w' !! p = fs w !! p).
Proof.
  intros Hfolder Hledger.
  assert (Hmk : exists w0, os_makedirs keys_folder w = (Returned tt, w0) /\
                  signatures w0 = signatures w /\
                  (forall p, p <> keys_folder -> fs w0 !! p = fs w !! p)).
  { unfold os_makedirs. destruct (fs w !! keys_folder) as [[|c]|] eqn:Hk.
    - exists w. auto.
    - exfalso. exact (Hfolder c eq_refl).
    - eexists. split; [reflexivity|]. split; [reflexivity|].
      intros p Hp. cbn [fs with_fs]. apply lookup_insert_ne. congruence. }
  destruct Hmk as (w0 & Hmk & Hsig & Hfs).
  assert (Hl0 : fs w0 !! signatures_file = fs w !! signatures_file)
    by (apply Hfs; paths_differ).
  exists w0. split; [|split; assumption].
  unfold __init__, bind at 1. rewrite Hmk.
  unfold bind at 1, _load_signatures, bind at 1, os_path_exists. rewrite Hl0.
  destruct Hledger as [(Hd & ->)|(data & Hd & Hj)]; rewrite Hd.
  - unfold bind, read_file. rewrite Hl0, Hd. reflexivity.
  - unfold bind, read_file, lift. rewrite Hl0, Hd, Hj. reflexivity.
Qed.

(** X13.  A private key file alone passes for an identity.  Over a store
    that holds the private key and no public key file, construction
    completes without writing anything, so the public key is not
    restored; documents are then signed as usual, and the verification of
    a document signed this way returns the verdict with integrity
    ["invalid"], for the missing public key file. *)
Theorem private_key_alone_passes_for_identity `{!PrimitiveLaws}
    env w sk ref D info now1 now2 salt :
  ledger_in_sync w ->
  fs w !! keys_folder = Some Dir ->
  fs w !! private_key_path = Some (File (private_bytes sk)) ->
  fs w !! public_key_path = None ->
  fs w !! ref = Some (File D) ->
  ref <> signatures_file ->
  unsigned (signatures w) ref ->
  __init__ env w = (Returned tt, w) /\
  sign_document ref info now1 now2 salt w
    = (Returned (success_result (new_record sk D ref info now1 now2 salt)),
       stored w (new_record sk D ref info now1 now2 salt)) /\
  verify_signature ref (stored w (new_record sk D ref info now1 now2 salt))
    = (Returned (invalid_verdict (FileNotFoundError public_key_path)),
       stored w (new_record sk D ref info now1 now2 salt)).
Proof.
  intros Hsync Hfolder Hpriv Hpub Hf Hne Hu.
  split; [apply init_over_synced; [assumption | assumption | congruence]|].
  split.
  - apply (sign_document_success ref info now1 now2 salt w D _ sk Hf Hpriv
             (load_private_bytes sk)).
    destruct Hsync as (data & Hfile & _). congruence.
  - apply (verify_missing_public_key ref _ (new_record sk D ref info now1 now2 salt) D
             (pss_sign sk (sha256 D) salt)).
    + apply scan_stored, Hu.
    + rewrite stored_keeps by exact Hne. exact Hf.
    + apply b64decode_b64encode.
    + apply b64decode_b64encode.
    + rewrite stored_keeps by paths_differ. exact Hpub.
Qed.

End Damage.


Lemma init_raises_on_unreadable_ledger_witness :
  fs Scenes.corrupted !! signatures_file = Some (File (Demo.text "{")) /\
  json_load (Demo.text "{") = Raised (ValueError "Expecting value") /\
  exists w',
    __init__ Demo.env1 Scenes.corrupted = (Raised (ValueError "Expecting value"), w') /\
    signatures w' = signatures Scenes.corrupted /\
    fs w' !! private_key_path = fs Scenes.corrupted !! private_key_path.
Proof.
  assert (Hf : fs Scenes.corrupted !! signatures_file = Some (File (Demo.text "{")))
    by evaluate.
  assert (Hj : json_load (Demo.text "{") = Raised (ValueError "Expecting value"))
    by evaluate.
  split; [exact Hf|]. split; [exact Hj|].
  destruct (@init_raises_on_unreadable_ledger Demo.primitives Demo.env1 Scenes.corrupted
              (ValueError "Expecting value")) as (w' & Hrun & Hsig & Hfs).
  - intros c. vm_compute. discriminate.
  - right. exists (Demo.text "{"). split; [exact Hf | exact Hj].
  - exists w'. split; [exact Hrun|]. split; [exact Hsig|]. apply Hfs. paths_differ.
Defined.

Lemma private_key_alone_passes_for_identity_witness :
  ledger_in_sync Scenes.half_keyed /\
  fs Scenes.half_keyed !! public_key_path = None /\
  __init__ Demo.env1 Scenes.half_keyed = (Returned tt, Scenes.half_keyed) /\
  sign_document "contract.txt" Demo.acme
      (Demo.at_time 9 0 0 100) (Demo.at_time 9 0 0 150) (Demo.text "salt-1")
      Scenes.half_keyed
    = (Returned (success_result Demo.record1), stored Scenes.half_keyed Demo.record1) /\
  verify_signature "contract.txt" (stored Scenes.half_keyed Demo.record1)
    = (Returned (invalid_verdict (FileNotFoundError public_key_path)),
       stored Scenes.half_keyed Demo.record1).
Proof.
  assert (Hsync : ledger_in_sync Scenes.half_keyed).
  { exists (Demo.dump []). split; evaluate. }
  assert (Hpub : fs Scenes.half_keyed !! public_key_path = None) by evaluate.
  split; [exact Hsync|]. split; [exact Hpub|].
  apply (@private_key_alone_passes_for_identity Demo.primitives demo_laws
           Demo.env1 Scenes.half_keyed Demo.key "contract.txt" Demo.contract_v1 Demo.acme
           (Demo.at_time 9 0 0 100) (Demo.at_time 9 0 0 150) (Demo.text "salt-1") Hsync);
    [evaluate | evaluate | exact Hpub | evaluate | paths_differ | intros k r []].
Defined.

(* ===================================================================== *)
(** * The document manager *)
(* ===================================================================== *)

Lemma get_not_key {V} (d : PyDict.t V) k : k ∉ PyDict.keys d -> PyDict.get d k = None.
Proof.
  induction d as [|[k' v] d IH]; simpl; intros Hk; [reflexivity|].
  destruct (String.eqb k' k) eqn:E.
  - apply String.eqb_eq in E. subst k'. exfalso. apply Hk. left.
  - apply IH. intros Hin. apply Hk. right. exact Hin.
Qed.

Lemma get_pydict_del_eq {V} (d : PyDict.t V) k :
  NoDup (PyDict.keys d) -> PyDict.get (pydict_del d k) k = None.
Proof.
  induction d as [|[k' v] d IH]; simpl; intros Hd; [reflexivity|].
  apply NoDup_cons in Hd as [Hk' Hd].
  destruct (String.eqb k' k) eqn:E.
  - apply String.eqb_eq in E. subst k'. apply get_not_key, Hk'.
  - simpl. rewrite E. apply IH, Hd.
Qed.

Lemma get_pydict_del_ne {V} (d : PyDict.t V) k k' :
  k' <> k -> PyDict.get (pydict_del d k) k' = PyDict.get d k'.
Proof.
  intros Hne. induction d as [|[k0 v] d IH]; simpl; [reflexivity|].
  destruct (String.eqb k0 k) eqn:E.
  - apply String.eqb_eq in E. subst k0.
    destruct (String.eqb k k') eqn:E'; [|reflexivity].
    apply String.eqb_eq in E'. congruence.
  - simpl. destruct (String.eqb k0 k'); [reflexivity | exact IH].
Qed.

Lemma length_pydict_del {V} (d : PyDict.t V) k v :
  PyDict.get d k = Some v -> S (length (pydict_del d k)) = length d.
Proof.
  induction d as [|[k0 v0] d IH]; simpl; [discriminate|].
  destruct (String.eqb k0 k); [reflexivity|].
  intros Hg. simpl. f_equal. apply IH, Hg.
Qed.

Section Deletion.
Context `{DocumentJson}.
Variable upload_folder : string.

(** The state [delete_document] leaves when it goes through. *)
Lemma delete_document_run doc_id s doc :
  PyDict.get (documents s) doc_id = Some doc ->
  fs (digital_sig s) !! os_path_join upload_folder (stored_filename doc) <> Some Dir ->
  fs (digital_sig s) !! DocumentManager.metadata_file upload_folder <> Some Dir ->
  os_path_join upload_folder (stored_filename doc) <> DocumentManager.metadata_file upload_folder ->
  DocumentManager.delete_document upload_folder doc_id s
  = (Returned {[ "success" := PyBool true ]},
     {| digital_sig :=
          with_fs (digital_sig s)
            (<[ DocumentManager.metadata_file upload_folder :=
                  File (dump_documents (pydict_del (documents s) doc_id)) ]>
             (delete (os_path_join upload_folder (stored_filename doc)) (fs (digital_sig s))));
        documents := pydict_del (documents s) doc_id |}).
Proof.
  intros Hget Hfile Hmeta Hne.
  set (p := os_path_join upload_folder (stored_filename doc)) in *.
  set (meta := DocumentManager.metadata_file upload_folder) in *.
  unfold DocumentManager.delete_document. rewrite Hget. cbv zeta.
  fold p. unfold app_bind at 1 2 3, on_disk at 1, os_path_exists.
  destruct s as [w docs]; cbn [digital_sig documents] in *.
  destruct (fs w !! p) as [[|D]|] eqn:Hp; [congruence| |].
  - unfold on_disk, os_remove, with_digital_sig; cbn [digital_sig documents].
    rewrite Hp.
    unfold app_bind, DocumentManager.del_document, DocumentManager._save_metadata, on_disk,
      with_documents, with_digital_sig, write_file, app_ret;
      cbn [digital_sig documents fs with_fs].
    fold meta. rewrite lookup_delete_ne by congruence.
    destruct (fs w !! meta) as [[|M0]|] eqn:Hm; [congruence| |]; reflexivity.
  - unfold app_bind, app_ret, DocumentManager.del_document, DocumentManager._save_metadata,
      on_disk, with_documents, with_digital_sig, write_file;
      cbn [digital_sig documents fs with_fs].
    fold meta. rewrite (delete_id (fs w) p Hp).
    destruct (fs w !! meta) as [[|M0]|] eqn:Hm; [congruence| |]; reflexivity.
Qed.

(** X14.  [delete_document] on a registered document whose stored file
    is a regular file or is already gone: the call succeeds, the entry and
    the file are gone, the metadata file holds the remaining entries, and
    nothing else changes: not the other entries, not the other files, and
    not the signature ledger, which keeps any record made for the file. *)
Theorem delete_document_effects doc_id s doc :
  NoDup (PyDict.keys (documents s)) ->
  PyDict.get (documents s) doc_id = Some doc ->
  fs (digital_sig s) !! os_path_join upload_folder (stored_filename doc) <> Some Dir ->
  fs (digital_sig s) !! DocumentManager.metadata_file upload_folder <> Some Dir ->
  os_path_join upload_folder (stored_filename doc) <> DocumentManager.metadata_file upload_folder ->
  exists s',
    DocumentManager.delete_document upload_folder doc_id s
      = (Returned {[ "success" := PyBool true ]}, s') /\
    DocumentManager.get_document doc_id s' = None /\
    DocumentManager.get_document_path upload_folder doc_id s' = None /\
    S (DocumentManager.get_document_count s') = DocumentManager.get_document_count s /\
    (forall k, k <> doc_id ->
       DocumentManager.get_document k s' = DocumentManager.get_document k s) /\
    fs (digital_sig s') !! os_path_join upload_folder (stored_filename doc) = None /\
    fs (digital_sig s') !! DocumentManager.metadata_file upload_folder
      = Some (File (dump_documents (documents s'))) /\
    (forall q, q <> os_path_join upload_folder (stored_filename doc) ->
       q <> DocumentManager.metadata_file upload_folder ->
       fs (digital_sig s') !! q = fs (digital_sig s) !! q) /\
    signatures (digital_sig s') = signatures (digital_sig s).
Proof.
  intros Hnd Hget Hfile Hmeta Hne.
  eexists. split; [exact (delete_document_run doc_id s doc Hget Hfile Hmeta Hne)|].
  unfold DocumentManager.get_document, DocumentManager.get_document_path,
    DocumentManager.get_document_count; cbn [digital_sig documents fs with_fs signatures].
  rewrite (get_pydict_del_eq _ _ Hnd).
  split; [reflexivity|]. split; [reflexivity|].
  split; [exact (length_pydict_del _ _ _ Hget)|].
  split; [intros k Hk; apply get_pydict_del_ne, Hk|].
  split; [rewrite lookup_insert_ne by congruence; apply lookup_delete_eq|].
  split; [apply lookup_insert_eq|].
  split; [|reflexivity].
  intros q Hq1 Hq2. rewrite lookup_insert_ne by congruence.
  apply lookup_delete_ne. congruence.
Qed.

End Deletion.

Lemma delete_document_effects_witness :
  NoDup (PyDict.keys (documents Office.signed)) /\
  PyDict.get (documents Office.signed) "d1" = Some Office.report /\
  exists s',
    DocumentManager.delete_document "uploads" "d1" Office.signed
      = (Returned {[ "success" := PyBool true ]}, s') /\
    DocumentManager.get_document "d1" s' = None /\
    fs (digital_sig s') !! "uploads/d1.txt" = None /\
    signatures (digital_sig s') = signatures (digital_sig Office.signed).
Proof.
  assert (Hnd : NoDup (PyDict.keys (documents Office.signed))).
  { apply NoDup_cons. split; [apply not_elem_of_nil | apply NoDup_nil_2]. }
  assert (Hget : PyDict.get (documents Office.signed) "d1" = Some Office.report)
    by reflexivity.
  split; [exact Hnd|]. split; [exact Hget|].
  destruct (@delete_document_effects Office.codec "uploads" "d1" Office.signed Office.report
              Hnd Hget)
    as (s' & Hrun & Hgone & _ & _ & _ & Hfile & _ & _ & Hledger).
  - vm_compute. discriminate.
  - vm_compute. discriminate.
  - vm_compute. discriminate.
  - exists s'. repeat split; assumption.
Defined.

(* ===================================================================== *)
(** * The signature routes *)
(* ===================================================================== *)

Lemma append_nonempty a b : a <> "" -> a +:+ b <> "".
Proof. destruct a; [congruence | discriminate]. Qed.

Lemma os_path_join_nonempty a b : a <> "" -> os_path_join a b <> "".
Proof.
  intros Ha. unfold os_path_join.
  destruct (String.prefix "/" b) eqn:E.
  - destruct b; [discriminate E | discriminate].
  - destruct (String.eqb a "" || ends_with_sep a); apply append_nonempty, Ha.
Qed.

Section RouteFacts.
Context `{Primitives} `{DocumentJson}.

(** X15.  Deleting a signed document through the application leaves its
    signature record behind: the ledger lists it as before, but the file
    is gone, so the verification route no longer returns a verdict for
    its path (the exception [FileNotFoundError] leaves the view), and
    the document can no longer be signed by its id. *)
Theorem deleted_document_cannot_be_verified doc_id s doc r :
  DocumentManager.get_document doc_id s = Some doc ->
  NoDup (PyDict.keys (documents s)) ->
  fs (digital_sig s) !! os_path_join Routes.UPLOAD_FOLDER (stored_filename doc) <> Some Dir ->
  fs (digital_sig s) !! DocumentManager.metadata_file Routes.UPLOAD_FOLDER <> Some Dir ->
  os_path_join Routes.UPLOAD_FOLDER (stored_filename doc)
    <> DocumentManager.metadata_file Routes.UPLOAD_FOLDER ->
  scan_signatures (signatures (digital_sig s))
    (PosixPath.normpath (os_path_join Routes.UPLOAD_FOLDER (stored_filename doc))) = Some r ->
  exists s',
    Routes.delete_document doc_id s = (Json {[ "success" := PyBool true ]} None 200, s') /\
    Routes.list_signatures s' = Routes.list_signatures s /\
    Routes.verify_signature
      (Some (os_path_join Routes.UPLOAD_FOLDER (stored_filename doc))) s'
    = (InternalServerError
         (Propagated (FileNotFoundError
            (os_path_join Routes.UPLOAD_FOLDER (stored_filename doc)))), s') /\
    forall data now1 now2 salt,
      Routes.sign_specific_document doc_id data now1 now2 salt s'
      = (Json document_not_found None 404, s').
Proof.
  intros Hget Hnd Hfile Hmeta Hne Hscan.
  set (p := os_path_join Routes.UPLOAD_FOLDER (stored_filename doc)) in *.
  eexists. split.
  { unfold Routes.delete_document.
    rewrite (delete_document_run Routes.UPLOAD_FOLDER doc_id s doc Hget Hfile Hmeta Hne).
    reflexivity. }
  split; [reflexivity|]. split.
  - unfold Routes.verify_signature; cbn [digital_sig].
    rewrite (verify_unreadable p _ r) by exact Hscan.
    cbn [fs with_fs]. fold p. rewrite lookup_insert_ne by congruence.
    rewrite lookup_delete_eq. reflexivity.
  - intros data now1 now2 salt.
    unfold Routes.sign_specific_document, DocumentManager.get_document_path;
      cbn [documents].
    rewrite (get_pydict_del_eq _ _ Hnd). reflexivity.
Qed.

(** X16.  The route [/signature/sign] answers [Document not found] with
    status 404 and without calling the engine when the path is missing
    from the request, empty or names nothing on the disk; every other JSON
    reply has status 200 and is the success result of a record that is now
    stored.  So the error dictionary the engine itself returns for a
    missing path never comes back from this route. *)
Theorem sign_route_json_replies path info now1 now2 salt s body di c s' :
  Routes.sign_document path info now1 now2 salt s = (Json body di c, s') ->
  di = None /\
  ((c = 404%Z /\ body = document_not_found /\ s' = s /\
    (path = None \/ path = Some "" \/
     exists p, path = Some p /\ fs (digital_sig s) !! p = None)) \/
   (c = 200%Z /\
    exists p i D sk,
      path = Some p /\ info = Some i /\ p <> "" /\
      fs (digital_sig s) !! p = Some (File D) /\
      body = success_result (new_record sk D p i now1 now2 salt) /\
      s' = with_digital_sig s
             (stored (digital_sig s) (new_record sk D p i now1 now2 salt)))).
Proof.
  unfold Routes.sign_document. intros Hrun.
  destruct path as [p|]; [|injection Hrun as <- <- <- <-; split; [reflexivity|]; left; auto].
  destruct (String.eqb p "") eqn:Hp.
  { apply String.eqb_eq in Hp. subst p.
    injection Hrun as <- <- <- <-. split; [reflexivity|]. left. auto 6. }
  destruct (fs (digital_sig s) !! p) as [n|] eqn:Hf.
  2:{ injection Hrun as <- <- <- <-. split; [reflexivity|]. left.
      repeat (split; [reflexivity|]). right. right. exists p. auto. }
  destruct info as [i|].
  - destruct (sign_document p i now1 now2 salt (digital_sig s)) as [[res|e] w] eqn:Hsign;
      [|discriminate].
    injection Hrun as <- <- <- <-. split; [reflexivity|]. right. split; [reflexivity|].
    destruct (sign_document_returns _ _ _ _ _ _ _ _ Hsign)
      as [(Hnone & _)|(D & sk & HD & _ & _ & -> & ->)]; [congruence|].
    exists p, i, D, sk. apply String.eqb_neq in Hp. auto 8.
  - exfalso. unfold Routes.sign_document_none in Hrun. rewrite Hf in Hrun.
    destruct n; [discriminate|].
    destruct (fst (_load_private_key (digital_sig s))); discriminate.
Qed.

(** X17.  A request to [/signature/sign] that names an existing path and
    carries no [signer_info] is never answered with JSON: an exception
    leaves the view and nothing is signed.  When the document and the
    private key can be read, it is the [AttributeError] of
    [signer_info.get] on [None]. *)
Theorem sign_route_without_signer_info p now1 now2 salt s :
  p <> "" ->
  fs (digital_sig s) !! p <> None ->
  exists e,
    Routes.sign_document (Some p) None now1 now2 salt s = (InternalServerError e, s) /\
    (forall D pem sk,
       fs (digital_sig s) !! p = Some (File D) ->
       fs (digital_sig s) !! private_key_path = Some (File pem) ->
       load_pem_private_key pem = Returned sk ->
       e = AttributeError "'NoneType' object has no attribute 'get'").
Proof.
  intros Hp Hf. unfold Routes.sign_document, Routes.sign_document_none.
  rewrite (proj2 (String.eqb_neq p "") Hp).
  destruct (fs (digital_sig s) !! p) as [[|D]|] eqn:HD; [| |congruence].
  - eexists. split; [reflexivity|]. intros; discriminate.
  - unfold _load_private_key, bind, read_file, lift.
    destruct (fs (digital_sig s) !! private_key_path) as [[|pem]|] eqn:Hk; cbn [fst];
      try (eexists; split; [reflexivity|]; intros; discriminate).
    destruct (load_pem_private_key pem) as [sk|e] eqn:Hsk; cbn [fst];
      eexists; (split; [reflexivity|]); intros D' pem' sk' _ [= <-] Hsk'; congruence.
Qed.

(** X18.  The route [/signature/verify] changes nothing and answers every
    verdict of the engine, valid or not, with status 200: for a path
    without a record that is the not-found verdict.  A request without
    [document_path] is not answered with JSON. *)
Theorem verify_route_replies path s :
  snd (Routes.verify_signature path s) = s /\
  (forall body di c,
     fst (Routes.verify_signature path s) = Json body di c ->
     c = 200%Z /\ di = None /\
     exists p, path = Some p /\
               verify_signature p (digital_sig s) = (Returned body, digital_sig s)) /\
  (forall p, path = Some p -> unsigned (signatures (digital_sig s)) p ->
     fst (Routes.verify_signature path s) = Json not_found_verdict None 200) /\
  (path = None -> exists msg,
     fst (Routes.verify_signature path s) = InternalServerError (TypeError msg)).
Proof.
  unfold Routes.verify_signature.
  destruct path as [p|]; cbn [fst snd].
  - pose proof (reader_verify_signature p (digital_sig s)) as Hr.
    destruct (verify_signature p (digital_sig s)) as [[v|e] w] eqn:Hv;
      cbn [snd] in Hr; subst w; cbn [fst snd].
    + split; [destruct s; reflexivity|]. split.
      * intros body di c [= <- <- <-]. eauto.
      * split; [|discriminate].
        intros p' [= <-] Hu. rewrite verify_not_found in Hv by (apply unsigned_scan, Hu).
        injection Hv as <-. reflexivity.
    + split; [destruct s; reflexivity|]. split; [discriminate|].
      split; [|discriminate].
      intros p' [= <-] Hu. rewrite verify_not_found in Hv by (apply unsigned_scan, Hu).
      discriminate.
  - split; [reflexivity|]. split; [discriminate|]. split; [discriminate|]. eauto.
Qed.

(** X19.  Signing by document id: an unknown id is answered with status
    404; a registered document whose stored file is missing is answered
    with the same error dictionary and status 200, from the engine.  In
    both cases nothing changes. *)
Theorem sign_specific_document_not_found doc_id data now1 now2 salt s :
  (DocumentManager.get_document doc_id s = None ->
   Routes.sign_specific_document doc_id data now1 now2 salt s
   = (Json document_not_found None 404, s)) /\
  (forall doc,
     DocumentManager.get_document doc_id s = Some doc ->
     fs (digital_sig s) !! os_path_join Routes.UPLOAD_FOLDER (stored_filename doc) = None ->
     Routes.sign_specific_document doc_id data now1 now2 salt s
     = (Json document_not_found None 200, s)).
Proof.
  unfold Routes.sign_specific_document, DocumentManager.get_document_path,
    DocumentManager.get_document.
  split.
  - intros ->. reflexivity.
  - intros doc -> Hf.
    rewrite (proj2 (String.eqb_neq _ "")) by (apply os_path_join_nonempty; discriminate).
    cbv zeta. rewrite sign_document_missing by exact Hf.
    destruct s; reflexivity.
Qed.

(** X20.  Signing by document id, then verifying by path: for a registered
    document whose stored file can be read and has no record yet, under a
    key store that holds one pair, the route signs the stored file with the
    signer fields of the request, each defaulting to the system user,
    replies with the success result and the document's title, category and
    original file name, and the verification route then answers with the
    valid verdict for that record. *)
Theorem sign_specific_document_then_verify `{!PrimitiveLaws}
    doc_id data now1 now2 salt s doc D sk :
  DocumentManager.get_document doc_id s = Some doc ->
  fs (digital_sig s) !! os_path_join Routes.UPLOAD_FOLDER (stored_filename doc)
    = Some (File D) ->
  identity_persisted (fs (digital_sig s)) sk ->
  fs (digital_sig s) !! signatures_file <> Some Dir ->
  os_path_join Routes.UPLOAD_FOLDER (stored_filename doc) <> signatures_file ->
  unsigned (signatures (digital_sig s))
    (os_path_join Routes.UPLOAD_FOLDER (stored_filename doc)) ->
  exists r s',
    Routes.sign_specific_document doc_id data now1 now2 salt s
    = (Json (success_result r)
         (Some (<[ "title" := title doc ]>
               (<[ "category" := category doc ]>
               {[ "original_filename" := original_filename doc ]}))) 200, s') /\
    document_path r
      = PosixPath.normpath (os_path_join Routes.UPLOAD_FOLDER (stored_filename doc)) /\
    signer_name r = default "Usuario del Sistema" (data !! "signer_name") /\
    signer_email r = default "usuario@mipyme.vn" (data !! "signer_email") /\
    signer_tax_code r = default "TAX-CODE-001" (data !! "signer_tax_code") /\
    documents s' = documents s /\
    PyDict.get (signatures (digital_sig s')) ("SIG-" +:+ strftime_YmdHMS now1) = Some r /\
    Routes.verify_signature
      (Some (os_path_join Routes.UPLOAD_FOLDER (stored_filename doc))) s'
    = (Json (valid_verdict r) None 200, s').
Proof.
  intros Hdoc Hf [Hpriv Hpub] Hl Hne Hu.
  set (p := os_path_join Routes.UPLOAD_FOLDER (stored_filename doc)) in *.
  set (info := (<[ "name" := default "Usuario del Sistema" (data !! "signer_name") ]>
               (<[ "email" := default "usuario@mipyme.vn" (data !! "signer_email") ]>
               ({[ "tax_code" := default "TAX-CODE-001" (data !! "signer_tax_code") ]}
                  : gmap string string)))).
  set (r := new_record sk D p info now1 now2 salt).
  exists r, (with_digital_sig s (stored (digital_sig s) r)).
  assert (Hsign : sign_document p info now1 now2 salt (digital_sig s)
                  = (Returned (success_result r), stored (digital_sig s) r))
    by exact (sign_document_success p info now1 now2 salt (digital_sig s) D _ sk
                Hf Hpriv (load_private_bytes sk) Hl).
  split.
  { unfold Routes.sign_specific_document, DocumentManager.get_document_path.
    unfold DocumentManager.get_document in Hdoc |- *. rewrite Hdoc. fold p.
    rewrite (proj2 (String.eqb_neq p "")) by (apply os_path_join_nonempty; discriminate).
    cbv zeta. fold info. rewrite Hsign.
    unfold success_result at 1. rewrite lookup_insert_eq. reflexivity. }
  split; [reflexivity|].
  split; [unfold r, new_record, info; cbn [signer_name]; rewrite lookup_insert_eq;
          reflexivity|].
  split; [unfold r, new_record, info; cbn [signer_email];
          rewrite lookup_insert_ne by discriminate; rewrite lookup_insert_eq; reflexivity|].
  split; [unfold r, new_record, info; cbn [signer_tax_code];
          rewrite !lookup_insert_ne by discriminate; rewrite lookup_singleton_eq;
          reflexivity|].
  split; [reflexivity|].
  split; [unfold stored; cbn [digital_sig with_digital_sig signatures];
          apply PyDictFacts.get_set_eq|].
  unfold Routes.verify_signature; cbn [digital_sig with_digital_sig].
  rewrite (verify_stored_valid (stored (digital_sig s) r) sk D p info now1 now2 salt).
  - reflexivity.
  - apply scan_stored, Hu.
  - rewrite stored_keeps by exact Hne. exact Hf.
  - rewrite stored_keeps by paths_differ. exact Hpub.
Qed.

End RouteFacts.

Lemma office_report_file :
  fs (digital_sig Office.opened) !! "uploads/d1.txt" = Some (File Demo.contract_v1).
Proof. evaluate. Qed.

Lemma office_sign_report info salt :
  sign_document "uploads/d1.txt" info (Demo.at_time 9 0 0 100) (Demo.at_time 9 0 0 150)
    salt (digital_sig Office.opened)
  = (Returned (success_result
       (new_record Demo.key Demo.contract_v1 "uploads/d1.txt" info
          (Demo.at_time 9 0 0 100) (Demo.at_time 9 0 0 150) salt)),
     stored (digital_sig Office.opened)
       (new_record Demo.key Demo.contract_v1 "uploads/d1.txt" info
          (Demo.at_time 9 0 0 100) (Demo.at_time 9 0 0 150) salt)).
Proof.
  apply (@sign_document_success Demo.primitives _ _ _ _ _ _
           Demo.contract_v1 Demo.key Demo.key);
    [exact office_report_file | evaluate | reflexivity | vm_compute; discriminate].
Qed.

Lemma deleted_document_cannot_be_verified_witness :
  DocumentManager.get_document "d1" Office.signed = Some Office.report /\
  scan_signatures (signatures (digital_sig Office.signed))
    (PosixPath.normpath "uploads/d1.txt") = Some Office.report_record /\
  exists s',
    Routes.delete_document "d1" Office.signed
      = (Json {[ "success" := PyBool true ]} None 200, s') /\
    Routes.list_signatures s' = [Office.report_record] /\
    Routes.verify_signature (Some "uploads/d1.txt") s'
      = (InternalServerError (Propagated (FileNotFoundError "uploads/d1.txt")), s') /\
    Routes.sign_specific_document "d1" ∅ (Demo.at_time 9 5 0 0) (Demo.at_time 9 5 0 9)
        (Demo.text "salt-2") s'
      = (Json document_not_found None 404, s').
Proof.
  assert (Hget : DocumentManager.get_document "d1" Office.signed = Some Office.report)
    by reflexivity.
  assert (Hscan : scan_signatures (signatures (digital_sig Office.signed))
            (PosixPath.normpath
               (os_path_join Routes.UPLOAD_FOLDER (stored_filename Office.report)))
          = Some Office.report_record) by evaluate.
  split; [exact Hget|]. split; [exact Hscan|].
  destruct (@deleted_document_cannot_be_verified Demo.primitives Office.codec
              "d1" Office.signed Office.report Office.report_record Hget)
    as (s' & Hdel & Hlist & Hverify & Hsign); try exact Hscan.
  - apply NoDup_cons. split; [apply not_elem_of_nil | apply NoDup_nil_2].
  - vm_compute. discriminate.
  - vm_compute. discriminate.
  - vm_compute. discriminate.
  - exists s'. split; [exact Hdel|]. split; [rewrite Hlist; reflexivity|].
    split; [exact Hverify | apply Hsign].
Defined.

Lemma sign_route_json_replies_witness :
  Routes.sign_document (Some "uploads/d1.txt") (Some Demo.acme)
      (Demo.at_time 9 0 0 100) (Demo.at_time 9 0 0 150) (Demo.text "salt-1") Office.opened
    = (Json (success_result
               (new_record Demo.key Demo.contract_v1 "uploads/d1.txt" Demo.acme
                  (Demo.at_time 9 0 0 100) (Demo.at_time 9 0 0 150) (Demo.text "salt-1")))
         None 200,
       with_digital_sig Office.opened
         (stored (digital_sig Office.opened)
            (new_record Demo.key Demo.contract_v1 "uploads/d1.txt" Demo.acme
               (Demo.at_time 9 0 0 100) (Demo.at_time 9 0 0 150) (Demo.text "salt-1")))) /\
  Routes.sign_document (Some "uploads/none.txt") (Some Demo.acme)
      (Demo.at_time 9 0 0 100) (Demo.at_time 9 0 0 150) (Demo.text "salt-1") Office.opened
    = (Json document_not_found None 404, Office.opened) /\
  exists p i D sk,
    Some "uploads/d1.txt" = Some p /\ Some Demo.acme = Some i /\ p <> "" /\
    fs (digital_sig Office.opened) !! p = Some (File D) /\
    success_result
      (new_record Demo.key Demo.contract_v1 "uploads/d1.txt" Demo.acme
         (Demo.at_time 9 0 0 100) (Demo.at_time 9 0 0 150) (Demo.text "salt-1"))
    = success_result
        (new_record sk D p i (Demo.at_time 9 0 0 100) (Demo.at_time 9 0 0 150)
           (Demo.text "salt-1")).
Proof.
  assert (Hrun : Routes.sign_document (Some "uploads/d1.txt") (Some Demo.acme)
      (Demo.at_time 9 0 0 100) (Demo.at_time 9 0 0 150) (Demo.text "salt-1") Office.opened
    = (Json (success_result
               (new_record Demo.key Demo.contract_v1 "uploads/d1.txt" Demo.acme
                  (Demo.at_time 9 0 0 100) (Demo.at_time 9 0 0 150) (Demo.text "salt-1")))
         None 200,
       with_digital_sig Office.opened
         (stored (digital_sig Office.opened)
            (new_record Demo.key Demo.contract_v1 "uploads/d1.txt" Demo.acme
               (Demo.at_time 9 0 0 100) (Demo.at_time 9 0 0 150) (Demo.text "salt-1"))))).
  { unfold Routes.sign_document. cbn [String.eqb Ascii.eqb Bool.eqb].
    rewrite office_report_file, office_sign_report. reflexivity. }
  split; [exact Hrun|]. split.
  { unfold Routes.sign_document. cbn [String.eqb Ascii.eqb Bool.eqb].
    replace (fs (digital_sig Office.opened) !! "uploads/none.txt") with (@None node)
      by (symmetry; evaluate).
    reflexivity. }
  destruct (@sign_route_json_replies Demo.primitives _ _ _ _ _ _ _ _ _ _ Hrun)
    as (_ & [(Hc & _)|(_ & p & i & D & sk & Hp & Hi & Hne & HD & Hbody & _)]);
    [discriminate Hc|].
  exists p, i, D, sk. auto.
Defined.

Lemma sign_route_without_signer_info_witness :
  Routes.sign_document (Some "uploads/d1.txt") None
      (Demo.at_time 9 0 0 100) (Demo.at_time 9 0 0 150) (Demo.text "salt-1") Office.opened
  = (InternalServerError (AttributeError "'NoneType' object has no attribute 'get'"),
     Office.opened).
Proof.
  destruct (@sign_route_without_signer_info Demo.primitives "uploads/d1.txt"
              (Demo.at_time 9 0 0 100) (Demo.at_time 9 0 0 150) (Demo.text "salt-1")
              Office.opened) as (e & Hrun & He).
  - discriminate.
  - rewrite office_report_file. discriminate.
  - rewrite Hrun. f_equal. f_equal.
    apply (He Demo.contract_v1 Demo.key Demo.key);
      [exact office_report_file | evaluate | reflexivity].
Defined.

Lemma sign_specific_document_then_verify_witness :
  DocumentManager.get_document "d1" Office.opened = Some Office.report /\
  identity_persisted (fs (digital_sig Office.opened)) Demo.key /\
  exists r s',
    Routes.sign_specific_document "d1" ∅ (Demo.at_time 9 0 0 100) (Demo.at_time 9 0 0 150)
        (Demo.text "salt-1") Office.opened
    = (Json (success_result r)
         (Some (<[ "title" := "Report" ]>
               (<[ "category" := "general" ]>
               {[ "original_filename" := "report.txt" ]}))) 200, s') /\
    signer_name r = "Usuario del Sistema" /\
    signer_email r = "usuario@mipyme.vn" /\
    signer_tax_code r = "TAX-CODE-001" /\
    Routes.verify_signature (Some "uploads/d1.txt") s'
    = (Json (valid_verdict r) None 200, s').
Proof.
  assert (Hget : DocumentManager.get_document "d1" Office.opened = Some Office.report)
    by reflexivity.
  assert (Hid : identity_persisted (fs (digital_sig Office.opened)) Demo.key)
    by (split; evaluate).
  split; [exact Hget|]. split; [exact Hid|].
  destruct (@sign_specific_document_then_verify Demo.primitives demo_laws
              "d1" ∅ (Demo.at_time 9 0 0 100) (Demo.at_time 9 0 0 150) (Demo.text "salt-1")
              Office.opened Office.report Demo.contract_v1 Demo.key Hget)
    as (r & s' & Hrun & _ & Hn & He & Ht & _ & _ & Hv); try exact Hid.
  - exact office_report_file.
  - vm_compute. discriminate.
  - paths_differ.
  - intros k r [].
  - exists r, s'. split; [exact Hrun|]. split; [exact Hn|]. split; [exact He|].
    split; [exact Ht | exact Hv].
Defined.
